(** * Quiz session engine: score engine, answer ingestion, lifecycle and gateway

    A shallow embedding of the quiz server's session engine:
    - [TugOfWarService] (src/quizzes/services/tug-of-war.service.ts),
    - [QuizzesService] (quizzes.service.ts),
    - [QuizGateway] (gateways/quiz.gateway.ts),
    together with the entities they read and write.

    Conventions of the embedding.
    - A JavaScript [number] that takes part in score arithmetic is an exact
      rational ([Q]); [NaN], the infinities and binary rounding error are
      outside the model.  Integer columns, indices and timestamps are [Z].
    - [Math.pow] is implementation-approximated in ECMAScript; it is a
      parameter of the score engine and every statement holds for any
      choice of it.
    - A database table is the list of its rows, in insertion order.
    - A JavaScript [Map] is a [gmap].
    - A thrown HTTP exception is the [Throw] case of [Result]; a handler's
      [try]/[catch] is a [match] on it.
    - [randomUUID()], [Math.random()] and [Date.now()] are inputs of the
      operations that call them; a loop that draws until it is satisfied
      takes the list of its draws.
    - A call of the service or a gateway handler runs as one step.  Where
      a statement is about two calls whose [await]s interleave, the
      operation is split at the [await] in question; a statement about an
      unsplit operation is about a call that no other call interrupts.
    - A field of a request has the type its DTO declares: a field marked
      [@IsInt] is a [Z], of any size unless a statement bounds it.  The
      columns declared [type: 'int'] hold 32 bits, and an insert of a
      larger value fails.
    - The gateway is registered under the namespace [/quiz]; [this.server]
      is that namespace. *)

From Stdlib Require Import ZArith QArith Qround Qminmax Qabs Lia Lqa Bool List.
From stdpp Require Import gmap strings pretty sorting.
Import ListNotations.

(** ** JavaScript numbers and [Math] *)

Module JS.

Definition number := Q.

(** [Math.round]: nearest integer, ties towards +infinity. *)
Definition Math_round (x : Q) : Q := inject_Z (Qfloor (x + (1 # 2))%Q).

Definition Math_max (x y : Q) : Q := Qmax x y.
Definition Math_min (x y : Q) : Q := Qmin x y.
Definition Math_abs (x : Q) : Q := Qabs x.

Definition Math_sign (x : Q) : Q :=
  match (x ?= 0)%Q with
  | Lt => (-1)%Q
  | Eq => 0%Q
  | Gt => 1%Q
  end.

(** [Math.ceil(x / 1000)] on integers. *)
Definition Math_ceil_div (x d : Z) : Z := (- ((- x) / d))%Z.

(** [x === y], [x > y], [x >= y] on numbers. *)
Definition eqb (x y : Q) : bool := Qeq_bool x y.
Definition gtb (x y : Q) : bool :=
  match (x ?= y)%Q with Gt => true | _ => false end.
Definition geb (x y : Q) : bool := Qle_bool y x.

(** Truthiness of a string ([''] is falsy) and of a nullable string. *)
Definition truthy (s : string) : bool := negb (String.eqb s "").
Definition truthy_opt (s : option string) : bool :=
  match s with Some x => truthy x | None => false end.

(** [xs[i]] for an integer index: [undefined] out of range. *)
Definition index {A} (xs : list A) (i : Z) : option A :=
  if (i <? 0)%Z then None else nth_error xs (Z.to_nat i).

End JS.

(** ** Entities *)

Inductive QuizStatus := CREATED | STARTED | FINISHED.

Inductive Team := TEAM_1 | TEAM_2.

#[global] Instance QuizStatus_eq_dec : EqDecision QuizStatus.
Proof. solve_decision. Defined.

#[global] Instance Team_eq_dec : EqDecision Team.
Proof. solve_decision. Defined.

Definition QuizStatus_eqb (a b : QuizStatus) : bool := bool_decide (a = b).
Definition Team_eqb (a b : Team) : bool := bool_decide (a = b).

Record Quiz := mkQuiz {
  quiz_id : string;
  quiz_title : string;
  quiz_pin : string;
  quiz_status : QuizStatus;
  quiz_creatorId : string
}.

Record AnswerOption := mkAnswerOption {
  option_id : string;
  option_text : string;
  option_order : Z;
  option_questionId : string
}.

Record Question := mkQuestion {
  question_id : string;
  question_text : string;
  question_timeSeconds : Z;
  question_correctAnswerId : option string;
  question_quizId : string;
  question_order : Z
}.

Record Participant := mkParticipant {
  participant_id : string;
  participant_name : string;
  participant_team : Team;
  participant_quizId : string;
  participant_pin : string;
  participant_joinedAt : Z
}.

Record Answer := mkAnswer {
  answer_id : string;
  answer_participantId : string;
  answer_questionId : string;
  answer_selectedOptionId : string;
  answer_isCorrect : bool;
  answer_responseTimeMs : option Z;
  answer_answeredAt : Z
}.

(** The repositories. *)
Record Db := mkDb {
  quizzes : list Quiz;
  questions : list Question;
  answerOptions : list AnswerOption;
  participants : list Participant;
  answers : list Answer
}.

(** ** TugOfWarService *)

Record TugStatus := mkTugStatus {
  position : Q;
  team1Score : Q;
  team2Score : Q;
  hasAnswers : bool
}.

Section TugOfWarService.

Variable Math_pow : Q -> Q -> Q.

Import JS.
Local Open Scope Q_scope.

Definition calculateTeamScore (correctAnswers averageSpeed : Q) : Q :=
  let correctAnswersScore := correctAnswers * 50 in
  let speedScore := averageSpeed * 10 in
  Math_round (correctAnswersScore + speedScore).

(** [a.responseTimeMs || 0] *)
Definition responseTimeMs_or_0 (a : Answer) : Q :=
  match answer_responseTimeMs a with
  | Some t => inject_Z t
  | None => 0
  end.

Definition count {A} (xs : list A) : Q := inject_Z (Z.of_nat (length xs)).

(** The caller always passes [maxTimeMs]; its default is 30000. *)
Definition calculateAverageSpeed (answers : list Answer) (maxTimeMs : Q) : Q :=
  match answers with
  | [] => 0
  | _ =>
      let totalTimeSpent :=
        fold_left (fun sum a => sum + responseTimeMs_or_0 a) answers 0 in
      let averageTimeSpentMs := totalTimeSpent / count answers in
      let maxTimeSeconds := maxTimeMs / 1000 in
      let averageTimeSpentSeconds := averageTimeSpentMs / 1000 in
      let speedScore := Math_max 0 (maxTimeSeconds - averageTimeSpentSeconds) in
      Math_round (speedScore * 100) / 100
  end.

Definition calculateCorrectAnswers (answers : list Answer) : Q :=
  count (List.filter answer_isCorrect answers).

Definition initialTugStatus : TugStatus :=
  {| position := 0; team1Score := 0; team2Score := 0; hasAnswers := false |}.

(** The branch of [updateTugPosition] that caps a one-sided game at 75. *)
Definition oneSided (team1Score team2Score : Q) : bool :=
  let minScore := Math_min team1Score team2Score in
  let maxScore := Math_max team1Score team2Score in
  eqb minScore 0 && gtb maxScore 0.

Definition rawPosition (team1Score team2Score : Q) : Q :=
  let totalScore := team1Score + team2Score in
  let scoreDiff := team1Score - team2Score in
  let maxScore := Math_max team1Score team2Score in
  if oneSided team1Score team2Score then
    Math_sign scoreDiff * 75
  else
    let ratio := maxScore / totalScore in
    let normalizedRatio := Math_min 1 ((ratio - (1 # 2)) / (1 # 4)) in
    Math_sign scoreDiff * Math_pow normalizedRatio (7 # 10) * 100.

Definition updateTugPosition (team1Score team2Score : Q) (hasAnswers : bool)
  : TugStatus :=
  let totalScore := team1Score + team2Score in
  if negb hasAnswers || eqb totalScore 0 then
    initialTugStatus
  else
    let clampedPosition :=
      Math_max (-100) (Math_min 100 (rawPosition team1Score team2Score)) in
    {| position := Math_round (clampedPosition * 100) / 100;
       team1Score := team1Score;
       team2Score := team2Score;
       hasAnswers := true |}.

(** [q.timeSeconds || 30] *)
Definition timeSeconds_or_30 (q : Question) : Q :=
  if (question_timeSeconds q =? 0)%Z then 30
  else inject_Z (question_timeSeconds q).

Definition averageQuestionTime (qs : list Question) : Q :=
  match qs with
  | [] => 30
  | _ =>
      let totalTimeSeconds :=
        fold_left (fun sum q => sum + timeSeconds_or_30 q) qs 0 in
      totalTimeSeconds / count qs
  end.

(** [getAverageQuestionTime]: memoised per quiz in [questionTimeCache]. *)
Definition getAverageQuestionTime
    (cache : gmap string Q) (db : Db) (quizId : string)
  : Q * gmap string Q :=
  match cache !! quizId with
  | Some t => (t, cache)
  | None =>
      let qs :=
        List.filter (fun q => String.eqb (question_quizId q) quizId)
                    (questions db) in
      let averageTimeSeconds := averageQuestionTime qs in
      (averageTimeSeconds, <[quizId := averageTimeSeconds]> cache)
  end.

Definition isMember (members : list Participant) (a : Answer) : bool :=
  existsb (fun m => String.eqb (participant_id m) (answer_participantId a))
          members.

Definition teamScoreOf (teamAnswers : list Answer) (maxTimeMs : Q) : Q :=
  calculateTeamScore (calculateCorrectAnswers teamAnswers)
                     (calculateAverageSpeed teamAnswers maxTimeMs).

Definition calculateTugPosition
    (cache : gmap string Q) (db : Db) (quizId : string)
  : TugStatus * gmap string Q :=
  let ps :=
    List.filter (fun p => String.eqb (participant_quizId p) quizId)
                (participants db) in
  match ps with
  | [] => (initialTugStatus, cache)
  | _ =>
      let '(averageTimeSeconds, cache') :=
        getAverageQuestionTime cache db quizId in
      let maxTimeMs := averageTimeSeconds * 1000 in
      let allAnswers := List.filter (isMember ps) (answers db) in
      let team1Members :=
        List.filter (fun p => Team_eqb (participant_team p) TEAM_1) ps in
      let team2Members :=
        List.filter (fun p => Team_eqb (participant_team p) TEAM_2) ps in
      let team1Answers := List.filter (isMember team1Members) allAnswers in
      let team2Answers := List.filter (isMember team2Members) allAnswers in
      let hasAnswers := negb (Nat.eqb (length allAnswers) 0) in
      (updateTugPosition (teamScoreOf team1Answers maxTimeMs)
                         (teamScoreOf team2Answers maxTimeMs)
                         hasAnswers,
       cache')
  end.

Definition determineWinner (tugStatus : TugStatus) : option Team :=
  if gtb (position tugStatus) 0 then Some TEAM_1
  else if gtb 0 (position tugStatus) then Some TEAM_2
  else None.

Definition clearCache (cache : gmap string Q) (quizId : string)
  : gmap string Q :=
  delete quizId cache.

End TugOfWarService.

(** ** Exceptions and the state-and-exception monad *)

(** What the services throw: the three HTTP exceptions of their own, and
    TypeORM's [QueryFailedError] when the database refuses a statement. *)
Inductive HttpException :=
| NotFoundException (message : string)
| BadRequestException (message : string)
| ForbiddenException (message : string)
| QueryFailedError (message : string).

Definition exception_message (e : HttpException) : string :=
  match e with
  | NotFoundException m => m
  | BadRequestException m => m
  | ForbiddenException m => m
  | QueryFailedError m => m
  end.

Inductive Result (A : Type) :=
| Ok (a : A)
| Throw (e : HttpException).

Arguments Ok {A} a.
Arguments Throw {A} e.

(** A computation over a mutable state [S]: the state it leaves behind is
    returned in both outcomes, so what was written before a [throw] stays
    written. *)
Definition M (S A : Type) : Type := S -> Result A * S.

Definition ret {S A} (a : A) : M S A := fun s => (Ok a, s).

Definition throw {S A} (e : HttpException) : M S A := fun s => (Throw e, s).

Definition bind {S A B} (c : M S A) (k : A -> M S B) : M S B :=
  fun s =>
    match c s with
    | (Ok a, s') => k a s'
    | (Throw e, s') => (Throw e, s')
    end.

Definition gets {S A} (f : S -> A) : M S A := fun s => (Ok (f s), s).

Definition modify {S} (f : S -> S) : M S unit := fun s => (Ok tt, f s).

(** [try { c } catch (error) { h error }] *)
Definition tryCatch {S A} (c : M S A) (h : HttpException -> M S A) : M S A :=
  fun s =>
    match c s with
    | (Ok a, s') => (Ok a, s')
    | (Throw e, s') => h e s'
    end.

(** [if (cond) throw e] *)
Definition throwIf {S} (cond : bool) (e : HttpException) : M S unit :=
  if cond then throw e else ret tt.

Declare Scope monad_scope.
Delimit Scope monad_scope with monad.
Notation "x <- c ;; k" := (bind c (fun x => k))
  (at level 20, c at level 99, k at level 200) : monad_scope.
Notation "' pat <- c ;; k" := (bind c (fun x => match x with pat => k end))
  (at level 20, pat pattern, c at level 99, k at level 200) : monad_scope.
Notation "c ;; k" := (bind c (fun _ => k))
  (at level 100, k at level 200, right associativity) : monad_scope.

(** ** Repositories: queries and writes *)

(** [ORDER BY key ASC], keeping insertion order among equal keys. *)
Fixpoint insertAsc {A} (key : A -> Z) (x : A) (l : list A) : list A :=
  match l with
  | [] => [x]
  | y :: r => if (key x <=? key y)%Z then x :: l else y :: insertAsc key x r
  end.

Definition orderAsc {A} (key : A -> Z) (l : list A) : list A :=
  fold_right (insertAsc key) [] l.

Definition findQuizByPin (d : Db) (pin : string) : option Quiz :=
  List.find (fun q => String.eqb (quiz_pin q) pin) (quizzes d).

Definition findQuizById (d : Db) (id : string) : option Quiz :=
  List.find (fun q => String.eqb (quiz_id q) id) (quizzes d).

Definition findQuestionById (d : Db) (id : string) : option Question :=
  List.find (fun q => String.eqb (question_id q) id) (questions d).

Definition findParticipantById (d : Db) (id : string) : option Participant :=
  List.find (fun p => String.eqb (participant_id p) id) (participants d).

Definition answerFor (participantId questionId : string) (a : Answer) : bool :=
  String.eqb (answer_participantId a) participantId
  && String.eqb (answer_questionId a) questionId.

Definition findAnswer (d : Db) (participantId questionId : string)
  : option Answer :=
  List.find (answerFor participantId questionId) (answers d).

(** relation [question.options] *)
Definition optionsOf (d : Db) (q : Question) : list AnswerOption :=
  List.filter (fun o => String.eqb (option_questionId o) (question_id q))
              (answerOptions d).

(** relation [quiz.questions], [order: { questions: { order: 'ASC' } }] *)
Definition questionsOf (d : Db) (quizId : string) : list Question :=
  orderAsc question_order
    (List.filter (fun q => String.eqb (question_quizId q) quizId) (questions d)).

(** relation [quiz.participants] *)
Definition participantsOf (d : Db) (quizId : string) : list Participant :=
  List.filter (fun p => String.eqb (participant_quizId p) quizId)
              (participants d).

Definition withStatus (q : Quiz) (st : QuizStatus) : Quiz :=
  {| quiz_id := quiz_id q;
     quiz_title := quiz_title q;
     quiz_pin := quiz_pin q;
     quiz_status := st;
     quiz_creatorId := quiz_creatorId q |}.

(** [quizRepository.save(quiz)]: the row with the primary key of [quiz] is
    overwritten; a quiz with a new key is inserted. *)
Definition saveQuizRows (quiz : Quiz) (rows : list Quiz) : list Quiz :=
  let same x := String.eqb (quiz_id x) (quiz_id quiz) in
  if existsb same rows
  then List.map (fun x => if same x then quiz else x) rows
  else rows ++ [quiz].

Definition saveQuiz (quiz : Quiz) (d : Db) : Db :=
  {| quizzes := saveQuizRows quiz (quizzes d);
     questions := questions d;
     answerOptions := answerOptions d;
     participants := participants d;
     answers := answers d |}.

Definition dquote : string := String (Ascii.ascii_of_nat 34) EmptyString.

(** The columns declared [type: 'int'] ([Answer.responseTimeMs],
    [Question.timeSeconds], [Question.order], [AnswerOption.order]) are
    PostgreSQL integers of 32 bits.  A value outside them makes the
    insert fail: nothing is written and [save] rejects with a
    [QueryFailedError] carrying the message of the database. *)
Definition fitsInt (z : Z) : bool :=
  (-2147483648 <=? z)%Z && (z <=? 2147483647)%Z.

Definition msg_out_of_range (z : Z) : string :=
  "value " +:+ dquote +:+ pretty z +:+ dquote
  +:+ " is out of range for type integer".

(** [answerRepository.save(answer)] of a newly created entity: an insert. *)
Definition insertAnswer (a : Answer) (d : Db) : Db :=
  {| quizzes := quizzes d;
     questions := questions d;
     answerOptions := answerOptions d;
     participants := participants d;
     answers := answers d ++ [a] |}.

(** ** QuizzesService *)

(** The injected repositories and the [TugOfWarService] cache. *)
Record Service := mkService {
  db : Db;
  questionTimeCache : gmap string Q
}.

Definition onDb (f : Db -> Db) (s : Service) : Service :=
  {| db := f (db s); questionTimeCache := questionTimeCache s |}.

Definition onCache (f : gmap string Q -> gmap string Q) (s : Service) : Service :=
  {| db := db s; questionTimeCache := f (questionTimeCache s) |}.

(** A quiz loaded with [relations: ['questions', ...]]. *)
Record LoadedQuiz := mkLoadedQuiz {
  lq_quiz : Quiz;
  lq_questions : list Question
}.

Record SubmitAnswerDto := mkSubmitAnswerDto {
  dto_participantId : string;
  dto_selectedOptionId : string;
  dto_responseTimeMs : Z
}.

(** [answerRepository.create({...})]: the entity before it is saved. *)
Record AnswerDraft := mkAnswerDraft {
  draft_participantId : string;
  draft_questionId : string;
  draft_selectedOptionId : string;
  draft_isCorrect : bool;
  draft_responseTimeMs : Z
}.

(** [Answer & { tugStatus, shouldAutoFinish, gameFinished }] *)
Record SubmitAnswerResult := mkSubmitAnswerResult {
  savedAnswer : Answer;
  tugStatus : TugStatus;
  shouldAutoFinish : bool;
  gameFinished : bool
}.

Record ParticipantsByPin := mkParticipantsByPin {
  pbp_quiz : Quiz;
  pbp_total : nat;
  pbp_team1 : list Participant;
  pbp_team2 : list Participant
}.

(** The part of the [getResults] payload that is modelled: the quiz
    summary, the team totals, the winner and the tug status.  The
    per-participant rows, the average speeds and the duration are left out. *)
Record TeamTotals := mkTeamTotals {
  totalCorrect : nat;
  totalAnswers : nat;
  totalScore : Q;
  totalParticipants : nat
}.

Record QuizResults := mkQuizResults {
  results_quiz : Quiz;
  results_totalQuestions : nat;
  results_totalParticipants : nat;
  results_team1 : TeamTotals;
  results_team2 : TeamTotals;
  results_winner : option Team;
  results_finalPosition : Q;
  results_tugStatus : TugStatus
}.

(** [quiz.creatorId !== userId], where [userId] may be [undefined]. *)
Definition notCreator (quiz : Quiz) (userId : option string) : bool :=
  match userId with
  | Some u => negb (String.eqb (quiz_creatorId quiz) u)
  | None => true
  end.

Section QuizzesService.

Variable Math_pow : Q -> Q -> Q.

Local Open Scope monad_scope.

Definition tugOfWar_calculateTugPosition (quizId : string)
  : M Service TugStatus :=
  fun s =>
    let '(t, cache') :=
      calculateTugPosition Math_pow (questionTimeCache s) (db s) quizId in
    (Ok t, onCache (fun _ => cache') s).

Definition getQuizByPin (pin : string) : M Service LoadedQuiz :=
  d <- gets db ;;
  match findQuizByPin d pin with
  | None => throw (NotFoundException "Тест с таким PIN не найден")
  | Some quiz =>
      ret {| lq_quiz := quiz; lq_questions := questionsOf d (quiz_id quiz) |}
  end.

Definition startQuiz (quizId : string) (userId : option string)
  : M Service LoadedQuiz :=
  d <- gets db ;;
  match findQuizById d quizId with
  | None => throw (NotFoundException "Тест не найден")
  | Some quiz =>
      throwIf (notCreator quiz userId)
        (ForbiddenException "Вы не являетесь создателем этого теста") ;;
      throwIf (negb (QuizStatus_eqb (quiz_status quiz) CREATED))
        (BadRequestException "Игра уже запущена или завершена") ;;
      let savedQuiz := withStatus quiz STARTED in
      modify (onDb (saveQuiz savedQuiz)) ;;
      d' <- gets db ;;
      match findQuizById d' (quiz_id savedQuiz) with
      | None => throw (NotFoundException "Тест не найден после сохранения")
      | Some quizWithQuestions =>
          ret {| lq_quiz := quizWithQuestions;
                 lq_questions := questionsOf d' (quiz_id quizWithQuestions) |}
      end
  end.

(** [submitAnswer] up to the last read before the write: every check, and
    the entity to be saved. *)
Definition submitAnswer_check
    (pin questionId participantId : string) (dto : SubmitAnswerDto)
  : M Service (Quiz * AnswerDraft) :=
  d <- gets db ;;
  match findQuizByPin d pin with
  | None => throw (NotFoundException "Тест не найден")
  | Some quiz =>
      throwIf (negb (QuizStatus_eqb (quiz_status quiz) STARTED))
        (BadRequestException "Игра не запущена") ;;
      match findQuestionById d questionId with
      | None => throw (NotFoundException "Вопрос не найден")
      | Some question =>
          throwIf
            (match findParticipantById d participantId with
             | None => true
             | Some participant => negb (String.eqb (participant_pin participant) pin)
             end)
            (NotFoundException "Участник не найден") ;;
          throwIf (bool_decide (is_Some (findAnswer d participantId questionId)))
            (BadRequestException "Вы уже ответили на этот вопрос") ;;
          throwIf
            (negb (existsb
                     (fun opt => String.eqb (option_id opt) (dto_selectedOptionId dto))
                     (optionsOf d question)))
            (BadRequestException "Выбранный вариант ответа не найден") ;;
          throwIf (negb (JS.truthy_opt (question_correctAnswerId question)))
            (BadRequestException "Правильный ответ для этого вопроса не установлен") ;;
          let isCorrect :=
            bool_decide (question_correctAnswerId question
                         = Some (dto_selectedOptionId dto)) in
          ret (quiz,
               {| draft_participantId := participantId;
                  draft_questionId := questionId;
                  draft_selectedOptionId := dto_selectedOptionId dto;
                  draft_isCorrect := isCorrect;
                  draft_responseTimeMs := dto_responseTimeMs dto |})
      end
  end.

(** [submitAnswer] from the write on: save the answer, recompute the tug
    position, finish the quiz on a win.  [uuid] is the [randomUUID()] of
    [generateId], [now] the [answeredAt] column.  The insert fails when
    the response time does not fit its [int] column; the DTO sets no
    maximum. *)
Definition submitAnswer_save
    (uuid : string) (now : Z) (quiz : Quiz) (answer : AnswerDraft)
  : M Service SubmitAnswerResult :=
  let savedAnswer :=
    {| answer_id := uuid;
       answer_participantId := draft_participantId answer;
       answer_questionId := draft_questionId answer;
       answer_selectedOptionId := draft_selectedOptionId answer;
       answer_isCorrect := draft_isCorrect answer;
       answer_responseTimeMs := Some (draft_responseTimeMs answer);
       answer_answeredAt := now |} in
  throwIf (negb (fitsInt (draft_responseTimeMs answer)))
    (QueryFailedError (msg_out_of_range (draft_responseTimeMs answer))) ;;
  modify (onDb (insertAnswer savedAnswer)) ;;
  tugStatus <- tugOfWar_calculateTugPosition (quiz_id quiz) ;;
  let shouldAutoFinish :=
    JS.geb (JS.Math_abs (position tugStatus)) 100 && hasAnswers tugStatus in
  (if shouldAutoFinish && QuizStatus_eqb (quiz_status quiz) STARTED
   then modify (onDb (saveQuiz (withStatus quiz FINISHED)))
   else ret tt) ;;
  ret {| savedAnswer := savedAnswer;
         tugStatus := tugStatus;
         shouldAutoFinish := shouldAutoFinish;
         gameFinished := shouldAutoFinish |}.

Definition submitAnswer
    (uuid : string) (now : Z)
    (pin questionId participantId : string) (dto : SubmitAnswerDto)
  : M Service SubmitAnswerResult :=
  '(quiz, answer) <- submitAnswer_check pin questionId participantId dto ;;
  submitAnswer_save uuid now quiz answer.

(** Two calls of [submitAnswer] in flight at once.  Each [await] hands
    control to the other request, so both may finish their reads before
    either reaches [answerRepository.save]: this is that schedule. *)
Definition submitAnswer_interleaved
    (uuid1 uuid2 : string) (now1 now2 : Z)
    (pin questionId participantId : string) (dto1 dto2 : SubmitAnswerDto)
  : M Service (SubmitAnswerResult * SubmitAnswerResult) :=
  '(quiz1, answer1) <- submitAnswer_check pin questionId participantId dto1 ;;
  '(quiz2, answer2) <- submitAnswer_check pin questionId participantId dto2 ;;
  result1 <- submitAnswer_save uuid1 now1 quiz1 answer1 ;;
  result2 <- submitAnswer_save uuid2 now2 quiz2 answer2 ;;
  ret (result1, result2).

(** The same two calls, one after the other. *)
Definition submitAnswer_twice
    (uuid1 uuid2 : string) (now1 now2 : Z)
    (pin questionId participantId : string) (dto1 dto2 : SubmitAnswerDto)
  : M Service (SubmitAnswerResult * SubmitAnswerResult) :=
  result1 <- submitAnswer uuid1 now1 pin questionId participantId dto1 ;;
  result2 <- submitAnswer uuid2 now2 pin questionId participantId dto2 ;;
  ret (result1, result2).

Definition finishQuiz (quizId : string) (userId : option string)
  : M Service Quiz :=
  d <- gets db ;;
  match findQuizById d quizId with
  | None => throw (NotFoundException "Тест не найден")
  | Some quiz =>
      throwIf (notCreator quiz userId)
        (ForbiddenException "Вы не являетесь создателем этого теста") ;;
      let savedQuiz := withStatus quiz FINISHED in
      modify (onDb (saveQuiz savedQuiz)) ;;
      modify (onCache (fun cache => clearCache cache quizId)) ;;
      ret savedQuiz
  end.

(** [startQuiz] up to its checks: the quiz as [findOne] has loaded it. *)
Definition startQuiz_check (quizId : string) (userId : option string)
  : M Service Quiz :=
  d <- gets db ;;
  match findQuizById d quizId with
  | None => throw (NotFoundException "Тест не найден")
  | Some quiz =>
      throwIf (notCreator quiz userId)
        (ForbiddenException "Вы не являетесь создателем этого теста") ;;
      throwIf (negb (QuizStatus_eqb (quiz_status quiz) CREATED))
        (BadRequestException "Игра уже запущена или завершена") ;;
      ret quiz
  end.

(** [startQuiz] from [quiz.status = QuizStatus.STARTED] on: the loaded
    quiz is saved as started and read again. *)
Definition startQuiz_save (quiz : Quiz) : M Service LoadedQuiz :=
  let savedQuiz := withStatus quiz STARTED in
  modify (onDb (saveQuiz savedQuiz)) ;;
  d' <- gets db ;;
  match findQuizById d' (quiz_id savedQuiz) with
  | None => throw (NotFoundException "Тест не найден после сохранения")
  | Some quizWithQuestions =>
      ret {| lq_quiz := quizWithQuestions;
             lq_questions := questionsOf d' (quiz_id quizWithQuestions) |}
  end.

(** A [startQuiz] and a [finishQuiz] in flight at once: [startQuiz] is
    suspended at the [await] of its [findOne], [finishQuiz] runs, and
    [startQuiz] goes on with the quiz it has loaded. *)
Definition startQuiz_around_finishQuiz
    (quizId : string) (starter finisher : option string)
  : M Service (Quiz * LoadedQuiz) :=
  quiz <- startQuiz_check quizId starter ;;
  finished <- finishQuiz quizId finisher ;;
  started <- startQuiz_save quiz ;;
  ret (finished, started).

Definition getTugPosition (quizId : string) : M Service TugStatus :=
  d <- gets db ;;
  match findQuizById d quizId with
  | None => throw (NotFoundException "Тест не найден")
  | Some _ => tugOfWar_calculateTugPosition quizId
  end.

Definition getParticipantsByPin (pin : string) (userId : option string)
  : M Service ParticipantsByPin :=
  d <- gets db ;;
  match findQuizByPin d pin with
  | None => throw (NotFoundException "Тест не найден")
  | Some quiz =>
      throwIf (notCreator quiz userId)
        (ForbiddenException "Вы не являетесь создателем этого теста") ;;
      let ps :=
        orderAsc participant_joinedAt
          (List.filter (fun p => String.eqb (participant_pin p) pin)
                       (participants d)) in
      ret {| pbp_quiz := quiz;
             pbp_total := length ps;
             pbp_team1 :=
               List.filter (fun p => Team_eqb (participant_team p) TEAM_1) ps;
             pbp_team2 :=
               List.filter (fun p => Team_eqb (participant_team p) TEAM_2) ps |}
  end.

Definition teamTotals (members : list Participant) (answers : list Answer)
    (score : Q) : TeamTotals :=
  let mine := List.filter (isMember members) answers in
  {| totalCorrect := length (List.filter answer_isCorrect mine);
     totalAnswers := length mine;
     totalScore := score;
     totalParticipants := length members |}.

Definition getResults (quizId : string) (userId : option string)
  : M Service QuizResults :=
  d <- gets db ;;
  match findQuizById d quizId with
  | None => throw (NotFoundException "Тест не найден")
  | Some quiz =>
      throwIf (notCreator quiz userId)
        (ForbiddenException "Вы не являетесь создателем этого теста") ;;
      let qs := questionsOf d (quiz_id quiz) in
      let ps := participantsOf d (quiz_id quiz) in
      let answers :=
        List.filter
          (fun a => existsb (fun q => String.eqb (question_id q) (answer_questionId a)) qs)
          (answers d) in
      let team1 := List.filter (fun p => Team_eqb (participant_team p) TEAM_1) ps in
      let team2 := List.filter (fun p => negb (Team_eqb (participant_team p) TEAM_1)) ps in
      tugStatus <- tugOfWar_calculateTugPosition quizId ;;
      ret {| results_quiz := quiz;
             results_totalQuestions := length qs;
             results_totalParticipants := length ps;
             results_team1 := teamTotals team1 answers (team1Score tugStatus);
             results_team2 := teamTotals team2 answers (team2Score tugStatus);
             results_winner := determineWinner tugStatus;
             results_finalPosition := position tugStatus;
             results_tugStatus := tugStatus |}
  end.

End QuizzesService.

(** ** QuizGateway: state *)

Inductive Role := teacher | student.

#[global] Instance Role_eq_dec : EqDecision Role.
Proof. solve_decision. Defined.

(** [client.data] *)
Record SocketData := mkSocketData {
  data_role : option Role;
  data_userId : option string;
  data_pin : option string;
  data_participantId : option string;
  data_connectedAt : Z
}.

(** An entry of [questionTimers]. *)
Record QuestionTimer := mkQuestionTimer {
  timer_questionIndex : Z;
  timer_startTime : Z;
  timer_timeSeconds : Z;
  timer_timerId : nat;
  timer_pin : string
}.

(** A pending [setTimeout]: the delay and the arguments its callback passes
    to [autoAdvanceQuestion]. *)
Record Timeout := mkTimeout {
  timeout_delayMs : Z;
  timeout_quizId : string;
  timeout_pin : string;
  timeout_questionIndex : Z;
  timeout_userId : option string
}.

Inductive Recipient :=
| ToClient (socketId : string)
| ToRoom (roomName : string).

(** What is emitted, by event name.  Of an [error] the message is kept;
    the diagnostic fields that [handleStartQuestion] adds to some of its
    errors are left out. *)
Inductive Payload :=
| Ev_error (message : string)
| Ev_participants_update (pin : string) (team1 team2 : list Participant)
| Ev_quiz_state (quiz : Quiz) (currentQuestionIndex : Z)
| Ev_tug_position_update (pin : string) (status : TugStatus)
| Ev_game_update (gameId pin : string) (status : QuizStatus)
    (currentQuestionIndex : option Z)
| Ev_start_question (pin : string) (currentQuestionIndex : Z)
    (questionId : string) (timeSeconds : Z) (timestamp : Z)
| Ev_question_started (questionId : string) (currentQuestionIndex : Z)
    (timestamp : Z)
| Ev_question_finished (questionId : string) (timestamp : Z)
| Ev_quiz_results (results : QuizResults)
| Ev_results (results : QuizResults).

Record Emitted := mkEmitted {
  recipient : Recipient;
  payload : Payload
}.

Record Gateway := mkGateway {
  service : Service;
  sockets : gmap string SocketData;
  rooms : gmap string (gset string);
  pinRooms : gmap string (gset string);
  questionStartTimes : gmap string (gmap Z Z);
  questionTimers : gmap string QuestionTimer;
  clientLastActivity : gmap string Z;
  timeouts : gmap nat Timeout;
  nextTimerId : nat;
  emitted : list Emitted
}.

(** The acknowledgement a handler returns. *)
Inductive Ack :=
| Ack_success
| Ack_joined (pin : string)
| Ack_finish_question (isLastQuestion : bool)
| Ack_participants (team1 team2 : list Participant)
| Ack_failure (error : option string).

Definition success (a : Ack) : bool :=
  match a with
  | Ack_failure _ => false
  | _ => true
  end.

Definition onService (f : Service -> Service) (g : Gateway) : Gateway :=
  {| service := f (service g); sockets := sockets g; rooms := rooms g;
     pinRooms := pinRooms g; questionStartTimes := questionStartTimes g;
     questionTimers := questionTimers g;
     clientLastActivity := clientLastActivity g; timeouts := timeouts g;
     nextTimerId := nextTimerId g; emitted := emitted g |}.

Definition onSockets (f : gmap string SocketData -> gmap string SocketData)
    (g : Gateway) : Gateway :=
  {| service := service g; sockets := f (sockets g); rooms := rooms g;
     pinRooms := pinRooms g; questionStartTimes := questionStartTimes g;
     questionTimers := questionTimers g;
     clientLastActivity := clientLastActivity g; timeouts := timeouts g;
     nextTimerId := nextTimerId g; emitted := emitted g |}.

Definition onRooms (f : gmap string (gset string) -> gmap string (gset string))
    (g : Gateway) : Gateway :=
  {| service := service g; sockets := sockets g; rooms := f (rooms g);
     pinRooms := pinRooms g; questionStartTimes := questionStartTimes g;
     questionTimers := questionTimers g;
     clientLastActivity := clientLastActivity g; timeouts := timeouts g;
     nextTimerId := nextTimerId g; emitted := emitted g |}.

Definition onPinRooms (f : gmap string (gset string) -> gmap string (gset string))
    (g : Gateway) : Gateway :=
  {| service := service g; sockets := sockets g; rooms := rooms g;
     pinRooms := f (pinRooms g); questionStartTimes := questionStartTimes g;
     questionTimers := questionTimers g;
     clientLastActivity := clientLastActivity g; timeouts := timeouts g;
     nextTimerId := nextTimerId g; emitted := emitted g |}.

Definition onQuestionStartTimes
    (f : gmap string (gmap Z Z) -> gmap string (gmap Z Z))
    (g : Gateway) : Gateway :=
  {| service := service g; sockets := sockets g; rooms := rooms g;
     pinRooms := pinRooms g; questionStartTimes := f (questionStartTimes g);
     questionTimers := questionTimers g;
     clientLastActivity := clientLastActivity g; timeouts := timeouts g;
     nextTimerId := nextTimerId g; emitted := emitted g |}.

Definition onQuestionTimers
    (f : gmap string QuestionTimer -> gmap string QuestionTimer)
    (g : Gateway) : Gateway :=
  {| service := service g; sockets := sockets g; rooms := rooms g;
     pinRooms := pinRooms g; questionStartTimes := questionStartTimes g;
     questionTimers := f (questionTimers g);
     clientLastActivity := clientLastActivity g; timeouts := timeouts g;
     nextTimerId := nextTimerId g; emitted := emitted g |}.

Definition onClientLastActivity (f : gmap string Z -> gmap string Z)
    (g : Gateway) : Gateway :=
  {| service := service g; sockets := sockets g; rooms := rooms g;
     pinRooms := pinRooms g; questionStartTimes := questionStartTimes g;
     questionTimers := questionTimers g;
     clientLastActivity := f (clientLastActivity g); timeouts := timeouts g;
     nextTimerId := nextTimerId g; emitted := emitted g |}.

Definition onTimeouts (f : gmap nat Timeout -> gmap nat Timeout)
    (g : Gateway) : Gateway :=
  {| service := service g; sockets := sockets g; rooms := rooms g;
     pinRooms := pinRooms g; questionStartTimes := questionStartTimes g;
     questionTimers := questionTimers g;
     clientLastActivity := clientLastActivity g; timeouts := f (timeouts g);
     nextTimerId := nextTimerId g; emitted := emitted g |}.

Definition onNextTimerId (f : nat -> nat) (g : Gateway) : Gateway :=
  {| service := service g; sockets := sockets g; rooms := rooms g;
     pinRooms := pinRooms g; questionStartTimes := questionStartTimes g;
     questionTimers := questionTimers g;
     clientLastActivity := clientLastActivity g; timeouts := timeouts g;
     nextTimerId := f (nextTimerId g); emitted := emitted g |}.

Definition onEmitted (f : list Emitted -> list Emitted) (g : Gateway) : Gateway :=
  {| service := service g; sockets := sockets g; rooms := rooms g;
     pinRooms := pinRooms g; questionStartTimes := questionStartTimes g;
     questionTimers := questionTimers g;
     clientLastActivity := clientLastActivity g; timeouts := timeouts g;
     nextTimerId := nextTimerId g; emitted := f (emitted g) |}.

(** ** QuizGateway: primitives *)

Definition nullData (connectedAt : Z) : SocketData :=
  {| data_role := None; data_userId := None; data_pin := None;
     data_participantId := None; data_connectedAt := connectedAt |}.

Definition clientData (g : Gateway) (client : string) : SocketData :=
  default (nullData 0) (sockets g !! client).

Definition roomName (pin : string) : string := String.append "quiz-" pin.

(** Run a service call against the gateway's [quizzesService]. *)
Definition call {A} (c : M Service A) : M Gateway A :=
  fun g =>
    let '(r, s') := c (service g) in
    (r, onService (fun _ => s') g).

Definition emit (to : Recipient) (p : Payload) : M Gateway unit :=
  modify (onEmitted (fun log => log ++ [mkEmitted to p])).

(** [clearTimeout(timer.timerId)]: the callback will not run. *)
Definition clearTimeout (timerId : nat) : M Gateway unit :=
  modify (onTimeouts (delete timerId)).

(** [setTimeout(callback, delayMs)]: returns the handle. *)
Definition setTimeout (t : Timeout) : M Gateway nat :=
  fun g =>
    let timerId := nextTimerId g in
    (Ok timerId,
     onNextTimerId S (onTimeouts (<[timerId := t]>) g)).

(** [const timer = this.questionTimers.get(quizId);
     if (timer && timer.timerId) clearTimeout(timer.timerId);] *)
Definition clearQuestionTimeout (quizId : string) : M Gateway unit :=
  fun g =>
    match questionTimers g !! quizId with
    | Some timer => clearTimeout (timer_timerId timer) g
    | None => (Ok tt, g)
    end.

Definition updateClientActivity (client : string) (now : Z) : M Gateway unit :=
  modify (onClientLastActivity (<[client := now]>)).

(** [questionStartTimes]: create the inner map on first use, then set. *)
Definition recordStartTime (quizId : string) (index : Z) (now : Z)
  : M Gateway unit :=
  modify (onQuestionStartTimes (fun m =>
    <[quizId := <[index := now]> (default ∅ (m !! quizId))]> m)).

Definition emitGameUpdate (pin gameId : string) (status : QuizStatus)
    (currentQuestionIndex : option Z) : M Gateway unit :=
  emit (ToRoom (roomName pin))
       (Ev_game_update gameId pin status
          (if QuizStatus_eqb status FINISHED
           then currentQuestionIndex
           else Some (default 0%Z currentQuestionIndex))).

(** ** QuizGateway: handlers *)

(** Message payloads of the client events. *)
Record JoinQuizData := mkJoinQuizData {
  join_pin : string;
  join_role : Role;
  join_userId : option string;
  join_participantId : option string
}.

Record QuizActionData := mkQuizActionData {
  action_pin : string;
  action_quizId : string;
  action_userId : option string
}.

Definition statusName (st : QuizStatus) : string :=
  match st with
  | CREATED => "created"
  | STARTED => "started"
  | FINISHED => "finished"
  end.

Definition msg_join_first : string :=
  "Необходимо сначала подключиться через join-quiz. Отправьте событие join-quiz с role: "
  +:+ dquote +:+ "teacher" +:+ dquote
  +:+ " и userId перед отправкой start-question".

Definition msg_only_creator_may_start : string :=
  "Только учитель (создатель игры) может запустить вопрос. Убедитесь, что вы отправили join-quiz с role: "
  +:+ dquote +:+ "teacher" +:+ dquote +:+ " и правильным userId".

Definition msg_only_teacher_may_start_quiz : string :=
  "Только учитель может запустить игру. Убедитесь, что вы отправили join-quiz с role: "
  +:+ dquote +:+ "teacher" +:+ dquote +:+ " перед start-quiz".

Definition msg_not_started (st : QuizStatus) : string :=
  "Игра не запущена. Текущий статус: " +:+ statusName st
  +:+ ". Ожидается: 'started'".

Definition msg_bad_index (total requested : Z) : string :=
  "Неверный индекс вопроса. Доступно вопросов: " +:+ pretty total
  +:+ ", запрошен индекс: " +:+ pretty requested
  +:+ ". Допустимый диапазон: 0-" +:+ pretty (total - 1)%Z.

Definition msg_too_early (remainingSeconds : Z) : string :=
  "Время на предыдущий вопрос еще не истекло. Осталось примерно "
  +:+ pretty remainingSeconds +:+ " секунд".

(** [error.message || fallback] *)
Definition message_or (e : HttpException) (fallback : string) : string :=
  if JS.truthy (exception_message e) then exception_message e else fallback.

(** Step 7 of [handleStartQuestion]: when the previous question's time has
    not run out, the seconds that remain. *)
Definition previousQuestionRemaining
    (startTimes : gmap string (gmap Z Z)) (quiz : LoadedQuiz)
    (currentQuestionIndex now : Z) : option Z :=
  if (currentQuestionIndex >? 0)%Z then
    let previousQuestionIndex := (currentQuestionIndex - 1)%Z in
    match JS.index (lq_questions quiz) previousQuestionIndex with
    | Some previousQuestion =>
        if (question_timeSeconds previousQuestion =? 0)%Z then None
        else
          let quizStartTimes : gmap Z Z :=
            default ∅ (startTimes !! quiz_id (lq_quiz quiz)) in
          match quizStartTimes !! previousQuestionIndex with
          | Some previousQuestionStartTime =>
              if (previousQuestionStartTime =? 0)%Z then None
              else
                let elapsed := (now - previousQuestionStartTime)%Z in
                let minTime := (question_timeSeconds previousQuestion * 1000)%Z in
                if (elapsed <? minTime)%Z
                then Some (JS.Math_ceil_div (minTime - elapsed) 1000)
                else None
          | None => None
          end
    | None => None
    end
  else None.

Section QuizGateway.

Variable Math_pow : Q -> Q -> Q.

Local Open Scope monad_scope.

Definition reject (client : string) (message : string) (error : option string)
  : M Gateway Ack :=
  emit (ToClient client) (Ev_error message) ;;
  ret (Ack_failure error).

(** [catch (error) { client.emit('error', ...); return { success: false,
    error: error.message } }] *)
Definition rejectWith (client : string) (fallback : string) (e : HttpException)
  : M Gateway Ack :=
  reject client (message_or e fallback) (Some (exception_message e)).

(** A handler never throws: its acknowledgement and the state it leaves. *)
Definition run (c : M Gateway Ack) (g : Gateway) : Ack * Gateway :=
  match c g with
  | (Ok a, g') => (a, g')
  | (Throw e, g') => (Ack_failure (Some (exception_message e)), g')
  end.

Definition handleConnection (client : string) (now : Z) (g : Gateway)
  : Gateway :=
  onClientLastActivity (<[client := now]>)
    (onSockets (<[client := nullData now]>) g).

(** [try { getResults; emit 'quiz-results' to the room } catch { log }] *)
Definition sendResults (pin quizId : string) (userId : option string)
  : M Gateway unit :=
  tryCatch
    (results <- call (getResults Math_pow quizId userId) ;;
     emit (ToRoom (roomName pin)) (Ev_quiz_results results))
    (fun _ => ret tt).

Definition handleJoinQuiz (client : string) (data : JoinQuizData) (now : Z)
  : Gateway -> Ack * Gateway :=
  let pin := join_pin data in
  let role := join_role data in
  let userId := join_userId data in
  run (tryCatch
    (quiz <- call (getQuizByPin pin) ;;
     let quiz := lq_quiz quiz in
     modify (onRooms (fun m =>
       <[roomName pin := {[client]} ∪ default ∅ (m !! roomName pin)]> m)) ;;
     modify (onPinRooms (fun m =>
       <[pin := {[client]} ∪ default ∅ (m !! pin)]> m)) ;;
     connectedAt <- gets (fun g => data_connectedAt (clientData g client)) ;;
     modify (onSockets (<[client :=
       {| data_role := Some role;
          data_userId := userId;
          data_pin := Some pin;
          data_participantId := join_participantId data;
          data_connectedAt := connectedAt |}]>)) ;;
     updateClientActivity client now ;;
     if bool_decide (role = teacher) && JS.truthy_opt userId then
       if notCreator quiz userId then
         reject client "Вы не являетесь создателем этой игры"
                (Some "Неверные права доступа")
       else
         participantsData <- call (getParticipantsByPin pin userId) ;;
         emit (ToClient client)
              (Ev_participants_update pin (pbp_team1 participantsData)
                                      (pbp_team2 participantsData)) ;;
         emit (ToClient client) (Ev_quiz_state quiz 0) ;;
         (if QuizStatus_eqb (quiz_status quiz) STARTED
             || QuizStatus_eqb (quiz_status quiz) FINISHED
          then
            tugStatus <- call (getTugPosition Math_pow (quiz_id quiz)) ;;
            emit (ToClient client) (Ev_tug_position_update pin tugStatus)
          else ret tt) ;;
         ret (Ack_joined pin)
     else
       emit (ToClient client) (Ev_quiz_state quiz 0) ;;
       (if QuizStatus_eqb (quiz_status quiz) STARTED
           || QuizStatus_eqb (quiz_status quiz) FINISHED
        then
          tugStatus <- call (getTugPosition Math_pow (quiz_id quiz)) ;;
          emit (ToClient client) (Ev_tug_position_update pin tugStatus)
        else ret tt) ;;
       ret (Ack_joined pin))
    (fun error => rejectWith client "" error)).

Definition handleStartQuiz (client : string) (data : QuizActionData)
  : Gateway -> Ack * Gateway :=
  fun g =>
  if negb (bool_decide (data_role (clientData g client) = Some teacher)) then
    run (reject client msg_only_teacher_may_start_quiz None) g
  else
    run (tryCatch
      (quiz <- call (startQuiz (action_quizId data) (action_userId data)) ;;
       let quiz := lq_quiz quiz in
       emitGameUpdate (action_pin data) (quiz_id quiz) (quiz_status quiz)
                      (Some 0%Z) ;;
       ret Ack_success)
      (fun error => rejectWith client "" error)) g.

(** Steps 9 to 14 of [handleStartQuestion], shared in shape with the
    next-question branch of [autoAdvanceQuestion]. *)
Definition scheduleQuestionTimer (quizId pin : string) (index : Z)
    (question : Question) (userId : option string) (now : Z)
  : M Gateway unit :=
  timerId <- setTimeout
    {| timeout_delayMs := (question_timeSeconds question * 1000 + 3000)%Z;
       timeout_quizId := quizId;
       timeout_pin := pin;
       timeout_questionIndex := index;
       timeout_userId := userId |} ;;
  modify (onQuestionTimers (<[quizId :=
    {| timer_questionIndex := index;
       timer_startTime := now;
       timer_timeSeconds := question_timeSeconds question;
       timer_timerId := timerId;
       timer_pin := pin |}]>)).

Definition handleStartQuestion (client : string) (pin : string)
    (currentQuestionIndex : Z) (now : Z)
  : Gateway -> Ack * Gateway :=
  fun g =>
  let userId := data_userId (clientData g client) in
  let role := data_role (clientData g client) in
  run (tryCatch
    (quiz <- call (getQuizByPin pin) ;;
     let qs := lq_questions quiz in
     let total := Z.of_nat (length qs) in
     let q := lq_quiz quiz in
     if negb (bool_decide (role = Some teacher)) && negb (JS.truthy_opt userId) then
       reject client msg_join_first None
     else if negb (bool_decide (role = Some teacher)) && notCreator q userId then
       reject client msg_only_creator_may_start None
     else if bool_decide (role = Some teacher) && notCreator q userId then
       reject client
         "Только создатель игры может запускать вопросы. Проверьте правильность userId в join-quiz"
         None
     else
       (if negb (bool_decide (role = Some teacher))
        then modify (onSockets (<[client :=
               {| data_role := Some teacher;
                  data_userId := userId;
                  data_pin := data_pin (clientData g client);
                  data_participantId := data_participantId (clientData g client);
                  data_connectedAt := data_connectedAt (clientData g client) |}]>))
        else ret tt) ;;
       if (total =? 0)%Z then
         reject client "У игры нет вопросов" None
       else if negb (QuizStatus_eqb (quiz_status q) STARTED) then
         if QuizStatus_eqb (quiz_status q) FINISHED then
           reject client
             "Игра уже завершена. Нельзя запустить новый вопрос после завершения игры."
             None
         else
           reject client (msg_not_started (quiz_status q)) None
       else if (currentQuestionIndex <? 0)%Z || (currentQuestionIndex >=? total)%Z then
         reject client (msg_bad_index total currentQuestionIndex) None
       else
         startTimes <- gets questionStartTimes ;;
         match previousQuestionRemaining startTimes quiz currentQuestionIndex now with
         | Some remainingSeconds =>
             reject client (msg_too_early remainingSeconds) None
         | None =>
             match JS.index qs currentQuestionIndex with
             | None => reject client "Вопрос не найден" None
             | Some currentQuestion =>
                 recordStartTime (quiz_id q) currentQuestionIndex now ;;
                 clearQuestionTimeout (quiz_id q) ;;
                 scheduleQuestionTimer (quiz_id q) pin currentQuestionIndex
                                       currentQuestion userId now ;;
                 emit (ToRoom (roomName pin))
                      (Ev_start_question pin currentQuestionIndex
                         (question_id currentQuestion)
                         (question_timeSeconds currentQuestion) now) ;;
                 emitGameUpdate pin (quiz_id q) (quiz_status q)
                                (Some currentQuestionIndex) ;;
                 emit (ToRoom (roomName pin))
                      (Ev_question_started (question_id currentQuestion)
                         currentQuestionIndex now) ;;
                 ret Ack_success
             end
         end)
    (fun error => rejectWith client "Ошибка при запуске вопроса" error)) g.

(** The timer callback.  It returns nothing; only the state it leaves. *)
Definition autoAdvanceQuestion (quizId pin : string) (currentQuestionIndex : Z)
    (userId : option string) (now : Z) (g : Gateway) : Gateway :=
  snd (tryCatch
    (quiz <- call (getQuizByPin pin) ;;
     let qs := lq_questions quiz in
     let q := lq_quiz quiz in
     if negb (QuizStatus_eqb (quiz_status q) STARTED) then
       clearQuestionTimeout quizId ;;
       modify (onQuestionTimers (delete quizId))
     else
       let nextIndex := (currentQuestionIndex + 1)%Z in
       let totalQuestions := Z.of_nat (length qs) in
       if (nextIndex >=? totalQuestions)%Z then
         clearQuestionTimeout quizId ;;
         modify (onQuestionTimers (delete quizId)) ;;
         call (finishQuiz quizId userId) ;;
         call (getTugPosition Math_pow quizId) ;;
         emitGameUpdate pin (quiz_id q) FINISHED (Some currentQuestionIndex) ;;
         sendResults pin (quiz_id q) userId
       else
         match JS.index qs nextIndex with
         | None =>
             (* [nextQuestion.id] of [undefined]: a TypeError, caught below *)
             modify (onQuestionTimers (delete quizId))
         | Some nextQuestion =>
             emit (ToRoom (roomName pin))
                  (Ev_start_question pin nextIndex (question_id nextQuestion)
                     (question_timeSeconds nextQuestion) now) ;;
             emitGameUpdate pin (quiz_id q) (quiz_status q) (Some nextIndex) ;;
             recordStartTime quizId nextIndex now ;;
             scheduleQuestionTimer quizId pin nextIndex nextQuestion userId now
         end)
    (fun _ => modify (onQuestionTimers (delete quizId))) g).

(** The event loop runs the callback of a pending timeout. *)
Definition fireTimeout (timerId : nat) (now : Z) (g : Gateway) : Gateway :=
  match timeouts g !! timerId with
  | None => g
  | Some t =>
      autoAdvanceQuestion (timeout_quizId t) (timeout_pin t)
        (timeout_questionIndex t) (timeout_userId t) now
        (onTimeouts (delete timerId) g)
  end.

Definition handleFinishQuestion (client : string) (pin questionId : string)
    (now : Z) : Gateway -> Ack * Gateway :=
  fun g =>
  let userId := data_userId (clientData g client) in
  if negb (bool_decide (data_role (clientData g client) = Some teacher)) then
    run (reject client "Только учитель может завершить вопрос" None) g
  else
    run (tryCatch
      (quiz <- call (getQuizByPin pin) ;;
       let qs := lq_questions quiz in
       let q := lq_quiz quiz in
       timer <- gets (fun g => questionTimers g !! quiz_id q) ;;
       (* without a timer [isLastQuestion] is [undefined]: falsy *)
       let isLastQuestion :=
         match timer with
         | Some t =>
             negb (Nat.eqb (length qs) 0)
             && (timer_questionIndex t =? Z.of_nat (length qs) - 1)%Z
         | None => false
         end in
       emit (ToRoom (roomName pin)) (Ev_question_finished questionId now) ;;
       (if isLastQuestion && QuizStatus_eqb (quiz_status q) STARTED then
          clearQuestionTimeout (quiz_id q) ;;
          modify (onQuestionTimers (delete (quiz_id q))) ;;
          call (finishQuiz (quiz_id q) userId) ;;
          call (getTugPosition Math_pow (quiz_id q)) ;;
          emitGameUpdate pin (quiz_id q) FINISHED
                         (option_map timer_questionIndex timer) ;;
          sendResults pin (quiz_id q) userId
        else ret tt) ;;
       ret (Ack_finish_question isLastQuestion))
      (fun error => rejectWith client "Ошибка при завершении вопроса" error)) g.

Definition handleFinishQuiz (client : string) (data : QuizActionData)
  : Gateway -> Ack * Gateway :=
  fun g =>
  if negb (bool_decide (data_role (clientData g client) = Some teacher)) then
    run (reject client "Только учитель может завершить игру" None) g
  else
    run (tryCatch
      (quiz <- call (finishQuiz (action_quizId data) (action_userId data)) ;;
       currentTimer <- gets (fun g => questionTimers g !! quiz_id quiz) ;;
       clearQuestionTimeout (quiz_id quiz) ;;
       modify (onQuestionTimers (delete (quiz_id quiz))) ;;
       modify (onQuestionStartTimes (delete (quiz_id quiz))) ;;
       call (getTugPosition Math_pow (action_quizId data)) ;;
       (* [finishQuiz] loads no questions: [(quiz.questions?.length || 1) - 1]
          is 0 *)
       let lastQuestionIndex :=
         match currentTimer with
         | Some t => timer_questionIndex t
         | None => 0%Z
         end in
       emitGameUpdate (action_pin data) (quiz_id quiz) (quiz_status quiz)
                      (Some lastQuestionIndex) ;;
       sendResults (action_pin data) (quiz_id quiz) (action_userId data) ;;
       ret Ack_success)
      (fun error => rejectWith client "" error)) g.

Definition handleGetResults (client : string) (data : QuizActionData)
  : Gateway -> Ack * Gateway :=
  fun g =>
  if negb (bool_decide (data_role (clientData g client) = Some teacher)) then
    run (reject client "Только учитель может получить результаты" None) g
  else
    run (tryCatch
      (results <- call (getResults Math_pow (action_quizId data)
                                   (action_userId data)) ;;
       emit (ToClient client) (Ev_results results) ;;
       ret Ack_success)
      (fun error => rejectWith client "" error)) g.

Definition handleGetParticipants (client : string) (pin : string)
    (userId : option string) : Gateway -> Ack * Gateway :=
  fun g =>
  if negb (bool_decide (data_role (clientData g client) = Some teacher)) then
    run (reject client "Только учитель может получить список участников" None) g
  else
    run (tryCatch
      (participantsData <- call (getParticipantsByPin pin userId) ;;
       emit (ToClient client)
            (Ev_participants_update pin (pbp_team1 participantsData)
                                    (pbp_team2 participantsData)) ;;
       ret (Ack_participants (pbp_team1 participantsData)
                             (pbp_team2 participantsData)))
      (fun error => rejectWith client "" error)) g.

End QuizGateway.

(** ** Further operations of the services *)

(** [TugOfWarService.calculatePlayerContribution] *)
Definition calculatePlayerContribution (playerScore teamTotalScore : Q) : Q :=
  if JS.eqb teamTotalScore 0 then 0%Q
  else (JS.Math_round ((playerScore / teamTotalScore) * 10000) / 100)%Q.

Record JoinQuizDto := mkJoinQuizDto {
  joinDto_name : string;
  joinDto_team : Team
}.

(** What [joinQuiz] returns to the front end. *)
Record ParticipantResponse := mkParticipantResponse {
  response_participantId : string;
  response_quizId : string;
  response_name : string;
  response_team : Team;
  response_pin : string;
  response_joinedAt : Z
}.

(** [participantRepository.save(participant)] of a new entity: an insert. *)
Definition insertParticipant (p : Participant) (d : Db) : Db :=
  {| quizzes := quizzes d;
     questions := questions d;
     answerOptions := answerOptions d;
     participants := participants d ++ [p];
     answers := answers d |}.

Definition findParticipantByName (d : Db) (pin name : string)
  : option Participant :=
  List.find (fun p => String.eqb (participant_pin p) pin
                      && String.eqb (participant_name p) name)
            (participants d).

(** [quizRepository.remove(quiz)].  The foreign keys of the entities are
    declared with [onDelete: 'CASCADE']: the questions and participants of
    the quiz go with it, the options of those questions, and every answer
    given by such a participant or to such a question. *)
Definition removeQuiz (quiz : Quiz) (d : Db) : Db :=
  let ofQuiz_q (q : Question) := String.eqb (question_quizId q) (quiz_id quiz) in
  let ofQuiz_p (p : Participant) :=
    String.eqb (participant_quizId p) (quiz_id quiz) in
  let goneQuestions := List.filter ofQuiz_q (questions d) in
  let goneParticipants := List.filter ofQuiz_p (participants d) in
  let toGoneQuestion (questionId : string) :=
    existsb (fun q => String.eqb (question_id q) questionId) goneQuestions in
  let byGoneParticipant (participantId : string) :=
    existsb (fun p => String.eqb (participant_id p) participantId)
            goneParticipants in
  {| quizzes :=
       List.filter (fun x => negb (String.eqb (quiz_id x) (quiz_id quiz)))
                   (quizzes d);
     questions := List.filter (fun q => negb (ofQuiz_q q)) (questions d);
     answerOptions :=
       List.filter (fun o => negb (toGoneQuestion (option_questionId o)))
                   (answerOptions d);
     participants := List.filter (fun p => negb (ofQuiz_p p)) (participants d);
     answers :=
       List.filter (fun a => negb (byGoneParticipant (answer_participantId a))
                             && negb (toGoneQuestion (answer_questionId a)))
                   (answers d) |}.

(** A quiz loaded with [relations: ['questions', 'questions.options',
    'participants']]. *)
Record QuizDetails := mkQuizDetails {
  details_quiz : Quiz;
  details_questions : list Question;
  details_participants : list Participant
}.

Section QuizzesServiceFurther.

Local Open Scope monad_scope.

(** [uuid] is the [randomUUID()] of [generateId], [now] the [joinedAt]
    column. *)
Definition joinQuiz (uuid : string) (now : Z) (pin : string)
    (joinDto : JoinQuizDto) : M Service ParticipantResponse :=
  d <- gets db ;;
  match findQuizByPin d pin with
  | None => throw (NotFoundException "Тест с таким PIN не найден")
  | Some quiz =>
      throwIf (QuizStatus_eqb (quiz_status quiz) FINISHED)
        (BadRequestException "Игра уже завершена") ;;
      throwIf (bool_decide
                 (is_Some (findParticipantByName d pin (joinDto_name joinDto))))
        (BadRequestException "Участник с таким именем уже присоединился") ;;
      let savedParticipant :=
        {| participant_id := uuid;
           participant_name := joinDto_name joinDto;
           participant_team := joinDto_team joinDto;
           participant_quizId := quiz_id quiz;
           participant_pin := pin;
           participant_joinedAt := now |} in
      modify (onDb (insertParticipant savedParticipant)) ;;
      ret {| response_participantId := participant_id savedParticipant;
             response_quizId := participant_quizId savedParticipant;
             response_name := participant_name savedParticipant;
             response_team := participant_team savedParticipant;
             response_pin := participant_pin savedParticipant;
             response_joinedAt := participant_joinedAt savedParticipant |}
  end.

(** [joinQuiz] up to the last read before the write: the quiz found. *)
Definition joinQuiz_check (pin : string) (joinDto : JoinQuizDto)
  : M Service Quiz :=
  d <- gets db ;;
  match findQuizByPin d pin with
  | None => throw (NotFoundException "Тест с таким PIN не найден")
  | Some quiz =>
      throwIf (QuizStatus_eqb (quiz_status quiz) FINISHED)
        (BadRequestException "Игра уже завершена") ;;
      throwIf (bool_decide
                 (is_Some (findParticipantByName d pin (joinDto_name joinDto))))
        (BadRequestException "Участник с таким именем уже присоединился") ;;
      ret quiz
  end.

(** [joinQuiz] from [participantRepository.save] on. *)
Definition joinQuiz_save (uuid : string) (now : Z) (pin : string)
    (joinDto : JoinQuizDto) (quiz : Quiz) : M Service ParticipantResponse :=
  let savedParticipant :=
    {| participant_id := uuid;
       participant_name := joinDto_name joinDto;
       participant_team := joinDto_team joinDto;
       participant_quizId := quiz_id quiz;
       participant_pin := pin;
       participant_joinedAt := now |} in
  modify (onDb (insertParticipant savedParticipant)) ;;
  ret {| response_participantId := participant_id savedParticipant;
         response_quizId := participant_quizId savedParticipant;
         response_name := participant_name savedParticipant;
         response_team := participant_team savedParticipant;
         response_pin := participant_pin savedParticipant;
         response_joinedAt := participant_joinedAt savedParticipant |}.

(** Two calls of [joinQuiz] in flight at once, both through their reads
    before either reaches [participantRepository.save]. *)
Definition joinQuiz_interleaved
    (uuid1 uuid2 : string) (now1 now2 : Z) (pin : string)
    (joinDto1 joinDto2 : JoinQuizDto)
  : M Service (ParticipantResponse * ParticipantResponse) :=
  quiz1 <- joinQuiz_check pin joinDto1 ;;
  quiz2 <- joinQuiz_check pin joinDto2 ;;
  response1 <- joinQuiz_save uuid1 now1 pin joinDto1 quiz1 ;;
  response2 <- joinQuiz_save uuid2 now2 pin joinDto2 quiz2 ;;
  ret (response1, response2).

Definition getQuizById (quizId : string) (userId : option string)
  : M Service QuizDetails :=
  d <- gets db ;;
  match findQuizById d quizId with
  | None => throw (NotFoundException "Тест не найден")
  | Some quiz =>
      throwIf (notCreator quiz userId)
        (ForbiddenException "Вы не являетесь создателем этого теста") ;;
      ret {| details_quiz := quiz;
             details_questions := questionsOf d (quiz_id quiz);
             details_participants := participantsOf d (quiz_id quiz) |}
  end.

Definition deleteQuiz (quizId : string) (userId : option string)
  : M Service unit :=
  d <- gets db ;;
  match findQuizById d quizId with
  | None => throw (NotFoundException "Тест не найден")
  | Some quiz =>
      throwIf (notCreator quiz userId)
        (ForbiddenException "Вы не являетесь создателем этого теста") ;;
      throwIf (QuizStatus_eqb (quiz_status quiz) STARTED)
        (BadRequestException
           "Нельзя удалить запущенную игру. Сначала завершите игру") ;;
      modify (onDb (removeQuiz quiz))
  end.

End QuizzesServiceFurther.

(** ** Creating a quiz *)

Record CreateAnswerOptionDto := mkCreateAnswerOptionDto {
  optionDto_text : string;
  optionDto_order : Z
}.

Record CreateQuestionDto := mkCreateQuestionDto {
  questionDto_text : string;
  questionDto_timeSeconds : Z;
  questionDto_correctAnswerOrder : Z;
  questionDto_options : list CreateAnswerOptionDto;
  questionDto_order : Z
}.

Record CreateQuizDto := mkCreateQuizDto {
  quizDto_title : string;
  quizDto_questions : list CreateQuestionDto
}.

(** [generateUniquePin]: draw until no quiz has the PIN.  [draws] are the
    successive values of [Math.floor(100000 + Math.random() * 900000)];
    the result is [None] when every draw of the list is taken, that is,
    when the loop is still running after them. *)
Fixpoint generateUniquePin (draws : list Z) (d : Db) : option string :=
  match draws with
  | [] => None
  | draw :: rest =>
      let pin := pretty draw in
      match findQuizByPin d pin with
      | None => Some pin
      | Some _ => generateUniquePin rest d
      end
  end.

(** [save] of entities that were just created: inserts. *)
Definition insertQuiz (quiz : Quiz) (d : Db) : Db :=
  {| quizzes := quizzes d ++ [quiz];
     questions := questions d;
     answerOptions := answerOptions d;
     participants := participants d;
     answers := answers d |}.

Definition insertQuestion (question : Question) (d : Db) : Db :=
  {| quizzes := quizzes d;
     questions := questions d ++ [question];
     answerOptions := answerOptions d;
     participants := participants d;
     answers := answers d |}.

Definition insertOptions (options : list AnswerOption) (d : Db) : Db :=
  {| quizzes := quizzes d;
     questions := questions d;
     answerOptions := answerOptions d ++ options;
     participants := participants d;
     answers := answers d |}.

(** [questionRepository.save(savedQuestion)] of a stored question: the row
    with its primary key is overwritten. *)
Definition saveQuestionRows (question : Question) (rows : list Question)
  : list Question :=
  let same x := String.eqb (question_id x) (question_id question) in
  if existsb same rows
  then List.map (fun x => if same x then question else x) rows
  else rows ++ [question].

Definition saveQuestion (question : Question) (d : Db) : Db :=
  {| quizzes := quizzes d;
     questions := saveQuestionRows question (questions d);
     answerOptions := answerOptions d;
     participants := participants d;
     answers := answers d |}.

Definition withCorrectAnswerId (q : Question) (correctAnswerId : string)
  : Question :=
  {| question_id := question_id q;
     question_text := question_text q;
     question_timeSeconds := question_timeSeconds q;
     question_correctAnswerId := Some correctAnswerId;
     question_quizId := question_quizId q;
     question_order := question_order q |}.

Definition msg_no_correct_option (correctAnswerOrder : Z) : string :=
  "Правильный вариант ответа с порядковым номером "
  +:+ pretty correctAnswerOrder +:+ " не найден".

(** A value written to an [int] column: the insert fails unless it is a
    32-bit integer.  The DTOs of [createQuiz] set minima and no maximum. *)
Definition intColumn {S} (z : Z) : M S unit :=
  throwIf (negb (fitsInt z)) (QueryFailedError (msg_out_of_range z)).

(** The [int] values of one insert of several rows: the first that does
    not fit fails the insert, and none of the rows is stored. *)
Fixpoint intColumns {S} (zs : list Z) : M S unit :=
  match zs with
  | [] => ret tt
  | z :: rest => bind (intColumn z) (fun _ => intColumns rest)
  end.

(** The options of one question, with the ids [randomUUID()] gives them:
    [uuid next], [uuid (next + 1)], ... *)
Fixpoint createOptions (uuid : nat -> string) (next : nat) (questionId : string)
    (optionDtos : list CreateAnswerOptionDto) : list AnswerOption :=
  match optionDtos with
  | [] => []
  | optionDto :: rest =>
      {| option_id := uuid next;
         option_text := optionDto_text optionDto;
         option_order := optionDto_order optionDto;
         option_questionId := questionId |}
      :: createOptions uuid (S next) questionId rest
  end.

Section CreateQuiz.

(** The successive values of [randomUUID()]. *)
Variable uuid : nat -> string.

Local Open Scope monad_scope.

(** The loop of [createQuiz] over [createQuizDto.questions]; [next] counts
    the ids drawn so far.  [timeSeconds] and [order] of a question and
    [order] of an option are [int] columns. *)
Fixpoint createQuestions (next : nat) (quizId : string)
    (questionDtos : list CreateQuestionDto) : M Service unit :=
  match questionDtos with
  | [] => ret tt
  | questionDto :: rest =>
      let savedQuestion :=
        {| question_id := uuid next;
           question_text := questionDto_text questionDto;
           question_timeSeconds := questionDto_timeSeconds questionDto;
           question_correctAnswerId := None;
           question_quizId := quizId;
           question_order := questionDto_order questionDto |} in
      intColumn (questionDto_timeSeconds questionDto) ;;
      intColumn (questionDto_order questionDto) ;;
      modify (onDb (insertQuestion savedQuestion)) ;;
      let savedOptions :=
        createOptions uuid (S next) (question_id savedQuestion)
                      (questionDto_options questionDto) in
      intColumns (List.map optionDto_order (questionDto_options questionDto)) ;;
      modify (onDb (insertOptions savedOptions)) ;;
      match List.find (fun opt =>
                         (option_order opt
                          =? questionDto_correctAnswerOrder questionDto)%Z)
                      savedOptions with
      | None =>
          throw (BadRequestException
                   (msg_no_correct_option
                      (questionDto_correctAnswerOrder questionDto)))
      | Some correctOption =>
          modify (onDb (saveQuestion
                          (withCorrectAnswerId savedQuestion
                                               (option_id correctOption)))) ;;
          createQuestions (S next + length savedOptions) quizId rest
      end
  end.

(** [createQuiz] once the PIN is drawn.  Of the quiz it returns, the row is
    modelled; its questions are in the store. *)
Definition createQuizWithPin (pin : string) (createQuizDto : CreateQuizDto)
    (creatorId : string) : M Service Quiz :=
  let savedQuiz :=
    {| quiz_id := uuid 0;
       quiz_title := quizDto_title createQuizDto;
       quiz_pin := pin;
       quiz_status := CREATED;
       quiz_creatorId := creatorId |} in
  modify (onDb (insertQuiz savedQuiz)) ;;
  createQuestions 1 (quiz_id savedQuiz) (quizDto_questions createQuizDto) ;;
  d <- gets db ;;
  match findQuizById d (quiz_id savedQuiz) with
  | None => throw (NotFoundException "Тест не найден после создания")
  | Some createdQuiz => ret createdQuiz
  end.

(** [None]: the PIN loop has not ended within [draws]. *)
Definition createQuiz (draws : list Z) (createQuizDto : CreateQuizDto)
    (creatorId : string) (s : Service) : option (Result Quiz * Service) :=
  match generateUniquePin draws (db s) with
  | None => None
  | Some pin => Some (createQuizWithPin pin createQuizDto creatorId s)
  end.

End CreateQuiz.

(** ** Further operations of the gateway *)


(** The rooms [handleDisconnect] makes the client leave: [quiz-<pin>] for
    every PIN whose set in [pinRooms] holds the client. *)
Definition roomsToLeave (client : string) (g : Gateway) : gset string :=
  set_map roomName
    (dom (filter (fun entry : string * gset string => client ∈ entry.2)
                 (pinRooms g))).

(** [handleDisconnect]: the client is taken out of every set of
    [pinRooms] and leaves the matching rooms, its tags are cleared and its
    activity record is dropped. *)
Definition handleDisconnect (client : string) (g : Gateway) : Gateway :=
  let leaving := roomsToLeave client g in
  let data := clientData g client in
  onClientLastActivity (delete client)
    (onSockets (<[client :=
                  {| data_role := None; data_userId := None;
                     data_pin := None; data_participantId := None;
                     data_connectedAt := data_connectedAt data |}]>)
       (onRooms (map_imap (fun room members =>
                             Some (if decide (room ∈ leaving)
                                   then members ∖ {[client]}
                                   else members)))
          (onPinRooms (fmap (fun members : gset string => members ∖ {[client]}))
             g))).






(** ** Sample data

    Concrete inputs on which the statements below are run. *)

(** A concrete [Math.pow] for those runs: exact at the bases 0 and 1, the
    only ones the sample data reaches. *)
Definition Math_pow_sample (base exponent : Q) : Q := base.

(** Two quizzes: A is running under PIN 123456, B belongs to another
    teacher. *)
Definition sample_quizA : Quiz :=
  {| quiz_id := "quiz-A"; quiz_title := "Arithmetic"; quiz_pin := "123456";
     quiz_status := STARTED; quiz_creatorId := "alice" |}.

(** Quiz A once it is finished. *)
Definition sample_quizA_finished : Quiz :=
  {| quiz_id := "quiz-A"; quiz_title := "Arithmetic"; quiz_pin := "123456";
     quiz_status := FINISHED; quiz_creatorId := "alice" |}.

Definition sample_quizB : Quiz :=
  {| quiz_id := "quiz-B"; quiz_title := "History"; quiz_pin := "654321";
     quiz_status := CREATED; quiz_creatorId := "bob" |}.

Definition sample_question (id quizId correct : string) (order : Z) : Question :=
  {| question_id := id; question_text := "?"; question_timeSeconds := 30;
     question_correctAnswerId := Some correct; question_quizId := quizId;
     question_order := order |}.

Definition sample_option (questionId id : string) (order : Z) : AnswerOption :=
  {| option_id := id; option_text := "."; option_order := order;
     option_questionId := questionId |}.

Definition sample_db : Db :=
  {| quizzes := [sample_quizA; sample_quizB];
     questions := [sample_question "qA1" "quiz-A" "qA1-4" 0;
                   sample_question "qA2" "quiz-A" "qA2-1" 1;
                   sample_question "qB1" "quiz-B" "qB1-2" 0];
     answerOptions :=
       [sample_option "qA1" "qA1-1" 1; sample_option "qA1" "qA1-2" 2;
        sample_option "qA1" "qA1-3" 3; sample_option "qA1" "qA1-4" 4;
        sample_option "qA2" "qA2-1" 1; sample_option "qA2" "qA2-2" 2;
        sample_option "qA2" "qA2-3" 3; sample_option "qA2" "qA2-4" 4;
        sample_option "qB1" "qB1-1" 1; sample_option "qB1" "qB1-2" 2;
        sample_option "qB1" "qB1-3" 3; sample_option "qB1" "qB1-4" 4];
     participants :=
       [ {| participant_id := "p1"; participant_name := "Ann";
            participant_team := TEAM_1; participant_quizId := "quiz-A";
            participant_pin := "123456"; participant_joinedAt := 1000 |};
         {| participant_id := "p2"; participant_name := "Ben";
            participant_team := TEAM_2; participant_quizId := "quiz-A";
            participant_pin := "123456"; participant_joinedAt := 1001 |} ];
     answers := [] |}.

Definition sample_service : Service :=
  {| db := sample_db; questionTimeCache := ∅ |}.

(** Ben (team 2) has answered question qA1 wrongly after 29 seconds. *)
Definition sample_service_after_ben : Service :=
  onDb (insertAnswer
          {| answer_id := "a0"; answer_participantId := "p2";
             answer_questionId := "qA1"; answer_selectedOptionId := "qA1-1";
             answer_isCorrect := false; answer_responseTimeMs := Some 29000%Z;
             answer_answeredAt := 30000 |})
       sample_service.

(** Ann (team 1) answers question qA1 correctly after 5 seconds. *)
Definition sample_dto : SubmitAnswerDto :=
  {| dto_participantId := "p1"; dto_selectedOptionId := "qA1-4";
     dto_responseTimeMs := 5000 |}.

(** Ann names question qB1 of quiz B, with one of its options. *)
Definition sample_foreign_dto : SubmitAnswerDto :=
  {| dto_participantId := "p1"; dto_selectedOptionId := "qB1-2";
     dto_responseTimeMs := 5000 |}.

(** The same submission with a response time that the DTO lets through
    ([IsInt], [Min(0)]) and the [int] column does not hold. *)
Definition sample_foreign_dto_out_of_range : SubmitAnswerDto :=
  {| dto_participantId := "p1"; dto_selectedOptionId := "qB1-2";
     dto_responseTimeMs := 3000000000 |}.

(** The store once that submission has been accepted. *)
Definition sample_service_after_foreign : Service :=
  snd (submitAnswer Math_pow_sample "a1" 40000 "123456" "qB1" "p1"
                    sample_foreign_dto sample_service).

(** Question qB1 as [createQuiz] first saves it: no correct option yet. *)
Definition sample_service_unconfigured : Service :=
  onDb (fun d =>
          {| quizzes := quizzes d;
             questions :=
               [sample_question "qA1" "quiz-A" "qA1-4" 0;
                sample_question "qA2" "quiz-A" "qA2-1" 1;
                {| question_id := "qB1"; question_text := "?";
                   question_timeSeconds := 30;
                   question_correctAnswerId := None;
                   question_quizId := "quiz-B"; question_order := 0 |}];
             answerOptions := answerOptions d;
             participants := participants d;
             answers := answers d |})
       sample_service.

(** A gateway with no connection yet. *)
Definition emptyGateway (s : Service) : Gateway :=
  {| service := s; sockets := ∅; rooms := ∅; pinRooms := ∅;
     questionStartTimes := ∅; questionTimers := ∅; clientLastActivity := ∅;
     timeouts := ∅; nextTimerId := 0; emitted := [] |}.

(** Alice connects and joins her quiz A as its teacher. *)
Definition sample_gateway_joined : Gateway :=
  snd (handleJoinQuiz Math_pow_sample "sock-alice"
         {| join_pin := "123456"; join_role := teacher;
            join_userId := Some "alice"; join_participantId := None |}
         2000
         (handleConnection "sock-alice" 1000 (emptyGateway sample_service))).

(** At time 10000 she starts question 0 (30 seconds). *)
Definition sample_gateway_question0 : Gateway :=
  snd (handleStartQuestion "sock-alice" "123456" 0 10000 sample_gateway_joined).

(** The quiz is then finished through the REST endpoint, which calls
    [finishQuiz] and leaves the gateway's timer alone. *)
Definition sample_gateway_finished : Gateway :=
  onService (fun s => snd (finishQuiz "quiz-A" (Some "alice") s))
            sample_gateway_question0.

(** Mallory, who owns no quiz, opens a connection while question 0 runs. *)
Definition sample_gateway_mallory : Gateway :=
  handleConnection "sock-mallory" 11000 sample_gateway_question0.

(** The timer of question 0 has fired at 43000 and has started question 1,
    the last one of quiz A. *)
Definition sample_gateway_question1 : Gateway :=
  fireTimeout Math_pow_sample 0 43000 sample_gateway_question0.

(** Ids as [randomUUID()] might hand them out. *)
Definition sample_uuid (n : nat) : string := "id-" +:+ pretty n.

Definition sample_optionDtos : list CreateAnswerOptionDto :=
  [ {| optionDto_text := "3"; optionDto_order := 1 |};
    {| optionDto_text := "4"; optionDto_order := 2 |};
    {| optionDto_text := "5"; optionDto_order := 3 |};
    {| optionDto_text := "6"; optionDto_order := 4 |} ].

(** One question with four options, of which [correctAnswerOrder] is to
    name the right one. *)
Definition sample_questionDto (correctAnswerOrder : Z) : CreateQuestionDto :=
  {| questionDto_text := "2+2?";
     questionDto_timeSeconds := 30;
     questionDto_correctAnswerOrder := correctAnswerOrder;
     questionDto_options := sample_optionDtos;
     questionDto_order := 1 |}.

(** A request whose question names its second option, and one whose
    question names an order that none of its options has. *)
Definition sample_createQuizDto : CreateQuizDto :=
  {| quizDto_title := "Maths"; quizDto_questions := [sample_questionDto 2] |}.

Definition sample_createQuizDto_unanswerable : CreateQuizDto :=
  {| quizDto_title := "Maths"; quizDto_questions := [sample_questionDto 5] |}.

(** ** Statements about the store *)

Definition statusRank (st : QuizStatus) : nat :=
  match st with
  | CREATED => 0
  | STARTED => 1
  | FINISHED => 2
  end.

(** Every quiz of [d] is still there in [d'], not earlier in its life. *)
Definition statusForward (d d' : Db) : Prop :=
  forall (id : string) (q : Quiz),
    findQuizById d id = Some q ->
    exists q', findQuizById d' id = Some q'
               /\ statusRank (quiz_status q) <= statusRank (quiz_status q').

(** A started quiz under [pin], a participant registered under [pin], a
    question of another quiz and one of that question's own options. *)
Definition foreignSubmission (s : Service) (pin questionId participantId : string)
    (dto : SubmitAnswerDto) : Prop :=
  exists (quiz : Quiz) (participant : Participant) (question : Question)
         (opt : AnswerOption),
    findQuizByPin (db s) pin = Some quiz
    /\ quiz_status quiz = STARTED
    /\ findParticipantById (db s) participantId = Some participant
    /\ participant_pin participant = pin
    /\ findQuestionById (db s) questionId = Some question
    /\ question_quizId question <> quiz_id quiz
    /\ In opt (optionsOf (db s) question)
    /\ option_id opt = dto_selectedOptionId dto.

(** The submission is accepted and its answer is in the store. *)
Definition accepted (run : Result SubmitAnswerResult * Service) : Prop :=
  exists res : SubmitAnswerResult,
    fst run = Ok res /\ In (savedAnswer res) (answers (db (snd run))).

(** What [submitAnswer] checks before it writes: a started quiz under the
    PIN, the question, a participant registered under the PIN, no answer
    yet for the pair, an option of the question, and a correct option set
    on the question. *)
Definition submissionValid (s : Service) (pin questionId participantId : string)
    (dto : SubmitAnswerDto) (quiz : Quiz) (question : Question) : Prop :=
  findQuizByPin (db s) pin = Some quiz
  /\ quiz_status quiz = STARTED
  /\ findQuestionById (db s) questionId = Some question
  /\ (exists participant : Participant,
        findParticipantById (db s) participantId = Some participant
        /\ participant_pin participant = pin)
  /\ findAnswer (db s) participantId questionId = None
  /\ (exists opt : AnswerOption,
        In opt (optionsOf (db s) question)
        /\ option_id opt = dto_selectedOptionId dto)
  /\ JS.truthy_opt (question_correctAnswerId question) = true.

(** No two participants under one PIN share a name. *)
Definition namesUnique (d : Db) : Prop :=
  NoDup (List.map (fun p => (participant_pin p, participant_name p))
                  (participants d)).

(** A question of a request names one of its own options. *)
Definition hasCorrectOption (questionDto : CreateQuestionDto) : bool :=
  existsb (fun optionDto =>
             (optionDto_order optionDto
              =? questionDto_correctAnswerOrder questionDto)%Z)
          (questionDto_options questionDto).

(** The numbers of a question of a request fit their [int] columns. *)
Definition fitsIntColumns (questionDto : CreateQuestionDto) : bool :=
  fitsInt (questionDto_timeSeconds questionDto)
  && fitsInt (questionDto_order questionDto)
  && forallb (fun optionDto => fitsInt (optionDto_order optionDto))
             (questionDto_options questionDto).

(** A question whose correct answer is one of its own stored options. *)
Definition configured (d : Db) (q : Question) : Prop :=
  exists opt : AnswerOption,
    In opt (answerOptions d)
    /\ option_questionId opt = question_id q
    /\ question_correctAnswerId q = Some (option_id opt).

(** No two stored quizzes share a PIN. *)
Definition pinsUnique (d : Db) : Prop := NoDup (List.map quiz_pin (quizzes d)).

(** ** Statements about the gateway *)

(** [g'] differs from [g] at most in the cache of the score engine and in
    events sent to [client] alone. *)
Definition onlyToldClient (client : string) (g g' : Gateway) : Prop :=
  db (service g') = db (service g)
  /\ sockets g' = sockets g
  /\ rooms g' = rooms g
  /\ pinRooms g' = pinRooms g
  /\ clientLastActivity g' = clientLastActivity g
  /\ questionStartTimes g' = questionStartTimes g
  /\ questionTimers g' = questionTimers g
  /\ timeouts g' = timeouts g
  /\ exists events : list Emitted,
       emitted g' = emitted g ++ events
       /\ Forall (fun e => recipient e = ToClient client) events.

(** The gateway once [handleJoinQuiz] has put the connection into the room
    of the PIN and into [pinRooms], has tagged it with the data of the
    message and has refreshed its activity. *)
Definition joined (client : string) (data : JoinQuizData) (now : Z)
    (g : Gateway) : Gateway :=
  let pin := join_pin data in
  {| service := service g;
     sockets :=
       <[client := {| data_role := Some (join_role data);
                      data_userId := join_userId data;
                      data_pin := Some pin;
                      data_participantId := join_participantId data;
                      data_connectedAt := data_connectedAt (clientData g client) |}]>
         (sockets g);
     rooms :=
       <[roomName pin := {[client]} ∪ default ∅ (rooms g !! roomName pin)]>
         (rooms g);
     pinRooms := <[pin := {[client]} ∪ default ∅ (pinRooms g !! pin)]> (pinRooms g);
     questionStartTimes := questionStartTimes g;
     questionTimers := questionTimers g;
     clientLastActivity := <[client := now]> (clientLastActivity g);
     timeouts := timeouts g;
     nextTimerId := nextTimerId g;
     emitted := emitted g |}.

(** * Properties *)

(** ** Score engine *)

Section ScoreProperties.

Variable Math_pow : Q -> Q -> Q.

Local Open Scope Q_scope.

Lemma Math_round_nonneg (x : Q) : 0 <= x -> 0 <= JS.Math_round x.
Proof.
  intros Hx. unfold JS.Math_round.
  change 0 with (inject_Z 0). rewrite <- Zle_Qle.
  rewrite <- (Qfloor_Z 0) at 1. apply Qfloor_resp_le.
  change (inject_Z 0) with 0. lra.
Qed.

Lemma Math_round_le (x : Q) (n : Z) :
  x <= inject_Z n -> (Qfloor (x + (1 # 2)) <= n)%Z.
Proof.
  intros Hx.
  assert (H : (Qfloor (x + (1 # 2)) < n + 1)%Z); [|lia].
  rewrite Zlt_Qlt. eapply Qle_lt_trans; [apply Qfloor_le|].
  rewrite inject_Z_plus. change (inject_Z 1) with 1. lra.
Qed.

Lemma Math_round_ge (x : Q) (n : Z) :
  inject_Z n <= x -> (n <= Qfloor (x + (1 # 2)))%Z.
Proof.
  intros Hx. rewrite <- (Qfloor_Z n). apply Qfloor_resp_le. lra.
Qed.

Lemma hundredths_bounds (z : Z) :
  (-10000 <= z <= 10000)%Z -> -100 <= inject_Z z / 100 /\ inject_Z z / 100 <= 100.
Proof.
  intros [Hlo Hhi]. rewrite Zle_Qle in Hlo, Hhi.
  change (inject_Z (-10000)) with (-100 * 100) in Hlo.
  change (inject_Z 10000) with (100 * 100) in Hhi.
  split.
  - apply Qle_shift_div_l; [reflexivity|]. exact Hlo.
  - apply Qle_shift_div_r; [reflexivity|]. exact Hhi.
Qed.

Lemma clamp_bounds (x : Q) :
  -100 <= JS.Math_max (-100) (JS.Math_min 100 x)
  /\ JS.Math_max (-100) (JS.Math_min 100 x) <= 100.
Proof.
  unfold JS.Math_max, JS.Math_min. split.
  - apply Q.le_max_l.
  - apply Q.max_lub; [discriminate|apply Q.le_min_l].
Qed.

Lemma rounded_clamp_bounds (x : Q) :
  let clampedPosition := JS.Math_max (-100) (JS.Math_min 100 x) in
  -100 <= JS.Math_round (clampedPosition * 100) / 100
  /\ JS.Math_round (clampedPosition * 100) / 100 <= 100.
Proof.
  intros c. destruct (clamp_bounds x) as [Hlo Hhi]. fold c in Hlo, Hhi.
  unfold JS.Math_round. apply hundredths_bounds. split.
  - apply Math_round_ge. change (inject_Z (-10000)) with (-10000). lra.
  - apply Math_round_le. change (inject_Z 10000) with 10000. lra.
Qed.

Lemma updateTugPosition_bounds (team1Score team2Score : Q) (hasAnswers : bool) :
  -100 <= position (updateTugPosition Math_pow team1Score team2Score hasAnswers)
  /\ position (updateTugPosition Math_pow team1Score team2Score hasAnswers) <= 100.
Proof.
  unfold updateTugPosition.
  destruct (negb hasAnswers || JS.eqb (team1Score + team2Score) 0).
  - simpl. split; discriminate.
  - simpl. apply rounded_clamp_bounds.
Qed.

Lemma count_nonneg {A} (xs : list A) : 0 <= count xs.
Proof.
  unfold count. change 0 with (inject_Z 0). rewrite <- Zle_Qle. lia.
Qed.

Lemma calculateAverageSpeed_nonneg (answers : list Answer) (maxTimeMs : Q) :
  0 <= calculateAverageSpeed answers maxTimeMs.
Proof.
  unfold calculateAverageSpeed. destruct answers as [|a answers].
  - discriminate.
  - cbv zeta. apply Qle_shift_div_l; [reflexivity|].
    rewrite Qmult_0_l. apply Math_round_nonneg.
    assert (H : 0 <= JS.Math_max 0
                  (maxTimeMs / 1000
                   - fold_left (fun sum a0 => sum + responseTimeMs_or_0 a0)
                       (a :: answers) 0 / count (a :: answers) / 1000))
      by apply Q.le_max_l.
    lra.
Qed.

Lemma teamScoreOf_nonneg (teamAnswers : list Answer) (maxTimeMs : Q) :
  0 <= teamScoreOf teamAnswers maxTimeMs.
Proof.
  unfold teamScoreOf, calculateTeamScore, calculateCorrectAnswers.
  apply Math_round_nonneg.
  pose proof (count_nonneg (List.filter answer_isCorrect teamAnswers)).
  pose proof (calculateAverageSpeed_nonneg teamAnswers maxTimeMs).
  lra.
Qed.

(** C1. For non-negative team scores and either value of [hasAnswers],
    the position computed by [updateTugPosition] lies in [-100, 100]; hence
    so does the position [calculateTugPosition] returns, whatever the
    participants, answers and questions in the store and whatever the
    cache holds. *)
Theorem tug_position_within_bounds :
  (forall (team1Score team2Score : Q) (hasAnswers : bool),
      0 <= team1Score -> 0 <= team2Score ->
      -100 <= position (updateTugPosition Math_pow team1Score team2Score hasAnswers)
           <= 100)
  /\ (forall (cache : gmap string Q) (d : Db) (quizId : string),
      -100 <= position (fst (calculateTugPosition Math_pow cache d quizId))
           <= 100).
Proof.
  assert (Hupdate : forall t1 t2 h, 0 <= t1 -> 0 <= t2 ->
            -100 <= position (updateTugPosition Math_pow t1 t2 h) <= 100).
  { intros t1 t2 h _ _. apply updateTugPosition_bounds. }
  split; [exact Hupdate|].
  intros cache d quizId. unfold calculateTugPosition.
  destruct (List.filter _ (participants d)) as [|p ps] eqn:Hps.
  - simpl. split; discriminate.
  - destruct (getAverageQuestionTime cache d quizId) as [avg cache'].
    cbv zeta. simpl fst. apply Hupdate; apply teamScoreOf_nonneg.
Qed.

(** C6. One correct answer of team 1 after 5000 ms, no answer of team 2,
    [maxTimeMs] = 30000: the average speed is 25, the team scores are 300
    and 0, [updateTugPosition] takes its one-sided branch and the position
    is 75. *)
Theorem first_correct_answer_gives_75 :
  forall (id participantId questionId selectedOptionId : string) (answeredAt : Z),
    let a :=
      {| answer_id := id;
         answer_participantId := participantId;
         answer_questionId := questionId;
         answer_selectedOptionId := selectedOptionId;
         answer_isCorrect := true;
         answer_responseTimeMs := Some 5000%Z;
         answer_answeredAt := answeredAt |} in
    let team1Score :=
      calculateTeamScore (calculateCorrectAnswers [a])
                         (calculateAverageSpeed [a] 30000) in
    let team2Score :=
      calculateTeamScore (calculateCorrectAnswers [])
                         (calculateAverageSpeed [] 30000) in
    calculateAverageSpeed [a] 30000 == 25
    /\ team1Score == 300
    /\ team2Score == 0
    /\ oneSided team1Score team2Score = true
    /\ updateTugPosition Math_pow team1Score team2Score true
       = {| position := 7500 # 100;
            team1Score := team1Score;
            team2Score := team2Score;
            hasAnswers := true |}
    /\ position (updateTugPosition Math_pow team1Score team2Score true) == 75.
Proof.
  intros. repeat split; vm_compute; reflexivity.
Qed.

End ScoreProperties.

(** The bound of C1 on a concrete pair of scores. *)
Lemma tug_position_within_bounds_witness :
  (0 <= 300)%Q /\ (0 <= 100)%Q
  /\ (-100 <= position (updateTugPosition Math_pow_sample 300 100 true) <= 100)%Q.
Proof.
  split; [discriminate|]. split; [discriminate|].
  apply (proj1 (tug_position_within_bounds Math_pow_sample) 300 100 true)%Q;
    discriminate.
Defined.

(** ** Lifecycle: the writes of the quiz status *)

Lemma statusForward_refl (d : Db) : statusForward d d.
Proof. intros id q Hq. exists q. split; [exact Hq|lia]. Qed.

Lemma statusForward_trans (d1 d2 d3 : Db) :
  statusForward d1 d2 -> statusForward d2 d3 -> statusForward d1 d3.
Proof.
  intros H12 H23 id q Hq.
  destruct (H12 id q Hq) as (q2 & Hq2 & Hle2).
  destruct (H23 id q2 Hq2) as (q3 & Hq3 & Hle3).
  exists q3. split; [exact Hq3|lia].
Qed.

Lemma find_some_existsb {A} (f : A -> bool) (l : list A) (x : A) :
  List.find f l = Some x -> existsb f l = true.
Proof.
  intros H. apply existsb_exists. exists x.
  apply List.find_some in H. exact H.
Qed.

Lemma find_replace_same (quiz : Quiz) (rows : list Quiz) (id : string) :
  quiz_id quiz = id ->
  existsb (fun x => String.eqb (quiz_id x) id) rows = true ->
  List.find (fun x => String.eqb (quiz_id x) id)
    (List.map (fun x => if String.eqb (quiz_id x) id then quiz else x) rows)
  = Some quiz.
Proof.
  intros Hid. induction rows as [|x rows IH]; simpl; [discriminate|].
  destruct (String.eqb (quiz_id x) id) eqn:Hx; simpl.
  - intros _. rewrite Hid, String.eqb_refl. reflexivity.
  - intros H. rewrite Hx. apply IH, H.
Qed.

Lemma find_replace_other (quiz : Quiz) (rows : list Quiz) (id id' : string) :
  id' <> id ->
  quiz_id quiz = id ->
  List.find (fun x => String.eqb (quiz_id x) id')
    (List.map (fun x => if String.eqb (quiz_id x) id then quiz else x) rows)
  = List.find (fun x => String.eqb (quiz_id x) id') rows.
Proof.
  intros Hne Hid. induction rows as [|x rows IH]; simpl; [reflexivity|].
  destruct (String.eqb (quiz_id x) id) eqn:Hx.
  - apply String.eqb_eq in Hx.
    assert (H1 : String.eqb (quiz_id quiz) id' = false)
      by (apply String.eqb_neq; congruence).
    assert (H2 : String.eqb (quiz_id x) id' = false)
      by (apply String.eqb_neq; congruence).
    rewrite H1, H2. exact IH.
  - destruct (String.eqb (quiz_id x) id'); [reflexivity|exact IH].
Qed.

Lemma findQuizById_saveQuiz_same (quiz : Quiz) (d : Db) :
  existsb (fun x => String.eqb (quiz_id x) (quiz_id quiz)) (quizzes d) = true ->
  findQuizById (saveQuiz quiz d) (quiz_id quiz) = Some quiz.
Proof.
  intros H. unfold findQuizById, saveQuiz, saveQuizRows. simpl. rewrite H.
  apply find_replace_same; [reflexivity|exact H].
Qed.

Lemma findQuizById_saveQuiz_other (quiz : Quiz) (d : Db) (id : string) :
  id <> quiz_id quiz ->
  existsb (fun x => String.eqb (quiz_id x) (quiz_id quiz)) (quizzes d) = true ->
  findQuizById (saveQuiz quiz d) id = findQuizById d id.
Proof.
  intros Hne H. unfold findQuizById, saveQuiz, saveQuizRows. simpl. rewrite H.
  apply find_replace_other; [exact Hne|reflexivity].
Qed.

Lemma findQuizById_id (d : Db) (id : string) (q : Quiz) :
  findQuizById d id = Some q -> quiz_id q = id.
Proof.
  intros H. apply List.find_some in H. destruct H as [_ H].
  apply String.eqb_eq, H.
Qed.

Lemma findQuizByPin_pin (d : Db) (pin : string) (q : Quiz) :
  findQuizByPin d pin = Some q -> quiz_pin q = pin.
Proof.
  intros H. apply List.find_some in H. destruct H as [_ H].
  apply String.eqb_eq, H.
Qed.

Lemma findQuizByPin_stored (d : Db) (pin : string) (q : Quiz) :
  findQuizByPin d pin = Some q ->
  existsb (fun x => String.eqb (quiz_id x) (quiz_id q)) (quizzes d) = true.
Proof.
  intros H. apply List.find_some in H. destruct H as [Hin _].
  apply existsb_exists. exists q. split; [exact Hin|apply String.eqb_refl].
Qed.

Lemma findQuizById_stored (d : Db) (id : string) (q : Quiz) :
  findQuizById d id = Some q ->
  existsb (fun x => String.eqb (quiz_id x) (quiz_id q)) (quizzes d) = true.
Proof.
  intros H. apply List.find_some in H. destruct H as [Hin _].
  apply existsb_exists. exists q. split; [exact Hin|apply String.eqb_refl].
Qed.

(** Saving a stored quiz with status [FINISHED] moves no quiz backward. *)
Lemma saveQuiz_finished_forward (quiz : Quiz) (d : Db) :
  existsb (fun x => String.eqb (quiz_id x) (quiz_id quiz)) (quizzes d) = true ->
  statusForward d (saveQuiz (withStatus quiz FINISHED) d).
Proof.
  intros Hin id q Hq.
  destruct (decide (id = quiz_id quiz)) as [->|Hne].
  - exists (withStatus quiz FINISHED). split.
    + apply (findQuizById_saveQuiz_same (withStatus quiz FINISHED)), Hin.
    + simpl. destruct (quiz_status q); simpl; lia.
  - exists q. split; [|lia].
    rewrite (findQuizById_saveQuiz_other (withStatus quiz FINISHED));
      [exact Hq|exact Hne|exact Hin].
Qed.

(** Saving the quiz found under its key, with a status that is not
    earlier, moves no quiz backward. *)
Lemma saveQuiz_loaded_forward (quiz : Quiz) (st : QuizStatus) (d : Db) (id : string) :
  findQuizById d id = Some quiz ->
  statusRank (quiz_status quiz) <= statusRank st ->
  statusForward d (saveQuiz (withStatus quiz st) d).
Proof.
  intros Hload Hle id' q Hq.
  pose proof (findQuizById_id _ _ _ Hload) as Hid.
  pose proof (findQuizById_stored _ _ _ Hload) as Hin.
  destruct (decide (id' = quiz_id quiz)) as [->|Hne].
  - exists (withStatus quiz st). split.
    + apply (findQuizById_saveQuiz_same (withStatus quiz st)), Hin.
    + rewrite Hid in Hq. rewrite Hload in Hq. injection Hq as <-. exact Hle.
  - exists q. split; [|lia].
    rewrite (findQuizById_saveQuiz_other (withStatus quiz st));
      [exact Hq|exact Hne|exact Hin].
Qed.

Lemma replace_idempotent (quiz : Quiz) (rows : list Quiz) :
  let f x := if String.eqb (quiz_id x) (quiz_id quiz) then quiz else x in
  List.map f (List.map f rows) = List.map f rows.
Proof.
  intros f. rewrite List.map_map. apply List.map_ext. intros x. unfold f.
  destruct (String.eqb (quiz_id x) (quiz_id quiz)) eqn:Hx.
  - rewrite String.eqb_refl. reflexivity.
  - rewrite Hx. reflexivity.
Qed.

Lemma saveQuiz_twice (quiz : Quiz) (d : Db) :
  existsb (fun x => String.eqb (quiz_id x) (quiz_id quiz)) (quizzes d) = true ->
  saveQuiz quiz (saveQuiz quiz d) = saveQuiz quiz d.
Proof.
  intros Hin.
  assert (Hin' : existsb (fun x => String.eqb (quiz_id x) (quiz_id quiz))
                   (quizzes (saveQuiz quiz d)) = true).
  { apply (find_some_existsb _ _ quiz).
    apply (findQuizById_saveQuiz_same quiz d Hin). }
  unfold saveQuiz at 1. unfold saveQuizRows. rewrite Hin'.
  unfold saveQuiz, saveQuizRows. simpl. rewrite Hin.
  rewrite replace_idempotent. reflexivity.
Qed.

(** Under a unique primary key, saving a row as it is stored is a no-op. *)
Lemma saveQuizRows_stored (quiz : Quiz) (rows : list Quiz) (id : string) :
  NoDup (List.map quiz_id rows) ->
  List.find (fun x => String.eqb (quiz_id x) id) rows = Some quiz ->
  saveQuizRows quiz rows = rows.
Proof.
  intros Hnodup Hfind.
  assert (Hid : quiz_id quiz = id).
  { apply List.find_some in Hfind. apply String.eqb_eq, Hfind. }
  unfold saveQuizRows. rewrite Hid.
  rewrite (find_some_existsb _ _ _ Hfind).
  induction rows as [|x rows IH]; [reflexivity|].
  simpl in *. apply NoDup_cons in Hnodup. destruct Hnodup as [Hx Hnodup].
  destruct (String.eqb (quiz_id x) id) eqn:Hxid.
  - injection Hfind as ->. f_equal.
    rewrite <- (List.map_id rows) at 2. apply List.map_ext_in.
    intros y Hy. destruct (String.eqb (quiz_id y) id) eqn:Hyid; [|reflexivity].
    exfalso. apply Hx. apply String.eqb_eq in Hyid. rewrite Hid, <- Hyid.
    apply list_elem_of_In, List.in_map, Hy.
  - f_equal. apply IH; assumption.
Qed.

Lemma withStatus_same (quiz : Quiz) :
  withStatus quiz (quiz_status quiz) = quiz.
Proof. destruct quiz. reflexivity. Qed.

Section ServiceProperties.

Variable Math_pow : Q -> Q -> Q.

Ltac run_monad :=
  cbv [bind gets throwIf throw ret modify tryCatch] in *; simpl in *.

(** The checks of [submitAnswer] read and never write. *)
Lemma submitAnswer_check_reads (pin questionId participantId : string)
    (dto : SubmitAnswerDto) (s : Service) :
  snd (submitAnswer_check pin questionId participantId dto s) = s.
Proof.
  unfold submitAnswer_check. run_monad.
  destruct (findQuizByPin (db s) pin) as [quiz|]; [|reflexivity].
  destruct (negb (QuizStatus_eqb (quiz_status quiz) STARTED)); [reflexivity|].
  destruct (findQuestionById (db s) questionId) as [question|]; [|reflexivity].
  destruct (match findParticipantById (db s) participantId with
            | Some p => negb (String.eqb (participant_pin p) pin)
            | None => true
            end); [reflexivity|].
  destruct (bool_decide (is_Some (findAnswer (db s) participantId questionId)));
    [reflexivity|].
  destruct (negb (existsb _ (optionsOf (db s) question))); [reflexivity|].
  destruct (negb (JS.truthy_opt (question_correctAnswerId question)));
    reflexivity.
Qed.

(** What a passed check has established. *)
Lemma submitAnswer_check_Ok (pin questionId participantId : string)
    (dto : SubmitAnswerDto) (s s' : Service) (quiz : Quiz) (a : AnswerDraft) :
  submitAnswer_check pin questionId participantId dto s = (Ok (quiz, a), s') ->
  s' = s
  /\ findQuizByPin (db s) pin = Some quiz
  /\ quiz_status quiz = STARTED
  /\ findAnswer (db s) participantId questionId = None
  /\ (exists question,
        findQuestionById (db s) questionId = Some question
        /\ a = {| draft_participantId := participantId;
                  draft_questionId := questionId;
                  draft_selectedOptionId := dto_selectedOptionId dto;
                  draft_isCorrect :=
                    bool_decide (question_correctAnswerId question
                                 = Some (dto_selectedOptionId dto));
                  draft_responseTimeMs := dto_responseTimeMs dto |}).
Proof.
  unfold submitAnswer_check. run_monad.
  destruct (findQuizByPin (db s) pin) as [quiz0|]; [|discriminate].
  destruct (QuizStatus_eqb (quiz_status quiz0) STARTED) eqn:Hst;
    simpl; [|discriminate].
  destruct (findQuestionById (db s) questionId) as [question|]; [|discriminate].
  destruct (match findParticipantById (db s) participantId with
            | Some p => negb (String.eqb (participant_pin p) pin)
            | None => true
            end); [discriminate|].
  destruct (bool_decide (is_Some (findAnswer (db s) participantId questionId)))
    eqn:Hdup; [discriminate|].
  destruct (negb (existsb _ (optionsOf (db s) question))); [discriminate|].
  destruct (negb (JS.truthy_opt (question_correctAnswerId question)));
    [discriminate|].
  intros H. injection H as <- <- <-.
  apply bool_decide_eq_true in Hst.
  apply bool_decide_eq_false in Hdup.
  repeat split; try assumption.
  - destruct (findAnswer (db s) participantId questionId) eqn:E; [|reflexivity].
    exfalso. apply Hdup. eauto.
  - exists question. split; reflexivity.
Qed.

(** The state [submitAnswer_save] leaves: the answer is appended, the cache
    is the one [calculateTugPosition] leaves, and the quiz is saved as
    finished exactly when the win condition holds. *)
Lemma submitAnswer_save_db (uuid : string) (now : Z) (quiz : Quiz)
    (a : AnswerDraft) (s : Service) :
  fitsInt (draft_responseTimeMs a) = true ->
  exists (res : SubmitAnswerResult),
    fst (submitAnswer_save Math_pow uuid now quiz a s) = Ok res
    /\ tugStatus res
       = fst (calculateTugPosition Math_pow (questionTimeCache s)
                (insertAnswer (savedAnswer res) (db s)) (quiz_id quiz))
    /\ shouldAutoFinish res
       = JS.geb (JS.Math_abs (position (tugStatus res))) 100
         && hasAnswers (tugStatus res)
    /\ gameFinished res = shouldAutoFinish res
    /\ savedAnswer res
       = {| answer_id := uuid;
            answer_participantId := draft_participantId a;
            answer_questionId := draft_questionId a;
            answer_selectedOptionId := draft_selectedOptionId a;
            answer_isCorrect := draft_isCorrect a;
            answer_responseTimeMs := Some (draft_responseTimeMs a);
            answer_answeredAt := now |}
    /\ db (snd (submitAnswer_save Math_pow uuid now quiz a s))
       = (if shouldAutoFinish res && QuizStatus_eqb (quiz_status quiz) STARTED
          then saveQuiz (withStatus quiz FINISHED)
                 (insertAnswer (savedAnswer res) (db s))
          else insertAnswer (savedAnswer res) (db s)).
Proof.
  intros Hfits.
  set (sa := {| answer_id := uuid;
                answer_participantId := draft_participantId a;
                answer_questionId := draft_questionId a;
                answer_selectedOptionId := draft_selectedOptionId a;
                answer_isCorrect := draft_isCorrect a;
                answer_responseTimeMs := Some (draft_responseTimeMs a);
                answer_answeredAt := now |}).
  destruct (calculateTugPosition Math_pow (questionTimeCache s)
              (insertAnswer sa (db s)) (quiz_id quiz))
    as [t cache'] eqn:Hcalc.
  exists {| savedAnswer := sa;
            tugStatus := t;
            shouldAutoFinish :=
              JS.geb (JS.Math_abs (position t)) 100 && hasAnswers t;
            gameFinished :=
              JS.geb (JS.Math_abs (position t)) 100 && hasAnswers t |}.
  unfold submitAnswer_save, tugOfWar_calculateTugPosition. rewrite Hfits.
  cbv [negb bind gets throwIf throw ret modify]. fold sa.
  cbn [db questionTimeCache onDb onCache savedAnswer tugStatus shouldAutoFinish
       gameFinished].
  rewrite Hcalc.
  destruct (JS.geb (JS.Math_abs (position t)) 100 && hasAnswers t
            && QuizStatus_eqb (quiz_status quiz) STARTED);
    cbn; repeat split; reflexivity.
Qed.

(** An answer whose response time does not fit the column is not saved:
    the insert throws and the service is left as it was. *)
Lemma submitAnswer_save_out_of_range (uuid : string) (now : Z) (quiz : Quiz)
    (a : AnswerDraft) (s : Service) :
  fitsInt (draft_responseTimeMs a) = false ->
  submitAnswer_save Math_pow uuid now quiz a s
  = (Throw (QueryFailedError (msg_out_of_range (draft_responseTimeMs a))), s).
Proof.
  intros Hfits. unfold submitAnswer_save. rewrite Hfits. reflexivity.
Qed.

(** Calls that run one after the other, none starting before the one
    before it has returned: [startQuiz], [finishQuiz] and [submitAnswer]
    (with its win-by-domination finish) move every quiz forward in the
    order created, started, finished, or leave it where it is. *)
Lemma status_moves_forward_without_overlap (s : Service) :
  (forall (quizId : string) (userId : option string),
      statusForward (db s) (db (snd (startQuiz quizId userId s))))
  /\ (forall (quizId : string) (userId : option string),
      statusForward (db s) (db (snd (finishQuiz quizId userId s))))
  /\ (forall (uuid : string) (now : Z) (pin questionId participantId : string)
             (dto : SubmitAnswerDto),
      statusForward (db s)
        (db (snd (submitAnswer Math_pow uuid now pin questionId participantId
                               dto s)))).
Proof.
  split; [|split].
  - intros quizId userId. unfold startQuiz. run_monad.
    destruct (findQuizById (db s) quizId) as [quiz|] eqn:Hload;
      [|apply statusForward_refl].
    destruct (notCreator quiz userId); [apply statusForward_refl|].
    destruct (QuizStatus_eqb (quiz_status quiz) CREATED) eqn:Hst; simpl;
      [|apply statusForward_refl].
    apply bool_decide_eq_true in Hst.
    assert (Hfwd : statusForward (db s) (saveQuiz (withStatus quiz STARTED) (db s))).
    { eapply saveQuiz_loaded_forward; [exact Hload|]. rewrite Hst. simpl. lia. }
    destruct (findQuizById (saveQuiz (withStatus quiz STARTED) (db s)) (quiz_id quiz));
      exact Hfwd.
  - intros quizId userId. unfold finishQuiz. run_monad.
    destruct (findQuizById (db s) quizId) as [quiz|] eqn:Hload;
      [|apply statusForward_refl].
    destruct (notCreator quiz userId); [apply statusForward_refl|]. simpl.
    apply saveQuiz_finished_forward.
    eapply findQuizById_stored, Hload.
  - intros uuid now pin questionId participantId dto.
    unfold submitAnswer, bind.
    destruct (submitAnswer_check pin questionId participantId dto s)
      as [[[quiz a]|e] s1] eqn:Hcheck.
    + apply submitAnswer_check_Ok in Hcheck.
      destruct Hcheck as (-> & Hquiz & _).
      destruct (fitsInt (draft_responseTimeMs a)) eqn:Hfits;
        [|rewrite (submitAnswer_save_out_of_range _ _ _ _ _ Hfits);
          apply statusForward_refl].
      destruct (submitAnswer_save_db uuid now quiz a s Hfits)
        as (res & _ & _ & _ & _ & _ & Hdb).
      rewrite Hdb.
      destruct (shouldAutoFinish res && QuizStatus_eqb (quiz_status quiz) STARTED).
      * apply (statusForward_trans _ (insertAnswer (savedAnswer res) (db s))).
        -- intros id q Hq. exists q. split; [exact Hq|lia].
        -- apply saveQuiz_finished_forward. simpl.
           eapply findQuizByPin_stored, Hquiz.
      * intros id q Hq. exists q. split; [exact Hq|lia].
    + pose proof (submitAnswer_check_reads pin questionId participantId dto s) as H.
      rewrite Hcheck in H. simpl in H. subst s1. apply statusForward_refl.
Qed.

(** [startQuiz] is its checks followed by its save. *)
Lemma startQuiz_check_then_save (quizId : string) (userId : option string)
    (s : Service) :
  startQuiz quizId userId s
  = bind (startQuiz_check quizId userId) startQuiz_save s.
Proof.
  unfold startQuiz, startQuiz_check, startQuiz_save.
  cbv [bind gets throwIf throw ret modify].
  destruct (findQuizById (db s) quizId) as [quiz|]; [|reflexivity].
  destruct (notCreator quiz userId); [reflexivity|].
  destruct (QuizStatus_eqb (quiz_status quiz) CREATED); reflexivity.
Qed.

Lemma existsb_saveQuiz (quiz quiz' : Quiz) (d : Db) :
  quiz_id quiz' = quiz_id quiz ->
  existsb (fun x => String.eqb (quiz_id x) (quiz_id quiz)) (quizzes d) = true ->
  existsb (fun x => String.eqb (quiz_id x) (quiz_id quiz))
          (quizzes (saveQuiz quiz' d)) = true.
Proof.
  intros Hid Hin. rewrite <- Hid in *.
  apply (findQuizById_stored _ (quiz_id quiz') quiz').
  apply findQuizById_saveQuiz_same. exact Hin.
Qed.

(** The race behind C4, on any store: a [finishQuiz] by the creator that
    runs between the read and the save of the creator's [startQuiz] on a
    created quiz succeeds, and so does the [startQuiz]; the quiz, stored as
    finished in between, is stored as started in the end. *)
Lemma finishQuiz_between_read_and_save
    (s : Service) (quizId : string) (userId : option string) (quiz : Quiz) :
  findQuizById (db s) quizId = Some quiz ->
  quiz_status quiz = CREATED ->
  notCreator quiz userId = false ->
  let afterFinish := snd (finishQuiz quizId userId s) in
  let run := startQuiz_around_finishQuiz quizId userId userId s in
  quiz_status <$> findQuizById (db afterFinish) quizId = Some FINISHED
  /\ (exists (finished : Quiz) (started : LoadedQuiz),
         fst run = Ok (finished, started)
         /\ quiz_status finished = FINISHED
         /\ quiz_status (lq_quiz started) = STARTED)
  /\ quiz_status <$> findQuizById (db (snd run)) quizId = Some STARTED.
Proof.
  intros Hload Hstatus Hcreator afterFinish run.
  pose proof (findQuizById_id _ _ _ Hload) as Hid.
  pose proof (findQuizById_stored _ _ _ Hload) as Hin.
  assert (Hfinish : finishQuiz quizId userId s
                    = (Ok (withStatus quiz FINISHED),
                       onCache (fun cache => clearCache cache quizId)
                         (onDb (saveQuiz (withStatus quiz FINISHED)) s))).
  { unfold finishQuiz. cbv [bind gets throwIf throw ret modify].
    rewrite Hload, Hcreator. reflexivity. }
  assert (Hcheck : startQuiz_check quizId userId s = (Ok quiz, s)).
  { unfold startQuiz_check. cbv [bind gets throwIf throw ret].
    rewrite Hload, Hcreator, Hstatus. reflexivity. }
  assert (Hfinished : findQuizById (saveQuiz (withStatus quiz FINISHED) (db s))
                                   quizId
                      = Some (withStatus quiz FINISHED)).
  { rewrite <- Hid. apply (findQuizById_saveQuiz_same (withStatus quiz FINISHED)).
    exact Hin. }
  assert (Hstarted : findQuizById
                       (saveQuiz (withStatus quiz STARTED)
                                 (saveQuiz (withStatus quiz FINISHED) (db s)))
                       quizId
                     = Some (withStatus quiz STARTED)).
  { rewrite <- Hid. apply (findQuizById_saveQuiz_same (withStatus quiz STARTED)).
    apply (existsb_saveQuiz quiz (withStatus quiz FINISHED)); [reflexivity|].
    exact Hin. }
  split.
  { subst afterFinish. rewrite Hfinish.
    cbn [snd db onDb onCache]. rewrite Hfinished. reflexivity. }
  assert (Hrun : run
                 = (Ok (withStatus quiz FINISHED,
                        {| lq_quiz := withStatus quiz STARTED;
                           lq_questions := questionsOf (db s) quizId |}),
                    onDb (saveQuiz (withStatus quiz STARTED))
                      (onCache (fun cache => clearCache cache quizId)
                         (onDb (saveQuiz (withStatus quiz FINISHED)) s)))).
  { subst run. unfold startQuiz_around_finishQuiz.
    unfold bind at 1. rewrite Hcheck. unfold bind at 1. rewrite Hfinish.
    unfold startQuiz_save. cbv [bind gets throw ret modify].
    cbn [db onDb onCache withStatus quiz_id]. rewrite Hid, Hstarted.
    cbn [withStatus quiz_id]. rewrite Hid. reflexivity. }
  rewrite Hrun. split.
  - eexists _, _. repeat split; reflexivity.
  - cbn [snd db onDb onCache]. rewrite Hstarted. reflexivity.
Qed.

(** C5. For the creator of a stored quiz, [finishQuiz] succeeds whatever
    the current status: it returns the quiz with status finished and
    stores it so, the other columns as they were; calling it again
    succeeds with the same result and changes nothing; and on a quiz that
    is already finished (rows keyed uniquely) the store is left as it was. *)
Theorem finishQuiz_unconditional_and_idempotent
    (s : Service) (quizId : string) (quiz : Quiz) :
  findQuizById (db s) quizId = Some quiz ->
  let userId := Some (quiz_creatorId quiz) in
  let finished :=
    {| quiz_id := quiz_id quiz;
       quiz_title := quiz_title quiz;
       quiz_pin := quiz_pin quiz;
       quiz_status := FINISHED;
       quiz_creatorId := quiz_creatorId quiz |} in
  let s1 := snd (finishQuiz quizId userId s) in
  fst (finishQuiz quizId userId s) = Ok finished
  /\ quiz_status finished = FINISHED
  /\ findQuizById (db s1) quizId = Some finished
  /\ finishQuiz quizId userId s1 = (Ok finished, s1)
  /\ (quiz_status quiz = FINISHED ->
      NoDup (List.map quiz_id (quizzes (db s))) ->
      db s1 = db s).
Proof.
  intros Hload userId finished s1.
  change finished with (withStatus quiz FINISHED). clear finished.
  pose proof (findQuizById_id _ _ _ Hload) as Hid.
  pose proof (findQuizById_stored _ _ _ Hload) as Hin.
  assert (Hcreator : forall q : Quiz, notCreator q (Some (quiz_creatorId q)) = false).
  { intros q. simpl. rewrite String.eqb_refl. reflexivity. }
  assert (Hrun : finishQuiz quizId userId s
                 = (Ok (withStatus quiz FINISHED),
                    onCache (fun cache => clearCache cache quizId)
                      (onDb (saveQuiz (withStatus quiz FINISHED)) s))).
  { unfold finishQuiz, userId. run_monad. rewrite Hload.
    rewrite String.eqb_refl. reflexivity. }
  assert (Hs1 : s1 = onCache (fun cache => clearCache cache quizId)
                       (onDb (saveQuiz (withStatus quiz FINISHED)) s)).
  { unfold s1. rewrite Hrun. reflexivity. }
  assert (Hload1 : findQuizById (db s1) quizId = Some (withStatus quiz FINISHED)).
  { rewrite Hs1. simpl. rewrite <- Hid.
    apply (findQuizById_saveQuiz_same (withStatus quiz FINISHED)), Hin. }
  split; [rewrite Hrun; reflexivity|].
  split; [reflexivity|].
  split; [exact Hload1|].
  split.
  - unfold finishQuiz, userId. run_monad. rewrite Hload1. simpl.
    rewrite String.eqb_refl. simpl. f_equal.
    rewrite Hs1. unfold onCache, onDb, clearCache. simpl. f_equal.
    + apply (saveQuiz_twice (withStatus quiz FINISHED)), Hin.
    + apply delete_delete_eq.
  - intros Hfinished Hnodup. rewrite Hs1. simpl.
    rewrite <- Hfinished, withStatus_same.
    unfold saveQuiz. rewrite (saveQuizRows_stored quiz _ quizId Hnodup Hload).
    destruct (db s). reflexivity.
Qed.

(** C2. A successful [submitAnswer] found a started quiz under the PIN and
    recomputed the tug position with the new answer.  If the absolute value
    of that position reaches 100 and there are answers, the quiz is stored
    with status finished (and otherwise as it was found) and both flags of
    the result are set; otherwise the quiz table is left as it was and the
    flags are clear. *)
Theorem submitAnswer_finishes_on_domination
    (s : Service) (uuid : string) (now : Z)
    (pin questionId participantId : string) (dto : SubmitAnswerDto)
    (res : SubmitAnswerResult) (s' : Service) :
  submitAnswer Math_pow uuid now pin questionId participantId dto s
  = (Ok res, s') ->
  exists quiz : Quiz,
    findQuizByPin (db s) pin = Some quiz
    /\ quiz_status quiz = STARTED
    /\ tugStatus res
       = fst (calculateTugPosition Math_pow (questionTimeCache s)
                (insertAnswer (savedAnswer res) (db s)) (quiz_id quiz))
    /\ ((100 <= Qabs (position (tugStatus res)))%Q
        /\ hasAnswers (tugStatus res) = true ->
        findQuizById (db s') (quiz_id quiz)
        = Some {| quiz_id := quiz_id quiz;
                  quiz_title := quiz_title quiz;
                  quiz_pin := quiz_pin quiz;
                  quiz_status := FINISHED;
                  quiz_creatorId := quiz_creatorId quiz |}
        /\ gameFinished res = true
        /\ shouldAutoFinish res = true)
    /\ (~ ((100 <= Qabs (position (tugStatus res)))%Q
           /\ hasAnswers (tugStatus res) = true) ->
        quizzes (db s') = quizzes (db s)
        /\ gameFinished res = false
        /\ shouldAutoFinish res = false).
Proof.
  unfold submitAnswer, bind. intros Hrun.
  destruct (submitAnswer_check pin questionId participantId dto s)
    as [[[quiz a]|e] s1] eqn:Hcheck; [|discriminate].
  apply submitAnswer_check_Ok in Hcheck.
  destruct Hcheck as (-> & Hquiz & Hstarted & _).
  destruct (fitsInt (draft_responseTimeMs a)) eqn:Hfits;
    [|rewrite (submitAnswer_save_out_of_range _ _ _ _ _ Hfits) in Hrun;
      discriminate].
  destruct (submitAnswer_save_db uuid now quiz a s Hfits)
    as (res' & Hres & Htug & Hflag & Hgame & _ & Hdb).
  rewrite Hrun in Hres, Hdb. simpl in Hres, Hdb. injection Hres as <-.
  exists quiz. split; [exact Hquiz|]. split; [exact Hstarted|].
  split; [exact Htug|].
  assert (Hiff : shouldAutoFinish res = true
                 <-> (100 <= Qabs (position (tugStatus res)))%Q
                     /\ hasAnswers (tugStatus res) = true).
  { rewrite Hflag, andb_true_iff. unfold JS.geb, JS.Math_abs.
    rewrite Qle_bool_iff. reflexivity. }
  rewrite Hstarted in Hdb. change (QuizStatus_eqb STARTED STARTED) with true in Hdb.
  rewrite andb_true_r in Hdb.
  split.
  - intros Hwin. apply Hiff in Hwin. rewrite Hgame, Hwin in *.
    split; [|split; reflexivity].
    rewrite Hdb. apply (findQuizById_saveQuiz_same (withStatus quiz FINISHED)).
    simpl. eapply findQuizByPin_stored, Hquiz.
  - intros Hnot.
    assert (Hfalse : shouldAutoFinish res = false).
    { destruct (shouldAutoFinish res); [|reflexivity].
      exfalso. apply Hnot, Hiff. reflexivity. }
    rewrite Hgame, Hfalse in *. rewrite Hdb. split; [reflexivity|split; reflexivity].
Qed.

(** A second, later submission for a pair that already has an answer is
    refused and writes nothing. *)
Lemma submitAnswer_duplicate_rejected
    (s : Service) (uuid : string) (now : Z)
    (pin questionId participantId : string) (dto : SubmitAnswerDto) :
  is_Some (findAnswer (db s) participantId questionId) ->
  exists e : HttpException,
    submitAnswer Math_pow uuid now pin questionId participantId dto s
    = (Throw e, s)
    /\ ((exists (quiz : Quiz) (question : Question) (participant : Participant),
           findQuizByPin (db s) pin = Some quiz
           /\ quiz_status quiz = STARTED
           /\ findQuestionById (db s) questionId = Some question
           /\ findParticipantById (db s) participantId = Some participant
           /\ participant_pin participant = pin) ->
        e = BadRequestException "Вы уже ответили на этот вопрос").
Proof.
  intros Hdup. unfold submitAnswer, bind.
  destruct (submitAnswer_check pin questionId participantId dto s)
    as [[[quiz a]|e] s1] eqn:Hcheck.
  - apply submitAnswer_check_Ok in Hcheck.
    destruct Hcheck as (_ & _ & _ & Hnone & _).
    rewrite Hnone in Hdup. destruct Hdup as [x Hx]. discriminate.
  - pose proof (submitAnswer_check_reads pin questionId participantId dto s) as H.
    rewrite Hcheck in H. simpl in H. subst s1.
    exists e. split; [reflexivity|].
    intros (quiz & question & participant & Hquiz & Hst & Hq & Hp & Hpin).
    revert Hcheck. unfold submitAnswer_check. run_monad.
    rewrite Hquiz, Hst, Hq, Hp, Hpin. simpl. rewrite String.eqb_refl. simpl.
    rewrite (bool_decide_eq_true_2 _ Hdup). simpl. congruence.
Qed.

(** C10, as amended.  [submitAnswer] never compares the question's quiz
    with the quiz found under the PIN: a submission that names a question
    of another quiz with one of that question's own options is accepted and
    its answer is appended to the store, provided the participant has no
    answer for that question yet, the question has its correct option set
    and the response time fits the 32-bit integer column it is stored
    in. *)
Theorem submitAnswer_accepts_foreign_question
    (s : Service) (uuid : string) (now : Z)
    (pin questionId participantId : string) (dto : SubmitAnswerDto) :
  foreignSubmission s pin questionId participantId dto ->
  findAnswer (db s) participantId questionId = None ->
  (forall question : Question,
      findQuestionById (db s) questionId = Some question ->
      JS.truthy_opt (question_correctAnswerId question) = true) ->
  fitsInt (dto_responseTimeMs dto) = true ->
  let run := submitAnswer Math_pow uuid now pin questionId participantId dto s in
  accepted run
  /\ exists res : SubmitAnswerResult,
      fst run = Ok res
      /\ answers (db (snd run)) = answers (db s) ++ [savedAnswer res]
      /\ answer_questionId (savedAnswer res) = questionId
      /\ answer_participantId (savedAnswer res) = participantId
      /\ answer_selectedOptionId (savedAnswer res) = dto_selectedOptionId dto.
Proof.
  intros (quiz & participant & question & opt & Hquiz & Hst & Hp & Hpin & Hq
          & _ & Hin & Hopt) Hnone Hcorrect Hfits run.
  specialize (Hcorrect question Hq).
  assert (Hcheck : submitAnswer_check pin questionId participantId dto s
                   = (Ok (quiz,
                          {| draft_participantId := participantId;
                             draft_questionId := questionId;
                             draft_selectedOptionId := dto_selectedOptionId dto;
                             draft_isCorrect :=
                               bool_decide (question_correctAnswerId question
                                            = Some (dto_selectedOptionId dto));
                             draft_responseTimeMs := dto_responseTimeMs dto |}),
                      s)).
  { unfold submitAnswer_check. run_monad.
    rewrite Hquiz, Hst, Hq, Hp, Hpin, Hnone. simpl.
    rewrite String.eqb_refl. simpl.
    assert (Hex : existsb
                    (fun o => String.eqb (option_id o) (dto_selectedOptionId dto))
                    (optionsOf (db s) question) = true).
    { apply existsb_exists. exists opt. split; [exact Hin|].
      apply String.eqb_eq, Hopt. }
    rewrite Hex, Hcorrect. reflexivity. }
  match type of Hcheck with _ = (Ok (_, ?a), _) => set (draft := a) in * end.
  destruct (submitAnswer_save_db uuid now quiz draft s Hfits)
    as (res & Hres & _ & _ & _ & Hsaved & Hdb).
  assert (Hrun : run = submitAnswer_save Math_pow uuid now quiz draft s).
  { unfold run, submitAnswer, bind. rewrite Hcheck. reflexivity. }
  assert (Hanswers : answers (db (snd run)) = answers (db s) ++ [savedAnswer res]).
  { rewrite Hrun, Hdb.
    destruct (shouldAutoFinish res && QuizStatus_eqb (quiz_status quiz) STARTED);
      reflexivity. }
  split.
  - exists res. split; [rewrite Hrun; exact Hres|].
    rewrite Hanswers. apply List.in_or_app. right. left. reflexivity.
  - exists res. split; [rewrite Hrun; exact Hres|].
    split; [exact Hanswers|]. rewrite Hsaved. simpl. repeat split.
Qed.

(** The answers table after [submitAnswer_save]: one row more. *)
Lemma submitAnswer_save_answers (uuid : string) (now : Z) (quiz : Quiz)
    (a : AnswerDraft) (s : Service) :
  fitsInt (draft_responseTimeMs a) = true ->
  exists res : SubmitAnswerResult,
    fst (submitAnswer_save Math_pow uuid now quiz a s) = Ok res
    /\ answer_id (savedAnswer res) = uuid
    /\ answers (db (snd (submitAnswer_save Math_pow uuid now quiz a s)))
       = answers (db s) ++ [savedAnswer res].
Proof.
  intros Hfits.
  destruct (submitAnswer_save_db uuid now quiz a s Hfits)
    as (res & Hres & _ & _ & _ & Hsaved & Hdb).
  exists res. split; [exact Hres|]. split; [rewrite Hsaved; reflexivity|].
  rewrite Hdb.
  destruct (shouldAutoFinish res && QuizStatus_eqb (quiz_status quiz) STARTED);
    reflexivity.
Qed.

(** The race behind C3, on any store: when two submissions for the same
    participant and question would each pass the checks (with response
    times that fit the column), running their checks before either save
    accepts both and stores both answers. *)
Lemma interleaved_submissions_both_saved
    (s : Service) (uuid1 uuid2 : string) (now1 now2 : Z)
    (pin questionId participantId : string) (dto1 dto2 : SubmitAnswerDto)
    (quiz1 quiz2 : Quiz) (a1 a2 : AnswerDraft) :
  fst (submitAnswer_check pin questionId participantId dto1 s) = Ok (quiz1, a1) ->
  fst (submitAnswer_check pin questionId participantId dto2 s) = Ok (quiz2, a2) ->
  fitsInt (dto_responseTimeMs dto1) = true ->
  fitsInt (dto_responseTimeMs dto2) = true ->
  let run :=
    submitAnswer_interleaved Math_pow uuid1 uuid2 now1 now2
      pin questionId participantId dto1 dto2 s in
  exists result1 result2 : SubmitAnswerResult,
    fst run = Ok (result1, result2)
    /\ answers (db (snd run))
       = answers (db s) ++ [savedAnswer result1; savedAnswer result2]
    /\ answerFor participantId questionId (savedAnswer result1) = true
    /\ answerFor participantId questionId (savedAnswer result2) = true.
Proof.
  intros H1 H2 Hfits1 Hfits2 run. subst run.
  unfold submitAnswer_interleaved, bind.
  destruct (submitAnswer_check pin questionId participantId dto1 s)
    as [r1 s1] eqn:E1.
  simpl in H1. subst r1.
  apply submitAnswer_check_Ok in E1. destruct E1 as (-> & _ & _ & _ & q1 & _ & Ha1).
  destruct (submitAnswer_check pin questionId participantId dto2 s)
    as [r2 s2] eqn:E2.
  simpl in H2. subst r2.
  apply submitAnswer_check_Ok in E2. destruct E2 as (-> & _ & _ & _ & q2 & _ & Ha2).
  assert (Hfits1' : fitsInt (draft_responseTimeMs a1) = true)
    by (rewrite Ha1; exact Hfits1).
  assert (Hfits2' : fitsInt (draft_responseTimeMs a2) = true)
    by (rewrite Ha2; exact Hfits2).
  destruct (submitAnswer_save_db uuid1 now1 quiz1 a1 s Hfits1')
    as (res1 & Hres1 & _ & _ & _ & Hsaved1 & _).
  destruct (submitAnswer_save_answers uuid1 now1 quiz1 a1 s Hfits1')
    as (res1' & Hres1' & _ & Hans1).
  rewrite Hres1 in Hres1'. injection Hres1' as <-.
  destruct (submitAnswer_save Math_pow uuid1 now1 quiz1 a1 s) as [r1 s1].
  simpl in Hres1, Hans1. subst r1.
  destruct (submitAnswer_save_db uuid2 now2 quiz2 a2 s1 Hfits2')
    as (res2 & Hres2 & _ & _ & _ & Hsaved2 & _).
  destruct (submitAnswer_save_answers uuid2 now2 quiz2 a2 s1 Hfits2')
    as (res2' & Hres2' & _ & Hans2).
  rewrite Hres2 in Hres2'. injection Hres2' as <-.
  destruct (submitAnswer_save Math_pow uuid2 now2 quiz2 a2 s1) as [r2 s2].
  simpl in Hres2, Hans2. subst r2.
  exists res1, res2. simpl. split; [reflexivity|].
  split.
  - rewrite Hans2, Hans1, <- List.app_assoc. reflexivity.
  - rewrite Hsaved1, Hsaved2, Ha1, Ha2. unfold answerFor. simpl.
    rewrite !String.eqb_refl. split; reflexivity.
Qed.

End ServiceProperties.

(** C5 on the sample store: Alice finishes her running quiz, and finishes
    it once more. *)
Lemma finishQuiz_unconditional_and_idempotent_witness :
  let finished := snd (finishQuiz "quiz-A" (Some "alice") sample_service) in
  findQuizById (db sample_service) "quiz-A" = Some sample_quizA
  /\ fst (finishQuiz "quiz-A" (Some "alice") sample_service)
     = Ok sample_quizA_finished
  /\ findQuizById (db finished) "quiz-A" = Some sample_quizA_finished
  /\ NoDup (List.map quiz_id (quizzes (db finished)))
  /\ db (snd (finishQuiz "quiz-A" (Some "alice") finished)) = db finished.
Proof.
  cbv zeta.
  assert (H : findQuizById (db sample_service) "quiz-A" = Some sample_quizA)
    by (vm_compute; reflexivity).
  assert (H' : findQuizById
                 (db (snd (finishQuiz "quiz-A" (Some "alice") sample_service)))
                 "quiz-A"
               = Some sample_quizA_finished)
    by (vm_compute; reflexivity).
  assert (Hkeys : NoDup (List.map quiz_id
                    (quizzes (db (snd (finishQuiz "quiz-A" (Some "alice")
                                                  sample_service)))))).
  { eapply bool_decide_eq_true_1. vm_compute. reflexivity. }
  split; [exact H|].
  split; [apply (finishQuiz_unconditional_and_idempotent sample_service "quiz-A"
                   sample_quizA H)|].
  split; [exact H'|]. split; [exact Hkeys|].
  apply (finishQuiz_unconditional_and_idempotent _ "quiz-A"
           sample_quizA_finished H');
    [reflexivity|exact Hkeys].
Defined.

(** C2 on the sample store.  With Ben's slow wrong answer recorded, Ann's
    quick correct one takes the position to 100 and finishes the quiz; as
    the first answer of the game it gives 75 and the quiz table stays as it
    was. *)
Lemma submitAnswer_finishes_on_domination_witness :
  (exists (res : SubmitAnswerResult) (s' : Service),
      submitAnswer Math_pow_sample "a1" 40000 "123456" "qA1" "p1" sample_dto
                   sample_service_after_ben
      = (Ok res, s')
      /\ (position (tugStatus res) == 100)%Q
      /\ findQuizById (db s') "quiz-A" = Some sample_quizA_finished
      /\ gameFinished res = true)
  /\ (exists (res : SubmitAnswerResult) (s' : Service),
        submitAnswer Math_pow_sample "a1" 40000 "123456" "qA1" "p1" sample_dto
                     sample_service
        = (Ok res, s')
        /\ (position (tugStatus res) == 75)%Q
        /\ quizzes (db s') = quizzes (db sample_service)
        /\ gameFinished res = false).
Proof.
  split.
  - eexists. eexists. split; [vm_compute; reflexivity|].
    split; [vm_compute; reflexivity|].
    edestruct (submitAnswer_finishes_on_domination Math_pow_sample
                 sample_service_after_ben "a1" 40000 "123456" "qA1" "p1"
                 sample_dto)
      as (quiz & Hquiz & _ & _ & Hwin & _); [vm_compute; reflexivity|].
    vm_compute in Hquiz. injection Hquiz as <-.
    destruct Hwin as (Hfinished & Hgame & _).
    + split; [vm_compute; discriminate|vm_compute; reflexivity].
    + split; [exact Hfinished|exact Hgame].
  - eexists. eexists. split; [vm_compute; reflexivity|].
    split; [vm_compute; reflexivity|].
    edestruct (submitAnswer_finishes_on_domination Math_pow_sample
                 sample_service "a1" 40000 "123456" "qA1" "p1" sample_dto)
      as (quiz & _ & _ & _ & _ & Hstay); [vm_compute; reflexivity|].
    destruct Hstay as (Hquizzes & Hgame & _).
    + intros [Hreach _]. vm_compute in Hreach. apply Hreach. reflexivity.
    + split; [exact Hquizzes|exact Hgame].
Defined.

(** On the sample store, under the PIN of quiz A, Ann names question qB1
    of quiz B with its option qB1-2. *)
Lemma sample_foreignSubmission (s : Service) (question : Question)
    (dto : SubmitAnswerDto) :
  quizzes (db s) = quizzes sample_db ->
  participants (db s) = participants sample_db ->
  answerOptions (db s) = answerOptions sample_db ->
  findQuestionById (db s) "qB1" = Some question ->
  question_id question = "qB1" ->
  question_quizId question = "quiz-B" ->
  dto_selectedOptionId dto = "qB1-2" ->
  foreignSubmission s "123456" "qB1" "p1" dto.
Proof.
  intros Hq Hp Ho Hfind Hid Hquiz Hdto.
  exists sample_quizA.
  exists {| participant_id := "p1"; participant_name := "Ann";
            participant_team := TEAM_1; participant_quizId := "quiz-A";
            participant_pin := "123456"; participant_joinedAt := 1000 |}.
  exists question.
  exists (sample_option "qB1" "qB1-2" 2).
  unfold findQuizByPin, findParticipantById, optionsOf.
  rewrite Hq, Hp, Ho, Hid, Hquiz.
  split; [vm_compute; reflexivity|].
  split; [reflexivity|].
  split; [vm_compute; reflexivity|].
  split; [reflexivity|].
  split; [exact Hfind|].
  split; [discriminate|].
  split; [vm_compute; tauto|symmetry; exact Hdto].
Qed.

(** C10 as stated fails: it promises acceptance where the code refuses.
    On the sample store after Ann's foreign submission was accepted once,
    the same submission is refused as a duplicate; with no duplicate in
    the way, a foreign question that has no correct option set is refused
    as well; and with neither in the way, a response time of 3000000000 ms
    is refused by the database. *)
Lemma foreign_question_not_always_accepted :
  ~ (forall (s : Service) (uuid : string) (now : Z)
            (pin questionId participantId : string) (dto : SubmitAnswerDto),
        foreignSubmission s pin questionId participantId dto ->
        accepted (submitAnswer Math_pow_sample uuid now pin questionId
                               participantId dto s))
  /\ ~ (forall (s : Service) (uuid : string) (now : Z)
              (pin questionId participantId : string) (dto : SubmitAnswerDto),
          foreignSubmission s pin questionId participantId dto ->
          findAnswer (db s) participantId questionId = None ->
          accepted (submitAnswer Math_pow_sample uuid now pin questionId
                                 participantId dto s))
  /\ ~ (forall (s : Service) (uuid : string) (now : Z)
              (pin questionId participantId : string) (dto : SubmitAnswerDto),
          foreignSubmission s pin questionId participantId dto ->
          findAnswer (db s) participantId questionId = None ->
          (forall question : Question,
              findQuestionById (db s) questionId = Some question ->
              JS.truthy_opt (question_correctAnswerId question) = true) ->
          accepted (submitAnswer Math_pow_sample uuid now pin questionId
                                 participantId dto s)).
Proof.
  split; [|split].
  - intros Hclaim.
    destruct (Hclaim sample_service_after_foreign "a2" 50000%Z "123456" "qB1" "p1"
                     sample_foreign_dto) as (res & Hres & _).
    + apply (sample_foreignSubmission _ (sample_question "qB1" "quiz-B" "qB1-2" 0));
        vm_compute; reflexivity.
    + vm_compute in Hres. discriminate.
  - intros Hclaim.
    destruct (Hclaim sample_service_unconfigured "a2" 50000%Z "123456" "qB1" "p1"
                     sample_foreign_dto) as (res & Hres & _).
    + apply (sample_foreignSubmission _
               {| question_id := "qB1"; question_text := "?";
                  question_timeSeconds := 30;
                  question_correctAnswerId := None;
                  question_quizId := "quiz-B"; question_order := 0 |});
        vm_compute; reflexivity.
    + vm_compute; reflexivity.
    + vm_compute in Hres. discriminate.
  - intros Hclaim.
    destruct (Hclaim sample_service "a2" 50000%Z "123456" "qB1" "p1"
                     sample_foreign_dto_out_of_range) as (res & Hres & _).
    + apply (sample_foreignSubmission _ (sample_question "qB1" "quiz-B" "qB1-2" 0));
        vm_compute; reflexivity.
    + vm_compute; reflexivity.
    + intros question Hq. vm_compute in Hq. injection Hq as <-.
      vm_compute; reflexivity.
    + vm_compute in Hres. discriminate.
Qed.

(** C10 as amended, on the sample store: Ann's first submission for
    question qB1 of quiz B is accepted under the PIN of quiz A. *)
Lemma submitAnswer_accepts_foreign_question_witness :
  foreignSubmission sample_service "123456" "qB1" "p1" sample_foreign_dto
  /\ accepted (submitAnswer Math_pow_sample "a1" 40000 "123456" "qB1" "p1"
                            sample_foreign_dto sample_service).
Proof.
  assert (H : foreignSubmission sample_service "123456" "qB1" "p1"
                                sample_foreign_dto).
  { apply (sample_foreignSubmission _ (sample_question "qB1" "quiz-B" "qB1-2" 0));
      vm_compute; reflexivity. }
  split; [exact H|].
  apply (submitAnswer_accepts_foreign_question Math_pow_sample sample_service
           "a1" 40000 "123456" "qB1" "p1" sample_foreign_dto H).
  - vm_compute; reflexivity.
  - intros question Hq. vm_compute in Hq. injection Hq as <-.
    vm_compute; reflexivity.
  - reflexivity.
Defined.

(** C3 on the sample store.  One after the other, the second of two
    submissions by Ann for question qA1 is refused and one answer is
    stored; with their reads interleaved before either write, both are
    accepted and two answers for the same pair are stored. *)
Theorem concurrent_duplicate_submissions_both_persist :
  let stored (s : Service) :=
    List.map answer_id
      (List.filter (answerFor "p1" "qA1") (answers (db s))) in
  let sequential :=
    submitAnswer_twice Math_pow_sample "a1" "a2" 40000 40001
      "123456" "qA1" "p1" sample_dto sample_dto sample_service in
  let interleaved :=
    submitAnswer_interleaved Math_pow_sample "a1" "a2" 40000 40001
      "123456" "qA1" "p1" sample_dto sample_dto sample_service in
  fst sequential = Throw (BadRequestException "Вы уже ответили на этот вопрос")
  /\ stored (snd sequential) = ["a1"]
  /\ (exists result1 result2, fst interleaved = Ok (result1, result2))
  /\ stored (snd interleaved) = ["a1"; "a2"].
Proof.
  intros stored sequential interleaved.
  split; [vm_compute; reflexivity|].
  split; [vm_compute; reflexivity|].
  split; [|vm_compute; reflexivity].
  eexists. eexists. vm_compute. reflexivity.
Qed.

(** C4 on the sample store.  Bob's quiz B is in status created.  One after
    the other, his [finishQuiz] finishes it and his [startQuiz] is then
    refused.  With the [finishQuiz] running while the [startQuiz] is
    suspended between its read and its save, both calls succeed: the
    [startQuiz] passes its status check on the quiz it has loaded, the
    [finishQuiz] stores the quiz as finished, and the [startQuiz] then
    stores it as started.  The status of a finished quiz has moved back. *)
Theorem finished_quiz_is_started_again :
  let status (s : Service) := quiz_status <$> findQuizById (db s) "quiz-B" in
  let afterFinish := snd (finishQuiz "quiz-B" (Some "bob") sample_service) in
  let interleaved :=
    startQuiz_around_finishQuiz "quiz-B" (Some "bob") (Some "bob")
                                sample_service in
  status sample_service = Some CREATED
  /\ status afterFinish = Some FINISHED
  /\ fst (startQuiz "quiz-B" (Some "bob") afterFinish)
     = Throw (BadRequestException "Игра уже запущена или завершена")
  /\ startQuiz_check "quiz-B" (Some "bob") sample_service
     = (Ok sample_quizB, sample_service)
  /\ (exists (finished : Quiz) (started : LoadedQuiz),
         fst interleaved = Ok (finished, started)
         /\ quiz_status finished = FINISHED
         /\ quiz_status (lq_quiz started) = STARTED)
  /\ snd interleaved = snd (startQuiz_save sample_quizB afterFinish)
  /\ status (snd interleaved) = Some STARTED
  /\ ~ statusForward (db afterFinish) (db (snd interleaved)).
Proof.
  intros status afterFinish interleaved.
  split; [vm_compute; reflexivity|].
  split; [vm_compute; reflexivity|].
  split; [vm_compute; reflexivity|].
  split; [vm_compute; reflexivity|].
  split; [eexists; eexists; vm_compute; repeat split; reflexivity|].
  split; [vm_compute; reflexivity|].
  split; [vm_compute; reflexivity|].
  intros Hforward.
  destruct (Hforward "quiz-B"
              {| quiz_id := "quiz-B"; quiz_title := "History";
                 quiz_pin := "654321"; quiz_status := FINISHED;
                 quiz_creatorId := "bob" |})
    as (q' & Hq' & Hrank); [vm_compute; reflexivity|].
  vm_compute in Hq'. injection Hq' as <-. vm_compute in Hrank.
  lia.
Qed.

(** ** Gateway *)

Section GatewayProperties.

Variable Math_pow : Q -> Q -> Q.

(** Loading the quiz of a PIN through the gateway's service. *)
Lemma call_getQuizByPin (g : Gateway) (pin : string) (quiz : Quiz) :
  findQuizByPin (db (service g)) pin = Some quiz ->
  call (getQuizByPin pin) g
  = (Ok {| lq_quiz := quiz;
           lq_questions := questionsOf (db (service g)) (quiz_id quiz) |},
     onService (fun _ => service g) g).
Proof.
  intros H. unfold call, getQuizByPin, bind, gets. rewrite H. reflexivity.
Qed.

(** C8. When the quiz found under the PIN is not (or no longer) started,
    the timer callback [autoAdvanceQuestion] writes nothing to the store
    (quiz status and answers included), leaves the recorded question start
    times as they were and emits nothing, to the room or to anyone; all it
    does is drop the quiz's timer entry and its pending timeout. *)
Theorem autoAdvance_after_finish_is_noop
    (g : Gateway) (quizId pin : string) (currentQuestionIndex : Z)
    (userId : option string) (now : Z) (quiz : Quiz) :
  findQuizByPin (db (service g)) pin = Some quiz ->
  quiz_status quiz <> STARTED ->
  let g' := autoAdvanceQuestion Math_pow quizId pin currentQuestionIndex
                                userId now g in
  service g' = service g
  /\ questionStartTimes g' = questionStartTimes g
  /\ emitted g' = emitted g
  /\ sockets g' = sockets g
  /\ rooms g' = rooms g
  /\ questionTimers g' = delete quizId (questionTimers g)
  /\ timeouts g'
     = match questionTimers g !! quizId with
       | Some timer => delete (timer_timerId timer) (timeouts g)
       | None => timeouts g
       end.
Proof.
  intros Hquiz Hstatus g'. subst g'.
  unfold autoAdvanceQuestion, tryCatch, bind.
  rewrite (call_getQuizByPin g pin quiz Hquiz). cbn [lq_quiz lq_questions].
  assert (Hnot : QuizStatus_eqb (quiz_status quiz) STARTED = false).
  { apply bool_decide_eq_false_2, Hstatus. }
  rewrite Hnot. cbn [negb].
  unfold clearQuestionTimeout, clearTimeout, modify.
  cbn [questionTimers onService].
  destruct (questionTimers g !! quizId) as [timer|]; cbn; repeat split.
Qed.

Lemma index_in_range {A} (xs : list A) (i : Z) :
  (0 <= i < Z.of_nat (length xs))%Z -> exists x, JS.index xs i = Some x.
Proof.
  intros [Hlo Hhi]. unfold JS.index.
  destruct (i <? 0)%Z eqn:Hneg; [lia|].
  destruct (nth_error xs (Z.to_nat i)) as [x|] eqn:Hnth; [eauto|].
  apply nth_error_None in Hnth. lia.
Qed.

(** C7. A start-question request for an index above 0 that has passed the
    earlier checks (the requester is the quiz's creator, the quiz is
    started, the index is in range), where the previous question has a
    display time and a recorded start time (both non-zero, as the code reads
    them): while less than the previous question's [timeSeconds] has
    elapsed since that start time, the request is refused with the
    too-early error, sent to the requester only, and neither the store, the
    start times nor the timers change; once that time has elapsed the
    too-early check passes, the request succeeds and the start time of the
    new index is recorded. *)
Theorem startQuestion_waits_for_previous_question
    (g : Gateway) (client pin : string) (currentQuestionIndex now : Z)
    (quiz : Quiz) (previousQuestion : Question)
    (times : gmap Z Z) (startTime : Z) :
  let qs := questionsOf (db (service g)) (quiz_id quiz) in
  let minTime := (question_timeSeconds previousQuestion * 1000)%Z in
  let elapsed := (now - startTime)%Z in
  findQuizByPin (db (service g)) pin = Some quiz ->
  quiz_status quiz = STARTED ->
  data_userId (clientData g client) = Some (quiz_creatorId quiz) ->
  quiz_creatorId quiz <> "" ->
  (0 < currentQuestionIndex < Z.of_nat (length qs))%Z ->
  JS.index qs (currentQuestionIndex - 1) = Some previousQuestion ->
  question_timeSeconds previousQuestion <> 0%Z ->
  questionStartTimes g !! quiz_id quiz = Some times ->
  times !! (currentQuestionIndex - 1)%Z = Some startTime ->
  startTime <> 0%Z ->
  let '(ack, g') :=
    handleStartQuestion client pin currentQuestionIndex now g in
  ((elapsed < minTime)%Z ->
   ack = Ack_failure None
   /\ emitted g'
      = emitted g
        ++ [ {| recipient := ToClient client;
                payload :=
                  Ev_error (msg_too_early
                              (JS.Math_ceil_div (minTime - elapsed) 1000)) |} ]
   /\ service g' = service g
   /\ questionStartTimes g' = questionStartTimes g
   /\ questionTimers g' = questionTimers g
   /\ timeouts g' = timeouts g)
  /\ ((minTime <= elapsed)%Z ->
      previousQuestionRemaining (questionStartTimes g)
        {| lq_quiz := quiz; lq_questions := qs |} currentQuestionIndex now
      = None
      /\ ack = Ack_success
      /\ questionStartTimes g'
         = <[quiz_id quiz := <[currentQuestionIndex := now]> times]>
             (questionStartTimes g)).
Proof.
  intros qs minTime elapsed Hquiz Hstarted Huser Hcreator Hrange Hprev Hts
         Htimes Hstart Hnonzero.
  assert (Hremaining :
            previousQuestionRemaining (questionStartTimes g)
              {| lq_quiz := quiz; lq_questions := qs |} currentQuestionIndex now
            = if (elapsed <? minTime)%Z
              then Some (JS.Math_ceil_div (minTime - elapsed) 1000)
              else None).
  { unfold previousQuestionRemaining. cbn [lq_quiz lq_questions].
    replace (currentQuestionIndex >? 0)%Z with true by lia.
    rewrite Hprev.
    replace (question_timeSeconds previousQuestion =? 0)%Z with false by lia.
    rewrite Htimes. cbn [from_option id]. rewrite Hstart.
    replace (startTime =? 0)%Z with false by lia.
    reflexivity. }
  destruct (index_in_range qs currentQuestionIndex) as [currentQuestion Hcurrent];
    [lia|].
  unfold handleStartQuestion, run, tryCatch, bind.
  rewrite (call_getQuizByPin g pin quiz Hquiz). cbn [lq_quiz lq_questions].
  fold qs. rewrite Huser.
  assert (Htruthy : JS.truthy_opt (Some (quiz_creatorId quiz)) = true).
  { simpl. unfold JS.truthy. apply negb_true_iff, String.eqb_neq, Hcreator. }
  assert (Hnc : notCreator quiz (Some (quiz_creatorId quiz)) = false).
  { simpl. rewrite String.eqb_refl. reflexivity. }
  rewrite Htruthy, Hnc. cbn [negb]. rewrite !andb_false_r.
  replace (Z.of_nat (length qs) =? 0)%Z with false by lia.
  rewrite Hstarted. change (QuizStatus_eqb STARTED STARTED) with true.
  replace (currentQuestionIndex <? 0)%Z with false by lia.
  replace (currentQuestionIndex >=? Z.of_nat (length qs))%Z with false by lia.
  cbn [negb orb]. rewrite Hcurrent.
  set (g1 := onService (fun _ => service g) g).
  match goal with
  | |- context [(if negb ?b then ?m else ret ()) g1] =>
      assert (Hg2 : exists g2,
                 (if negb b then m else ret ()) g1 = (Ok tt, g2)
                 /\ service g2 = service g
                 /\ questionStartTimes g2 = questionStartTimes g
                 /\ emitted g2 = emitted g
                 /\ questionTimers g2 = questionTimers g
                 /\ timeouts g2 = timeouts g)
  end.
  { destruct (negb _); eexists; (split; [reflexivity|]); repeat split. }
  destruct Hg2 as (g2 & -> & Hs2 & Hst2 & Hem2 & Hqt2 & Hto2).
  unfold gets. rewrite Hst2, Hremaining.
  destruct (elapsed <? minTime)%Z eqn:Hcmp.
  - unfold reject, emit, bind, modify, ret. cbn.
    split; [intros _|lia]. rewrite Hem2, Hs2, Hst2, Hqt2, Hto2. repeat split.
  - unfold recordStartTime, clearQuestionTimeout, scheduleQuestionTimer,
      setTimeout, clearTimeout, emitGameUpdate, emit, bind, modify, ret.
    cbn [questionTimers onQuestionStartTimes].
    destruct (questionTimers g2 !! quiz_id quiz) as [timer|]; cbn;
      (split; [lia|intros _]); rewrite Hst2, Htimes; repeat split.
Qed.
End GatewayProperties.

(** C7 on the sample gateway: question 0 (30 seconds) was started at
    10000; at 20000 the request for question 1 comes too early, at 45000 it
    succeeds. *)
Lemma startQuestion_waits_for_previous_question_witness :
  (20000 - 10000 < 30 * 1000)%Z
  /\ fst (handleStartQuestion "sock-alice" "123456" 1 20000
                              sample_gateway_question0)
     = Ack_failure None
  /\ (30 * 1000 <= 45000 - 10000)%Z
  /\ fst (handleStartQuestion "sock-alice" "123456" 1 45000
                              sample_gateway_question0)
     = Ack_success.
Proof.
  assert (H : forall now : Z,
             let '(ack, g') :=
               handleStartQuestion "sock-alice" "123456" 1 now
                                   sample_gateway_question0 in
             ((now - 10000 < 30 * 1000)%Z -> ack = Ack_failure None)
             /\ ((30 * 1000 <= now - 10000)%Z -> ack = Ack_success)).
  { intros now.
    pose proof (startQuestion_waits_for_previous_question
                  sample_gateway_question0 "sock-alice" "123456" 1 now
                  sample_quizA (sample_question "qA1" "quiz-A" "qA1-4" 0)
                  (<[0%Z := 10000%Z]> ∅) 10000) as H.
    cbv zeta in H.
    destruct (handleStartQuestion "sock-alice" "123456" 1 now
                                  sample_gateway_question0) as [ack g'].
    destruct H as [Hearly Hlate].
    - vm_compute; reflexivity.
    - reflexivity.
    - vm_compute; reflexivity.
    - discriminate.
    - vm_compute. split; reflexivity.
    - vm_compute; reflexivity.
    - discriminate.
    - vm_compute; reflexivity.
    - vm_compute; reflexivity.
    - discriminate.
    - split; [intros Hlt; apply Hearly, Hlt|intros Hge; apply Hlate, Hge]. }
  split; [reflexivity|].
  split.
  { specialize (H 20000%Z).
    destruct (handleStartQuestion "sock-alice" "123456" 1 20000
                                  sample_gateway_question0) as [ack g'].
    apply H. reflexivity. }
  split; [discriminate|].
  specialize (H 45000%Z).
  destruct (handleStartQuestion "sock-alice" "123456" 1 45000
                                sample_gateway_question0) as [ack g'].
  apply H. discriminate.
Defined.

(** C7 needs its provisos.  Call a request timed when the quiz under its
    PIN is started, its index is above 0, and the question before it has a
    display time and a recorded start time, before ([true]) or after
    ([false]) which that display time has elapsed.  Not every timed
    request that comes before is refused as too early, and not every timed
    request that comes after succeeds: the request may be refused for
    another reason, both before and after.  On the sample gateway question
    1, the last of the two, was started at 43000: Alice's request for
    index 2 is refused for its index, at 50000 and at 80000.  Question 0
    was started at 10000: the request for index 1 of Mallory, who has not
    joined, is refused for that, at 20000 and at 45000. *)
Lemma startQuestion_refused_for_other_reasons :
  let timed (g : Gateway) (pin : string) (index now : Z) (early : bool) :=
    exists (quiz : Quiz) (previousQuestion : Question) (times : gmap Z Z)
           (startTime : Z),
      findQuizByPin (db (service g)) pin = Some quiz
      /\ quiz_status quiz = STARTED
      /\ (0 < index)%Z
      /\ JS.index (questionsOf (db (service g)) (quiz_id quiz)) (index - 1)
         = Some previousQuestion
      /\ question_timeSeconds previousQuestion <> 0%Z
      /\ questionStartTimes g !! quiz_id quiz = Some times
      /\ times !! (index - 1)%Z = Some startTime
      /\ startTime <> 0%Z
      /\ (now - startTime <? question_timeSeconds previousQuestion * 1000)%Z
         = early in
  let told (g g' : Gateway) (client message : string) :=
    emitted g'
    = emitted g ++ [ {| recipient := ToClient client;
                        payload := Ev_error message |} ] in
  let asked (client : string) (index now : Z) (g : Gateway) :=
    handleStartQuestion client "123456" index now g in
  ~ (forall (g : Gateway) (client pin : string) (index now : Z),
        timed g pin index now true ->
        exists remainingSeconds : Z,
          told g (snd (handleStartQuestion client pin index now g)) client
               (msg_too_early remainingSeconds))
  /\ ~ (forall (g : Gateway) (client pin : string) (index now : Z),
          timed g pin index now false ->
          fst (handleStartQuestion client pin index now g) = Ack_success)
  /\ (timed sample_gateway_question1 "123456" 2%Z 50000%Z true
      /\ fst (asked "sock-alice" 2%Z 50000%Z sample_gateway_question1)
         = Ack_failure None
      /\ told sample_gateway_question1
              (snd (asked "sock-alice" 2%Z 50000%Z sample_gateway_question1))
              "sock-alice" (msg_bad_index 2%Z 2%Z))
  /\ (timed sample_gateway_question1 "123456" 2%Z 80000%Z false
      /\ fst (asked "sock-alice" 2%Z 80000%Z sample_gateway_question1)
         = Ack_failure None
      /\ told sample_gateway_question1
              (snd (asked "sock-alice" 2%Z 80000%Z sample_gateway_question1))
              "sock-alice" (msg_bad_index 2%Z 2%Z))
  /\ (timed sample_gateway_mallory "123456" 1%Z 20000%Z true
      /\ fst (asked "sock-mallory" 1%Z 20000%Z sample_gateway_mallory)
         = Ack_failure None
      /\ told sample_gateway_mallory
              (snd (asked "sock-mallory" 1%Z 20000%Z sample_gateway_mallory))
              "sock-mallory" msg_join_first)
  /\ (timed sample_gateway_mallory "123456" 1%Z 45000%Z false
      /\ fst (asked "sock-mallory" 1%Z 45000%Z sample_gateway_mallory)
         = Ack_failure None
      /\ told sample_gateway_mallory
              (snd (asked "sock-mallory" 1%Z 45000%Z sample_gateway_mallory))
              "sock-mallory" msg_join_first).
Proof.
  intros timed told asked.
  assert (Hindex : forall (now : Z) (early : bool),
             (now - 43000 <? 30 * 1000)%Z = early ->
             timed sample_gateway_question1 "123456" 2%Z now early).
  { intros now early Hearly.
    exists sample_quizA, (sample_question "qA2" "quiz-A" "qA2-1" 1),
           (<[1%Z := 43000%Z]> (<[0%Z := 10000%Z]> ∅)), 43000%Z.
    split; [vm_compute; reflexivity|]. split; [reflexivity|].
    split; [lia|]. split; [vm_compute; reflexivity|].
    split; [discriminate|]. split; [vm_compute; reflexivity|].
    split; [vm_compute; reflexivity|]. split; [discriminate|exact Hearly]. }
  assert (Hmallory : forall (now : Z) (early : bool),
             (now - 10000 <? 30 * 1000)%Z = early ->
             timed sample_gateway_mallory "123456" 1%Z now early).
  { intros now early Hearly.
    exists sample_quizA, (sample_question "qA1" "quiz-A" "qA1-4" 0),
           (<[0%Z := 10000%Z]> ∅), 10000%Z.
    split; [vm_compute; reflexivity|]. split; [reflexivity|].
    split; [lia|]. split; [vm_compute; reflexivity|].
    split; [discriminate|]. split; [vm_compute; reflexivity|].
    split; [vm_compute; reflexivity|]. split; [discriminate|exact Hearly]. }
  assert (Hbad : forall now : Z,
             fst (asked "sock-alice" 2%Z now sample_gateway_question1)
             = Ack_failure None
             /\ told sample_gateway_question1
                  (snd (asked "sock-alice" 2%Z now sample_gateway_question1))
                  "sock-alice" (msg_bad_index 2%Z 2%Z)).
  { intros now. split; vm_compute; reflexivity. }
  split.
  { intros Hclaim.
    destruct (Hclaim sample_gateway_question1 "sock-alice" "123456" 2%Z 50000%Z
                     (Hindex 50000%Z true eq_refl)) as (remaining & Htold).
    destruct (Hbad 50000%Z) as (_ & Hbadtold).
    unfold told, asked in *. rewrite Hbadtold in Htold.
    apply app_inv_head in Htold. injection Htold as Hmsg.
    vm_compute in Hmsg. discriminate. }
  split.
  { intros Hclaim.
    pose proof (Hclaim sample_gateway_question1 "sock-alice" "123456" 2%Z 80000%Z
                       (Hindex 80000%Z false eq_refl)) as Hack.
    destruct (Hbad 80000%Z) as (Hfailed & _).
    unfold asked in Hfailed. rewrite Hfailed in Hack. discriminate. }
  split; [split; [exact (Hindex 50000%Z true eq_refl)|exact (Hbad 50000%Z)]|].
  split; [split; [exact (Hindex 80000%Z false eq_refl)|exact (Hbad 80000%Z)]|].
  split.
  - split; [exact (Hmallory 20000%Z true eq_refl)|].
    split; vm_compute; reflexivity.
  - split; [exact (Hmallory 45000%Z false eq_refl)|].
    split; vm_compute; reflexivity.
Qed.

(** C8 on the sample gateway: the quiz was finished through the REST
    endpoint while the timer of question 0 was pending; when the timer
    fires, nothing is written and nothing is emitted. *)
Lemma autoAdvance_after_finish_is_noop_witness :
  findQuizByPin (db (service sample_gateway_finished)) "123456"
  = Some (withStatus sample_quizA FINISHED)
  /\ service (autoAdvanceQuestion Math_pow_sample "quiz-A" "123456" 0
                                  (Some "alice") 43000 sample_gateway_finished)
     = service sample_gateway_finished
  /\ emitted (autoAdvanceQuestion Math_pow_sample "quiz-A" "123456" 0
                                  (Some "alice") 43000 sample_gateway_finished)
     = emitted sample_gateway_finished.
Proof.
  assert (H : findQuizByPin (db (service sample_gateway_finished)) "123456"
              = Some (withStatus sample_quizA FINISHED))
    by (vm_compute; reflexivity).
  split; [exact H|].
  destruct (autoAdvance_after_finish_is_noop Math_pow_sample
              sample_gateway_finished "quiz-A" "123456" 0 (Some "alice") 43000
              (withStatus sample_quizA FINISHED) H)
    as (Hservice & _ & Hemitted & _).
  - discriminate.
  - split; [exact Hservice|exact Hemitted].
Defined.

Lemma clientData_stored (g : Gateway) (client : string) (d : SocketData) :
  sockets g !! client = Some d -> clientData g client = d.
Proof. intros H. unfold clientData. rewrite H. reflexivity. Qed.

(** A teacher join with a truthy [userId] that is not the creator's is
    answered with an error, yet [client.data.role] has already been set to
    teacher and the connection has been added to the room. *)
Lemma rejected_teacher_join_leaves_role
    (Math_pow : Q -> Q -> Q) (g : Gateway) (client : string)
    (data : JoinQuizData) (now : Z) (quiz : Quiz) (userId : string) :
  findQuizByPin (db (service g)) (join_pin data) = Some quiz ->
  join_role data = teacher ->
  join_userId data = Some userId ->
  userId <> "" ->
  userId <> quiz_creatorId quiz ->
  let '(ack, g') := handleJoinQuiz Math_pow client data now g in
  ack = Ack_failure (Some "Неверные права доступа")
  /\ data_role (clientData g' client) = Some teacher
  /\ data_userId (clientData g' client) = Some userId
  /\ (exists members : gset string,
         rooms g' !! roomName (join_pin data) = Some members
         /\ client ∈ members).
Proof.
  intros Hquiz Hrole Huser Htruthy Hother.
  unfold handleJoinQuiz, run, tryCatch, bind.
  rewrite (call_getQuizByPin g _ quiz Hquiz). cbn [lq_quiz].
  rewrite Hrole, Huser.
  assert (H1 : JS.truthy_opt (Some userId) = true).
  { simpl. unfold JS.truthy. apply negb_true_iff, String.eqb_neq, Htruthy. }
  assert (H2 : notCreator quiz (Some userId) = true).
  { simpl. apply negb_true_iff, String.eqb_neq. congruence. }
  rewrite H1, H2, (bool_decide_eq_true_2 (teacher = teacher) eq_refl).
  unfold updateClientActivity, reject, emit, bind, modify, gets, ret.
  cbn [andb fst snd].
  match goal with
  | |- _ /\ data_role (clientData ?G client) = _ /\ _ =>
      assert (HG : exists d : SocketData,
                 sockets G !! client = Some d
                 /\ data_role d = Some teacher
                 /\ data_userId d = Some userId);
      [|destruct HG as (d & Hd & Hr & Hu);
        rewrite (clientData_stored G client d Hd)]
  end.
  { eexists.
    split; [cbn [sockets onEmitted onClientLastActivity onSockets];
            apply lookup_insert_eq
           |split; reflexivity]. }
  split; [reflexivity|]. split; [exact Hr|]. split; [exact Hu|].
  eexists. split.
  - cbn [rooms onEmitted onClientLastActivity onSockets onPinRooms onRooms].
    apply lookup_insert_eq.
  - set_solver.
Qed.

(** C9 on the sample gateway.  Mallory joins quiz A as a teacher under her
    own id and is refused, but her connection is left with the teacher
    role: her finish-question is then broadcast to the room and
    acknowledged, and her finish-quiz, carrying Alice's id in its payload,
    finishes Alice's quiz.  A teacher join that carries no [userId] at all
    is not refused in the first place. *)
Theorem rejected_teacher_join_stays_authorized :
  let join (userId : option string) :=
    {| join_pin := "123456"; join_role := teacher;
       join_userId := userId; join_participantId := None |} in
  let joined :=
    handleJoinQuiz Math_pow_sample "sock-mallory" (join (Some "mallory"))
                   12000 sample_gateway_mallory in
  let finishedQuestion :=
    handleFinishQuestion Math_pow_sample "sock-mallory" "123456" "qA1" 13000
                         (snd joined) in
  let finishedQuiz :=
    handleFinishQuiz Math_pow_sample "sock-mallory"
      {| action_pin := "123456"; action_quizId := "quiz-A";
         action_userId := Some "alice" |}
      (snd finishedQuestion) in
  fst joined = Ack_failure (Some "Неверные права доступа")
  /\ data_role (clientData (snd joined) "sock-mallory") = Some teacher
  /\ fst finishedQuestion = Ack_finish_question false
  /\ success (fst finishedQuestion) = true
  /\ emitted (snd finishedQuestion)
     = emitted (snd joined)
       ++ [ {| recipient := ToRoom "quiz-123456";
               payload := Ev_question_finished "qA1" 13000 |} ]
  /\ fst finishedQuiz = Ack_success
  /\ findQuizById (db (service (snd finishedQuiz))) "quiz-A"
     = Some (withStatus sample_quizA FINISHED)
  /\ fst (handleJoinQuiz Math_pow_sample "sock-mallory" (join None) 12000
                         sample_gateway_mallory)
     = Ack_joined "123456".
Proof.
  cbv zeta. repeat split; vm_compute; reflexivity.
Qed.

(** On the gateway path the timer does not even fire: [handleFinishQuiz]
    clears the pending timeout, so running it afterwards changes nothing. *)
Lemma cancelled_timer_never_fires :
  let finished :=
    snd (handleFinishQuiz Math_pow_sample "sock-alice"
           {| action_pin := "123456"; action_quizId := "quiz-A";
              action_userId := Some "alice" |}
           sample_gateway_question0) in
  timeouts sample_gateway_question0 !! 0 <> None
  /\ timeouts finished !! 0 = None
  /\ fireTimeout Math_pow_sample 0 43000 finished = finished.
Proof.
  cbv zeta. split; [vm_compute; discriminate|].
  split; [vm_compute; reflexivity|].
  unfold fireTimeout.
  replace (timeouts _ !! 0) with (@None Timeout) by (vm_compute; reflexivity).
  reflexivity.
Qed.

(** * Further properties *)

(** ** Score engine *)

Section ScoreFurther.

Variable Math_pow : Q -> Q -> Q.

Local Open Scope Q_scope.

Lemma filter_nil_iff {A} (f : A -> bool) (l : list A) :
  (forall x, In x l -> f x = false) -> List.filter f l = [].
Proof.
  induction l as [|x l IH]; intros H; [reflexivity|].
  simpl. rewrite (H x (or_introl eq_refl)). apply IH.
  intros y Hy. apply H. right. exact Hy.
Qed.

(** X1. While no participant of the quiz has an answer in the store (in
    particular while the quiz has no participants), [calculateTugPosition]
    returns position 0, zero scores and [hasAnswers = false], whatever the
    cache holds. *)
Theorem no_answers_initial_position
    (cache : gmap string Q) (d : Db) (quizId : string) :
  (forall (a : Answer) (p : Participant),
      In a (answers d) -> In p (participants d) ->
      participant_quizId p = quizId ->
      participant_id p <> answer_participantId a) ->
  fst (calculateTugPosition Math_pow cache d quizId) = initialTugStatus.
Proof.
  intros Hnone. unfold calculateTugPosition.
  destruct (List.filter _ (participants d)) as [|p ps] eqn:Hps; [reflexivity|].
  destruct (getAverageQuestionTime cache d quizId) as [avg cache'].
  cbv zeta. cbn [fst].
  rewrite (filter_nil_iff (isMember (p :: ps)) (answers d)).
  - reflexivity.
  - intros a Ha. unfold isMember.
    destruct (existsb _ (p :: ps)) eqn:Hex; [|reflexivity].
    apply existsb_exists in Hex. destruct Hex as (m & Hm & Heq).
    rewrite <- Hps in Hm. apply List.filter_In in Hm. destruct Hm as [Hin Hq].
    apply String.eqb_eq in Hq, Heq.
    exfalso. exact (Hnone a m Ha Hin Hq Heq).
Qed.

Lemma Math_sign_pos (x : Q) : 0 < x -> JS.Math_sign x = 1.
Proof.
  intros H. unfold JS.Math_sign.
  destruct (Qcompare_spec x 0); [lra|lra|reflexivity].
Qed.

Lemma Math_sign_neg (x : Q) : x < 0 -> JS.Math_sign x = -1.
Proof.
  intros H. unfold JS.Math_sign.
  destruct (Qcompare_spec x 0); [lra|reflexivity|lra].
Qed.

Lemma Math_sign_zero (x : Q) : x == 0 -> JS.Math_sign x = 0.
Proof.
  intros H. unfold JS.Math_sign.
  destruct (Qcompare_spec x 0); [reflexivity|lra|lra].
Qed.

Lemma gtb_true (x y : Q) : y < x -> JS.gtb x y = true.
Proof.
  intros H. unfold JS.gtb.
  destruct (Qcompare_spec x y); [lra|lra|reflexivity].
Qed.

Lemma eqb_true (x y : Q) : x == y -> JS.eqb x y = true.
Proof. intros H. apply Qeq_bool_iff, H. Qed.

Lemma eqb_false (x y : Q) : ~ x == y -> JS.eqb x y = false.
Proof.
  intros H. unfold JS.eqb. destruct (Qeq_bool x y) eqn:E; [|reflexivity].
  exfalso. apply H, Qeq_bool_iff, E.
Qed.

(** X2. With answers present, while one team has score 0 and the other a
    positive score, the position is exactly 75 towards the scoring team,
    that team is the winner [determineWinner] names, and the position stays
    short of the 100 that ends the game. *)
Theorem one_sided_game_capped_at_75 (score : Q) :
  0 < score ->
  let team1Leads := updateTugPosition Math_pow score 0 true in
  let team2Leads := updateTugPosition Math_pow 0 score true in
  position team1Leads == 75
  /\ determineWinner team1Leads = Some TEAM_1
  /\ position team2Leads == -75
  /\ determineWinner team2Leads = Some TEAM_2
  /\ Qabs (position team1Leads) < 100
  /\ Qabs (position team2Leads) < 100.
Proof.
  intros Hpos.
  assert (Hmin1 : JS.eqb (JS.Math_min score 0) 0 = true).
  { apply eqb_true. unfold JS.Math_min. apply Q.min_r. lra. }
  assert (Hmin2 : JS.eqb (JS.Math_min 0 score) 0 = true).
  { apply eqb_true. unfold JS.Math_min. apply Q.min_l. lra. }
  assert (Hmax1 : JS.gtb (JS.Math_max score 0) 0 = true).
  { apply gtb_true. unfold JS.Math_max. rewrite Q.max_l; lra. }
  assert (Hmax2 : JS.gtb (JS.Math_max 0 score) 0 = true).
  { apply gtb_true. unfold JS.Math_max. rewrite Q.max_r; lra. }
  assert (Ht1 : JS.eqb (score + 0) 0 = false) by (apply eqb_false; lra).
  assert (Ht2 : JS.eqb (0 + score) 0 = false) by (apply eqb_false; lra).
  assert (Hs1 : JS.Math_sign (score - 0) = 1) by (apply Math_sign_pos; lra).
  assert (Hs2 : JS.Math_sign (0 - score) = -1) by (apply Math_sign_neg; lra).
  assert (H1 : updateTugPosition Math_pow score 0 true
               = {| position := 7500 # 100; team1Score := score;
                    team2Score := 0; hasAnswers := true |}).
  { unfold updateTugPosition, rawPosition, oneSided.
    cbn [negb orb]. rewrite Ht1, Hmin1, Hmax1, Hs1. reflexivity. }
  assert (H2 : updateTugPosition Math_pow 0 score true
               = {| position := -7500 # 100; team1Score := 0;
                    team2Score := score; hasAnswers := true |}).
  { unfold updateTugPosition, rawPosition, oneSided.
    cbn [negb orb]. rewrite Ht2, Hmin2, Hmax2, Hs2. reflexivity. }
  cbv zeta. rewrite H1, H2. cbn [position].
  repeat split; reflexivity.
Qed.

Lemma gtb_false_eq (x y : Q) : x == y -> JS.gtb x y = false.
Proof.
  intros H. unfold JS.gtb.
  destruct (Qcompare_spec x y); [reflexivity|reflexivity|lra].
Qed.

(** X3. Equal team scores give position 0 and no winner, whether or not
    answers exist and whatever [Math.pow] returns. *)
Theorem equal_scores_tie (team1Score team2Score : Q) (hasAnswers : bool) :
  team1Score == team2Score ->
  position (updateTugPosition Math_pow team1Score team2Score hasAnswers) == 0
  /\ determineWinner (updateTugPosition Math_pow team1Score team2Score hasAnswers)
     = None.
Proof.
  intros Heq.
  assert (Hpos : position (updateTugPosition Math_pow team1Score team2Score
                                             hasAnswers) == 0).
  { unfold updateTugPosition.
    destruct (negb hasAnswers || JS.eqb (team1Score + team2Score) 0);
      [reflexivity|].
    cbn [position].
    assert (Hraw : rawPosition Math_pow team1Score team2Score == 0).
    { unfold rawPosition. rewrite (Math_sign_zero (team1Score - team2Score)) by lra.
      destruct (oneSided team1Score team2Score); ring. }
    set (raw := rawPosition Math_pow team1Score team2Score) in *.
    assert (Hhi : JS.Math_max (-100) (JS.Math_min 100 raw) <= 0).
    { unfold JS.Math_max, JS.Math_min. apply Q.max_lub; [discriminate|].
      eapply Qle_trans; [apply Q.le_min_r|]. lra. }
    assert (Hlo : 0 <= JS.Math_max (-100) (JS.Math_min 100 raw)).
    { unfold JS.Math_max, JS.Math_min.
      eapply Qle_trans; [|apply Q.le_max_r].
      apply Q.min_glb; [discriminate|lra]. }
    set (c := JS.Math_max (-100) (JS.Math_min 100 raw)) in *.
    unfold JS.Math_round.
    assert (Hfloor : Qfloor (c * 100 + (1 # 2)) = 0%Z).
    { apply Z.le_antisymm.
      - apply Math_round_le. change (inject_Z 0) with 0. lra.
      - apply Math_round_ge. change (inject_Z 0) with 0. lra. }
    rewrite Hfloor. reflexivity. }
  split; [exact Hpos|].
  unfold determineWinner.
  rewrite (gtb_false_eq _ 0 Hpos), (gtb_false_eq 0 _) by (symmetry; exact Hpos).
  reflexivity.
Qed.

Lemma fold_left_sum_nonneg {A} (f : A -> Q) (l : list A) (acc : Q) :
  (forall x, In x l -> 0 <= f x) -> 0 <= acc ->
  0 <= fold_left (fun sum x => sum + f x) l acc.
Proof.
  revert acc. induction l as [|x l IH]; intros acc Hf Hacc; [exact Hacc|].
  simpl. apply IH.
  - intros y Hy. apply Hf. right. exact Hy.
  - specialize (Hf x (or_introl eq_refl)). lra.
Qed.

Lemma round2_monotone (x y : Q) :
  x <= y -> JS.Math_round (x * 100) / 100 <= JS.Math_round (y * 100) / 100.
Proof.
  intros H. unfold JS.Math_round.
  apply Qmult_le_compat_r; [|discriminate].
  rewrite <- Zle_Qle. apply Qfloor_resp_le. lra.
Qed.

(** X4. When no response time is negative and the time limit is not
    negative, a team's average speed lies between 0 and the time limit in
    seconds rounded to hundredths: answering faster than instantly is not
    rewarded, answering slower than the limit is not punished below 0.  For
    an empty answer list it is 0, whatever the time limit. *)
Theorem averageSpeed_between_zero_and_limit
    (answers : list Answer) (maxTimeMs : Q) :
  calculateAverageSpeed [] maxTimeMs = 0
  /\ ((forall a : Answer, In a answers -> 0 <= responseTimeMs_or_0 a) ->
      0 <= maxTimeMs ->
      0 <= calculateAverageSpeed answers maxTimeMs
      /\ calculateAverageSpeed answers maxTimeMs
         <= JS.Math_round (maxTimeMs / 1000 * 100) / 100).
Proof.
  split; [reflexivity|].
  intros Htimes Hmax.
  split; [apply calculateAverageSpeed_nonneg|].
  unfold calculateAverageSpeed. destruct answers as [|a answers].
  - apply Qle_shift_div_l; [reflexivity|]. rewrite Qmult_0_l.
    apply Math_round_nonneg.
    assert (0 <= maxTimeMs / 1000) by (apply Qle_shift_div_l; [reflexivity|lra]).
    lra.
  - cbv zeta. apply round2_monotone.
    set (total := fold_left (fun sum x => sum + responseTimeMs_or_0 x)
                            (a :: answers) 0).
    assert (Htotal : 0 <= total)
      by (apply fold_left_sum_nonneg; [exact Htimes|discriminate]).
    assert (Hcount : 0 < count (a :: answers)).
    { unfold count. change 0 with (inject_Z 0). rewrite <- Zlt_Qlt.
      simpl length. lia. }
    assert (Havg : 0 <= total / count (a :: answers))
      by (apply Qle_shift_div_l; [exact Hcount|lra]).
    assert (Havg' : 0 <= total / count (a :: answers) / 1000)
      by (apply Qle_shift_div_l; [reflexivity|lra]).
    assert (Hlimit : 0 <= maxTimeMs / 1000)
      by (apply Qle_shift_div_l; [reflexivity|lra]).
    unfold JS.Math_max. apply Q.max_lub; lra.
Qed.

(** X5. [calculatePlayerContribution] is 0 for a team without score, and
    for a player score between 0 and a positive team score it is a
    percentage between 0 and 100. *)
Theorem playerContribution_is_a_percentage (playerScore teamTotalScore : Q) :
  (teamTotalScore == 0 ->
   calculatePlayerContribution playerScore teamTotalScore = 0)
  /\ (0 <= playerScore -> playerScore <= teamTotalScore -> 0 < teamTotalScore ->
      0 <= calculatePlayerContribution playerScore teamTotalScore <= 100).
Proof.
  unfold calculatePlayerContribution. split.
  - intros H. rewrite (eqb_true _ _ H). reflexivity.
  - intros Hlo Hhi Hteam. rewrite eqb_false by lra.
    assert (Hq0 : 0 <= playerScore / teamTotalScore)
      by (apply Qle_shift_div_l; [exact Hteam|lra]).
    assert (Hq1 : playerScore / teamTotalScore <= 1)
      by (apply Qle_shift_div_r; [exact Hteam|lra]).
    unfold JS.Math_round. split.
    + apply Qle_shift_div_l; [reflexivity|]. rewrite Qmult_0_l.
      change 0 with (inject_Z 0). rewrite <- Zle_Qle.
      apply Math_round_ge. change (inject_Z 0) with 0. lra.
    + apply Qle_shift_div_r; [reflexivity|].
      change (100 * 100) with (inject_Z 10000). rewrite <- Zle_Qle.
      apply Math_round_le. change (inject_Z 10000) with 10000. lra.
Qed.

(** X6. The average question time is computed once per quiz: after a
    first computation it is answered from the cache, whatever the
    questions table holds by then, and entries of other quizzes are left
    alone; with an entry cached, [calculateTugPosition] does not look at
    the questions at all; after [clearCache] the time is computed afresh
    from the questions. *)
Theorem average_question_time_is_cached
    (cache : gmap string Q) (d d' : Db) (quizId : string) :
  let first := getAverageQuestionTime cache d quizId in
  getAverageQuestionTime (snd first) d' quizId = (fst first, snd first)
  /\ (forall other : string, other <> quizId -> snd first !! other = cache !! other)
  /\ (participants d' = participants d -> answers d' = answers d ->
      calculateTugPosition Math_pow (snd first) d' quizId
      = calculateTugPosition Math_pow (snd first) d quizId)
  /\ fst (getAverageQuestionTime (clearCache (snd first) quizId) d' quizId)
     = averageQuestionTime
         (List.filter (fun q => String.eqb (question_quizId q) quizId)
                      (questions d')).
Proof.
  assert (Hlookup : snd (getAverageQuestionTime cache d quizId) !! quizId
                    = Some (fst (getAverageQuestionTime cache d quizId))).
  { unfold getAverageQuestionTime.
    destruct (cache !! quizId) as [t|] eqn:Hc; [exact Hc|].
    cbn [fst snd]. apply lookup_insert_eq. }
  assert (Hothers : forall other : string, other <> quizId ->
             snd (getAverageQuestionTime cache d quizId) !! other
             = cache !! other).
  { intros other Hother. unfold getAverageQuestionTime.
    destruct (cache !! quizId); [reflexivity|].
    cbn [snd]. apply lookup_insert_ne. congruence. }
  destruct (getAverageQuestionTime cache d quizId) as [t cache1].
  cbn [fst snd] in *.
  split; [|split; [exact Hothers|split]].
  - unfold getAverageQuestionTime. rewrite Hlookup. reflexivity.
  - intros Hp Ha. unfold calculateTugPosition, getAverageQuestionTime.
    rewrite Hlookup, Hp, Ha. reflexivity.
  - unfold getAverageQuestionTime, clearCache.
    rewrite lookup_delete_eq. reflexivity.
Qed.

End ScoreFurther.

(** X1 on the sample store, where nobody has answered yet. *)
Lemma no_answers_initial_position_witness :
  fst (calculateTugPosition Math_pow_sample ∅ sample_db "quiz-A")
  = initialTugStatus.
Proof.
  apply (no_answers_initial_position Math_pow_sample ∅ sample_db "quiz-A").
  intros a p Ha. vm_compute in Ha. destruct Ha.
Defined.

(** X2 for a score of 300. *)
Lemma one_sided_game_capped_at_75_witness :
  (0 < 300)%Q
  /\ (position (updateTugPosition Math_pow_sample 300 0 true) == 75)%Q.
Proof.
  split; [reflexivity|].
  apply (one_sided_game_capped_at_75 Math_pow_sample 300). reflexivity.
Defined.

(** X3 for two teams at 300. *)
Lemma equal_scores_tie_witness :
  (300 == 300)%Q
  /\ determineWinner (updateTugPosition Math_pow_sample 300 300 true) = None.
Proof.
  split; [reflexivity|].
  apply (equal_scores_tie Math_pow_sample 300 300 true). reflexivity.
Defined.

(** X4 for no answers and for one answer after 5 seconds of 30. *)
Lemma averageSpeed_between_zero_and_limit_witness :
  let a := {| answer_id := "a1"; answer_participantId := "p1";
              answer_questionId := "qA1"; answer_selectedOptionId := "qA1-4";
              answer_isCorrect := true; answer_responseTimeMs := Some 5000%Z;
              answer_answeredAt := 0 |} in
  (calculateAverageSpeed [] 30000 = 0
   /\ 0 <= calculateAverageSpeed [a] 30000
   /\ calculateAverageSpeed [a] 30000 <= JS.Math_round (30000 / 1000 * 100) / 100)%Q.
Proof.
  cbv zeta.
  split; [exact (proj1 (averageSpeed_between_zero_and_limit [] 30000))|].
  apply averageSpeed_between_zero_and_limit.
  - intros a [<-|[]]. vm_compute. discriminate.
  - discriminate.
Defined.

(** X5 for a player with 200 of the team's 400 points. *)
Lemma playerContribution_is_a_percentage_witness :
  (0 <= calculatePlayerContribution 200 400 <= 100)%Q
  /\ calculatePlayerContribution 200 0 = 0%Q.
Proof.
  split.
  - apply (playerContribution_is_a_percentage 200 400); discriminate || reflexivity.
  - apply (playerContribution_is_a_percentage 200 0). reflexivity.
Defined.

(** X6 on the sample store: with the entry cached, emptying the questions
    table does not change the position. *)
Lemma average_question_time_is_cached_witness :
  let cache := snd (getAverageQuestionTime ∅ sample_db "quiz-A") in
  let emptied :=
    {| quizzes := quizzes sample_db; questions := [];
       answerOptions := answerOptions sample_db;
       participants := participants sample_db;
       answers := answers sample_db |} in
  calculateTugPosition Math_pow_sample cache emptied "quiz-A"
  = calculateTugPosition Math_pow_sample cache sample_db "quiz-A".
Proof.
  cbv zeta.
  apply (average_question_time_is_cached Math_pow_sample ∅ sample_db _ "quiz-A");
    reflexivity.
Defined.

(** ** Quizzes service *)

Section ServiceFurther.

Variable Math_pow : Q -> Q -> Q.

Ltac run_service :=
  cbv [bind gets throwIf throw ret modify tryCatch] in *; simpl in *.

(** X7. A call of [startQuiz], [finishQuiz], [submitAnswer], [joinQuiz] or
    [deleteQuiz] that ends in an exception has written nothing: store and
    cache are as they were before the call. *)
Theorem failed_calls_write_nothing (s s' : Service) (e : HttpException) :
  (forall (quizId : string) (userId : option string),
      startQuiz quizId userId s = (Throw e, s') -> s' = s)
  /\ (forall (quizId : string) (userId : option string),
      finishQuiz quizId userId s = (Throw e, s') -> s' = s)
  /\ (forall (uuid : string) (now : Z) (pin questionId participantId : string)
             (dto : SubmitAnswerDto),
      submitAnswer Math_pow uuid now pin questionId participantId dto s
      = (Throw e, s') -> s' = s)
  /\ (forall (uuid : string) (now : Z) (pin : string) (joinDto : JoinQuizDto),
      joinQuiz uuid now pin joinDto s = (Throw e, s') -> s' = s)
  /\ (forall (quizId : string) (userId : option string),
      deleteQuiz quizId userId s = (Throw e, s') -> s' = s).
Proof.
  repeat split.
  - intros quizId userId. unfold startQuiz. run_service.
    destruct (findQuizById (db s) quizId) as [quiz|] eqn:Hload;
      [|congruence].
    destruct (notCreator quiz userId); [congruence|].
    destruct (negb (QuizStatus_eqb (quiz_status quiz) CREATED));
      [congruence|]. simpl.
    rewrite (findQuizById_saveQuiz_same (withStatus quiz STARTED));
      [discriminate|].
    simpl. eapply findQuizById_stored, Hload.
  - intros quizId userId. unfold finishQuiz. run_service.
    destruct (findQuizById (db s) quizId) as [quiz|]; [|congruence].
    destruct (notCreator quiz userId); [congruence|discriminate].
  - intros uuid now pin questionId participantId dto.
    unfold submitAnswer, bind.
    destruct (submitAnswer_check pin questionId participantId dto s)
      as [[[quiz a]|e0] s1] eqn:Hcheck.
    + pose proof (submitAnswer_check_reads pin questionId participantId dto s) as H.
      rewrite Hcheck in H. simpl in H. subst s1.
      destruct (fitsInt (draft_responseTimeMs a)) eqn:Hfits.
      * destruct (submitAnswer_save_db Math_pow uuid now quiz a s Hfits)
          as (res & Hres & _).
        intros H. rewrite H in Hres. discriminate.
      * rewrite (submitAnswer_save_out_of_range Math_pow _ _ _ _ _ Hfits).
        congruence.
    + pose proof (submitAnswer_check_reads pin questionId participantId dto s) as H.
      rewrite Hcheck in H. simpl in H. congruence.
  - intros uuid now pin joinDto. unfold joinQuiz. run_service.
    destruct (findQuizByPin (db s) pin) as [quiz|]; [|congruence].
    destruct (QuizStatus_eqb (quiz_status quiz) FINISHED); [congruence|].
    destruct (bool_decide _); [congruence|discriminate].
  - intros quizId userId. unfold deleteQuiz. run_service.
    destruct (findQuizById (db s) quizId) as [quiz|]; [|congruence].
    destruct (notCreator quiz userId); [congruence|].
    destruct (QuizStatus_eqb (quiz_status quiz) STARTED);
      [congruence|discriminate].
Qed.

(** X8. [startQuiz] succeeds exactly for the creator of a stored quiz
    whose status is created.  It then stores the quiz as started, touching
    nothing else, and returns it with its questions; a further [startQuiz]
    by the creator is refused as already started. *)
Theorem startQuiz_only_from_created
    (s : Service) (quizId : string) (userId : option string) :
  ((exists (lq : LoadedQuiz) (s' : Service),
       startQuiz quizId userId s = (Ok lq, s'))
   <-> (exists quiz : Quiz,
          findQuizById (db s) quizId = Some quiz
          /\ userId = Some (quiz_creatorId quiz)
          /\ quiz_status quiz = CREATED))
  /\ (forall quiz : Quiz,
        findQuizById (db s) quizId = Some quiz ->
        userId = Some (quiz_creatorId quiz) ->
        quiz_status quiz = CREATED ->
        let started := onDb (saveQuiz (withStatus quiz STARTED)) s in
        startQuiz quizId userId s
        = (Ok {| lq_quiz := withStatus quiz STARTED;
                 lq_questions := questionsOf (db s) (quiz_id quiz) |},
           started)
        /\ startQuiz quizId userId started
           = (Throw (BadRequestException "Игра уже запущена или завершена"),
              started)).
Proof.
  assert (Hcreator : forall q : Quiz, notCreator q (Some (quiz_creatorId q)) = false).
  { intros q. simpl. rewrite String.eqb_refl. reflexivity. }
  assert (Hrun : forall quiz : Quiz,
             findQuizById (db s) quizId = Some quiz ->
             userId = Some (quiz_creatorId quiz) ->
             quiz_status quiz = CREATED ->
             startQuiz quizId userId s
             = (Ok {| lq_quiz := withStatus quiz STARTED;
                      lq_questions := questionsOf (db s) (quiz_id quiz) |},
                onDb (saveQuiz (withStatus quiz STARTED)) s)).
  { intros quiz Hload -> Hst.
    pose proof (findQuizById_stored _ _ _ Hload) as Hin.
    unfold startQuiz. run_service. rewrite Hload, String.eqb_refl, Hst. simpl.
    rewrite (findQuizById_saveQuiz_same (withStatus quiz STARTED)) by exact Hin.
    reflexivity. }
  split; [split|].
  - intros (lq & s' & H). revert H. unfold startQuiz. run_service.
    destruct (findQuizById (db s) quizId) as [quiz|] eqn:Hload;
      [|discriminate].
    destruct userId as [u|]; simpl; [|discriminate].
    destruct (String.eqb (quiz_creatorId quiz) u) eqn:Hu; simpl; [|discriminate].
    destruct (QuizStatus_eqb (quiz_status quiz) CREATED) eqn:Hst; simpl;
      [|discriminate].
    intros _. exists quiz. apply String.eqb_eq in Hu.
    apply bool_decide_eq_true in Hst. subst u. repeat split; assumption.
  - intros (quiz & Hload & Hu & Hst). eexists. eexists.
    apply (Hrun quiz Hload Hu Hst).
  - intros quiz Hload Hu Hst started. split; [apply (Hrun quiz Hload Hu Hst)|].
    pose proof (findQuizById_stored _ _ _ Hload) as Hin.
    pose proof (findQuizById_id _ _ _ Hload) as Hid.
    subst userId. unfold startQuiz, started. run_service.
    rewrite <- Hid.
    rewrite (findQuizById_saveQuiz_same (withStatus quiz STARTED)) by exact Hin.
    simpl. rewrite String.eqb_refl. reflexivity.
Qed.

(** The checks of [submitAnswer] pass exactly on a valid submission. *)
Lemma submitAnswer_check_valid
    (s : Service) (pin questionId participantId : string) (dto : SubmitAnswerDto)
    (quiz : Quiz) (question : Question) :
  submissionValid s pin questionId participantId dto quiz question ->
  submitAnswer_check pin questionId participantId dto s
  = (Ok (quiz,
         {| draft_participantId := participantId;
            draft_questionId := questionId;
            draft_selectedOptionId := dto_selectedOptionId dto;
            draft_isCorrect :=
              bool_decide (question_correctAnswerId question
                           = Some (dto_selectedOptionId dto));
            draft_responseTimeMs := dto_responseTimeMs dto |}),
     s).
Proof.
  intros (Hquiz & Hst & Hq & (participant & Hp & Hpin) & Hnone
          & (opt & Hin & Hopt) & Hcorrect).
  unfold submitAnswer_check. run_service.
  rewrite Hquiz, Hst, Hq, Hp, Hpin, Hnone. simpl.
  rewrite String.eqb_refl. simpl.
  assert (Hex : existsb
                  (fun o => String.eqb (option_id o) (dto_selectedOptionId dto))
                  (optionsOf (db s) question) = true).
  { apply existsb_exists. exists opt. split; [exact Hin|].
    apply String.eqb_eq, Hopt. }
  rewrite Hex, Hcorrect. reflexivity.
Qed.

Lemma submitAnswer_check_inv
    (s s' : Service) (pin questionId participantId : string)
    (dto : SubmitAnswerDto) (quiz : Quiz) (a : AnswerDraft) :
  submitAnswer_check pin questionId participantId dto s = (Ok (quiz, a), s') ->
  exists question : Question,
    submissionValid s pin questionId participantId dto quiz question.
Proof.
  unfold submitAnswer_check, submissionValid. run_service.
  destruct (findQuizByPin (db s) pin) as [quiz0|]; [|discriminate].
  destruct (QuizStatus_eqb (quiz_status quiz0) STARTED) eqn:Hst;
    simpl; [|discriminate].
  destruct (findQuestionById (db s) questionId) as [question|]; [|discriminate].
  destruct (findParticipantById (db s) participantId) as [participant|];
    [|discriminate].
  destruct (String.eqb (participant_pin participant) pin) eqn:Hpin;
    simpl; [|discriminate].
  destruct (bool_decide (is_Some (findAnswer (db s) participantId questionId)))
    eqn:Hdup; [discriminate|].
  destruct (existsb _ (optionsOf (db s) question)) eqn:Hex;
    simpl; [|discriminate].
  destruct (JS.truthy_opt (question_correctAnswerId question)) eqn:Hcorrect;
    simpl; [|discriminate].
  intros H. injection H as <- _ _.
  exists question.
  apply bool_decide_eq_true in Hst. apply String.eqb_eq in Hpin.
  apply bool_decide_eq_false in Hdup.
  apply existsb_exists in Hex. destruct Hex as (opt & Hin & Hopt).
  apply String.eqb_eq in Hopt.
  repeat split; try assumption; try reflexivity.
  - exists participant. split; [reflexivity|exact Hpin].
  - destruct (findAnswer (db s) participantId questionId) eqn:E; [|reflexivity].
    exfalso. apply Hdup. eauto.
  - exists opt. split; assumption.
Qed.

(** X9. [submitAnswer] accepts a submission exactly when it passes the
    checks of the service (a started quiz under the PIN, an existing
    question, a participant registered under the PIN, no answer yet for
    the pair, an option of the question and a correct option set on it)
    and its response time fits the 32-bit integer column.  A submission
    that passes the checks with a response time outside that range is
    refused by the database with a [QueryFailedError], and nothing is
    stored.  The answer an accepted submission appends carries the
    submitted ids and response time, and is marked correct exactly when
    the selected option is the question's correct one; quizzes apart, no
    other table changes. *)
Theorem submitAnswer_accepts_exactly_valid
    (s : Service) (uuid : string) (now : Z)
    (pin questionId participantId : string) (dto : SubmitAnswerDto) :
  let run := submitAnswer Math_pow uuid now pin questionId participantId dto s in
  ((exists res : SubmitAnswerResult, fst run = Ok res)
   <-> (exists (quiz : Quiz) (question : Question),
          submissionValid s pin questionId participantId dto quiz question)
       /\ fitsInt (dto_responseTimeMs dto) = true)
  /\ (forall (quiz : Quiz) (question : Question),
        submissionValid s pin questionId participantId dto quiz question ->
        fitsInt (dto_responseTimeMs dto) = false ->
        run = (Throw (QueryFailedError
                        (msg_out_of_range (dto_responseTimeMs dto))), s))
  /\ (forall (quiz : Quiz) (question : Question) (res : SubmitAnswerResult),
        submissionValid s pin questionId participantId dto quiz question ->
        fst run = Ok res ->
        savedAnswer res
        = {| answer_id := uuid;
             answer_participantId := participantId;
             answer_questionId := questionId;
             answer_selectedOptionId := dto_selectedOptionId dto;
             answer_isCorrect :=
               bool_decide (question_correctAnswerId question
                            = Some (dto_selectedOptionId dto));
             answer_responseTimeMs := Some (dto_responseTimeMs dto);
             answer_answeredAt := now |}
        /\ (answer_isCorrect (savedAnswer res) = true
            <-> question_correctAnswerId question
                = Some (dto_selectedOptionId dto))
        /\ answers (db (snd run)) = answers (db s) ++ [savedAnswer res]
        /\ questions (db (snd run)) = questions (db s)
        /\ answerOptions (db (snd run)) = answerOptions (db s)
        /\ participants (db (snd run)) = participants (db s)).
Proof.
  intros run. split; [split|split].
  - intros (res & Hres). unfold run, submitAnswer, bind in Hres.
    destruct (submitAnswer_check pin questionId participantId dto s)
      as [[[quiz a]|e] s1] eqn:Hcheck; [|discriminate].
    destruct (submitAnswer_check_inv _ _ _ _ _ _ _ _ Hcheck) as (question & H).
    split; [exists quiz, question; exact H|].
    rewrite (submitAnswer_check_valid _ _ _ _ _ _ _ H) in Hcheck.
    injection Hcheck as <- <-.
    destruct (fitsInt (dto_responseTimeMs dto)) eqn:Hfits; [reflexivity|].
    erewrite submitAnswer_save_out_of_range in Hres by exact Hfits.
    discriminate.
  - intros ((quiz & question & Hvalid) & Hfits).
    unfold run, submitAnswer, bind.
    rewrite (submitAnswer_check_valid _ _ _ _ _ _ _ Hvalid).
    destruct (submitAnswer_save_db Math_pow uuid now quiz
                {| draft_participantId := participantId;
                   draft_questionId := questionId;
                   draft_selectedOptionId := dto_selectedOptionId dto;
                   draft_isCorrect :=
                     bool_decide (question_correctAnswerId question
                                  = Some (dto_selectedOptionId dto));
                   draft_responseTimeMs := dto_responseTimeMs dto |} s Hfits)
      as (res & Hres & _).
    exists res. exact Hres.
  - intros quiz question Hvalid Hfits.
    unfold run, submitAnswer, bind.
    rewrite (submitAnswer_check_valid _ _ _ _ _ _ _ Hvalid).
    apply (submitAnswer_save_out_of_range Math_pow). exact Hfits.
  - intros quiz question res Hvalid Hres.
    unfold run, submitAnswer, bind in *.
    rewrite (submitAnswer_check_valid _ _ _ _ _ _ _ Hvalid) in *.
    match type of Hres with
    | fst (submitAnswer_save _ _ _ _ ?a _) = _ => set (draft := a) in *
    end.
    assert (Hfits : fitsInt (draft_responseTimeMs draft) = true).
    { destruct (fitsInt (draft_responseTimeMs draft)) eqn:Hfits; [reflexivity|].
      rewrite (submitAnswer_save_out_of_range Math_pow _ _ _ _ _ Hfits) in Hres.
      discriminate. }
    destruct (submitAnswer_save_db Math_pow uuid now quiz draft s Hfits)
      as (res' & Hres' & _ & _ & _ & Hsaved & Hdb).
    rewrite Hres in Hres'. injection Hres' as <-.
    split; [exact Hsaved|].
    split; [rewrite Hsaved; simpl; apply bool_decide_eq_true|].
    rewrite Hdb.
    destruct (shouldAutoFinish res && QuizStatus_eqb (quiz_status quiz) STARTED);
      repeat split; reflexivity.
Qed.

Lemma find_pin_after_save (quiz : Quiz) (st : QuizStatus) (rows : list Quiz)
    (pin : string) :
  List.find (fun q => String.eqb (quiz_pin q) pin) rows = Some quiz ->
  List.find (fun q => String.eqb (quiz_id q) (quiz_id quiz)) rows = Some quiz ->
  List.find (fun q => String.eqb (quiz_pin q) pin)
    (List.map (fun x => if String.eqb (quiz_id x) (quiz_id quiz)
                        then withStatus quiz st else x) rows)
  = Some (withStatus quiz st).
Proof.
  intros Hpin Hid.
  assert (Hquizpin : quiz_pin quiz = pin).
  { apply List.find_some in Hpin. apply String.eqb_eq, Hpin. }
  induction rows as [|x rows IH]; [discriminate|].
  simpl in *.
  destruct (String.eqb (quiz_pin x) pin) eqn:Hxpin.
  - injection Hpin as ->. rewrite String.eqb_refl. simpl.
    rewrite Hquizpin, String.eqb_refl. reflexivity.
  - destruct (String.eqb (quiz_id x) (quiz_id quiz)) eqn:Hxid.
    + injection Hid as ->. rewrite Hquizpin, String.eqb_refl in Hxpin.
      discriminate.
    + rewrite Hxpin. apply IH; assumption.
Qed.

(** X10. Once its creator has finished a quiz, every [submitAnswer] under
    the quiz's PIN is refused as not started, whoever submits and whatever
    the question, and stores nothing. *)
Theorem no_answers_after_finish
    (s : Service) (quiz : Quiz) (uuid : string) (now : Z)
    (questionId participantId : string) (dto : SubmitAnswerDto) :
  findQuizByPin (db s) (quiz_pin quiz) = Some quiz ->
  findQuizById (db s) (quiz_id quiz) = Some quiz ->
  let finished :=
    snd (finishQuiz (quiz_id quiz) (Some (quiz_creatorId quiz)) s) in
  submitAnswer Math_pow uuid now (quiz_pin quiz) questionId participantId dto
               finished
  = (Throw (BadRequestException "Игра не запущена"), finished).
Proof.
  intros Hpin Hid finished.
  assert (Hfin : findQuizByPin (db finished) (quiz_pin quiz)
                 = Some (withStatus quiz FINISHED)).
  { assert (Hdb : db finished = saveQuiz (withStatus quiz FINISHED) (db s)).
    { unfold finished, finishQuiz.
      cbv [bind gets throwIf throw ret modify]. rewrite Hid.
      cbn [notCreator]. rewrite String.eqb_refl. reflexivity. }
    rewrite Hdb. unfold findQuizByPin, saveQuiz, saveQuizRows.
    cbn [quizzes quiz_id withStatus].
    rewrite (findQuizById_stored _ _ _ Hid).
    apply find_pin_after_save; assumption. }
  unfold submitAnswer, submitAnswer_check. run_service.
  rewrite Hfin. reflexivity.
Qed.

Lemma find_app_none {A} (f : A -> bool) (l k : list A) :
  List.find f l = None -> List.find f (l ++ k) = List.find f k.
Proof.
  induction l as [|x l IH]; [reflexivity|].
  simpl. destruct (f x); [discriminate|exact IH].
Qed.

(** X11. [joinQuiz] succeeds exactly when a quiz that is not finished is
    stored under the PIN and no participant under that PIN has the name; a
    started quiz can still be joined.  It appends one participant, bound
    to that quiz and PIN, and a later join under the same name is refused,
    whatever the team. *)
Theorem joinQuiz_registers_once
    (s : Service) (uuid : string) (now : Z) (pin : string)
    (joinDto : JoinQuizDto) :
  ((exists (r : ParticipantResponse) (s' : Service),
       joinQuiz uuid now pin joinDto s = (Ok r, s'))
   <-> (exists quiz : Quiz,
          findQuizByPin (db s) pin = Some quiz
          /\ quiz_status quiz <> FINISHED
          /\ findParticipantByName (db s) pin (joinDto_name joinDto) = None))
  /\ (forall quiz : Quiz,
        findQuizByPin (db s) pin = Some quiz ->
        quiz_status quiz <> FINISHED ->
        findParticipantByName (db s) pin (joinDto_name joinDto) = None ->
        let participant :=
          {| participant_id := uuid;
             participant_name := joinDto_name joinDto;
             participant_team := joinDto_team joinDto;
             participant_quizId := quiz_id quiz;
             participant_pin := pin;
             participant_joinedAt := now |} in
        let joined := onDb (insertParticipant participant) s in
        joinQuiz uuid now pin joinDto s
        = (Ok {| response_participantId := uuid;
                 response_quizId := quiz_id quiz;
                 response_name := joinDto_name joinDto;
                 response_team := joinDto_team joinDto;
                 response_pin := pin;
                 response_joinedAt := now |},
           joined)
        /\ forall (uuid' : string) (now' : Z) (team' : Team),
            joinQuiz uuid' now' pin
                     {| joinDto_name := joinDto_name joinDto;
                        joinDto_team := team' |} joined
            = (Throw (BadRequestException
                        "Участник с таким именем уже присоединился"),
               joined)).
Proof.
  assert (Hrun : forall quiz : Quiz,
             findQuizByPin (db s) pin = Some quiz ->
             quiz_status quiz <> FINISHED ->
             findParticipantByName (db s) pin (joinDto_name joinDto) = None ->
             joinQuiz uuid now pin joinDto s
             = (Ok {| response_participantId := uuid;
                      response_quizId := quiz_id quiz;
                      response_name := joinDto_name joinDto;
                      response_team := joinDto_team joinDto;
                      response_pin := pin;
                      response_joinedAt := now |},
                onDb (insertParticipant
                        {| participant_id := uuid;
                           participant_name := joinDto_name joinDto;
                           participant_team := joinDto_team joinDto;
                           participant_quizId := quiz_id quiz;
                           participant_pin := pin;
                           participant_joinedAt := now |}) s)).
  { intros quiz Hquiz Hst Hname.
    assert (Hst' : QuizStatus_eqb (quiz_status quiz) FINISHED = false)
      by (apply bool_decide_eq_false_2, Hst).
    unfold joinQuiz. run_service.
    rewrite Hquiz, Hname, Hst'. reflexivity. }
  split; [split|].
  - intros (r & s' & H). revert H. unfold joinQuiz. run_service.
    destruct (findQuizByPin (db s) pin) as [quiz|]; [|discriminate].
    destruct (QuizStatus_eqb (quiz_status quiz) FINISHED) eqn:Hst;
      [discriminate|].
    destruct (findParticipantByName (db s) pin (joinDto_name joinDto)) eqn:Hname;
      [discriminate|].
    intros _. exists quiz. apply bool_decide_eq_false in Hst.
    repeat split; assumption.
  - intros (quiz & Hquiz & Hst & Hname). eexists. eexists.
    apply (Hrun quiz Hquiz Hst Hname).
  - intros quiz Hquiz Hst Hname participant joined.
    split; [apply (Hrun quiz Hquiz Hst Hname)|].
    intros uuid' now' team'.
    assert (Hst' : QuizStatus_eqb (quiz_status quiz) FINISHED = false)
      by (apply bool_decide_eq_false_2, Hst).
    assert (Hq2 : findQuizByPin (db joined) pin = Some quiz) by exact Hquiz.
    assert (Hn2 : findParticipantByName (db joined) pin (joinDto_name joinDto)
                  = Some participant).
    { unfold findParticipantByName in *. subst joined participant.
      cbn [db onDb insertParticipant participants].
      rewrite (find_app_none _ _ _ Hname).
      cbn [List.find participant_pin participant_name].
      rewrite !String.eqb_refl. reflexivity. }
    unfold joinQuiz. cbv [bind gets throwIf throw ret modify].
    rewrite Hq2, Hst'. cbn [joinDto_name]. rewrite Hn2. reflexivity.
Qed.

(** A [joinQuiz] that runs alone, with no other call between its reads
    and its save, keeps participant names unique within a PIN. *)
Lemma joinQuiz_alone_keeps_names_unique
    (s : Service) (uuid : string) (now : Z) (pin : string)
    (joinDto : JoinQuizDto) :
  namesUnique (db s) ->
  namesUnique (db (snd (joinQuiz uuid now pin joinDto s))).
Proof.
  intros Hunique. unfold joinQuiz. run_service.
  destruct (findQuizByPin (db s) pin) as [quiz|]; [|exact Hunique].
  destruct (QuizStatus_eqb (quiz_status quiz) FINISHED); [exact Hunique|].
  destruct (findParticipantByName (db s) pin (joinDto_name joinDto)) eqn:Hname;
    [exact Hunique|].
  unfold namesUnique in *. simpl. rewrite List.map_app. simpl.
  apply NoDup_app. split; [exact Hunique|]. split; [|apply NoDup_singleton].
  intros key Hkey Hnew. apply list_elem_of_singleton in Hnew. subst key.
  apply list_elem_of_In, List.in_map_iff in Hkey.
  destruct Hkey as (p & Hp & Hin).
  pose proof (List.find_none _ _ Hname p Hin) as Hno.
  injection Hp as Hpin Hpname. simpl in Hno.
  rewrite Hpin, Hpname, !String.eqb_refl in Hno. discriminate.
Qed.

(** [joinQuiz] is its checks followed by its save. *)
Lemma joinQuiz_check_then_save (uuid : string) (now : Z) (pin : string)
    (joinDto : JoinQuizDto) (s : Service) :
  joinQuiz uuid now pin joinDto s
  = bind (joinQuiz_check pin joinDto) (joinQuiz_save uuid now pin joinDto) s.
Proof.
  unfold joinQuiz, joinQuiz_check, joinQuiz_save.
  cbv [bind gets throwIf throw ret modify].
  destruct (findQuizByPin (db s) pin) as [quiz|]; [|reflexivity].
  destruct (QuizStatus_eqb (quiz_status quiz) FINISHED); [reflexivity|].
  destruct (bool_decide _); reflexivity.
Qed.

(** X12. The name check of [joinQuiz] does not hold across two calls in
    flight at once.  When a quiz that is not finished is found under the
    PIN and no participant of that PIN has the name, two joins under that
    name that both pass their reads before either saves both succeed, each
    with its own participant id; both participants are stored, and the
    stored participants no longer have pairwise different names within the
    PIN.  No unique index on the participant table stands in the way. *)
Theorem interleaved_joins_share_a_name
    (s : Service) (uuid1 uuid2 : string) (now1 now2 : Z) (pin name : string)
    (team1 team2 : Team) (quiz : Quiz) :
  findQuizByPin (db s) pin = Some quiz ->
  quiz_status quiz <> FINISHED ->
  findParticipantByName (db s) pin name = None ->
  let participant (uuid : string) (team : Team) (now : Z) :=
    {| participant_id := uuid; participant_name := name;
       participant_team := team; participant_quizId := quiz_id quiz;
       participant_pin := pin; participant_joinedAt := now |} in
  let run :=
    joinQuiz_interleaved uuid1 uuid2 now1 now2 pin
      {| joinDto_name := name; joinDto_team := team1 |}
      {| joinDto_name := name; joinDto_team := team2 |} s in
  (exists response1 response2 : ParticipantResponse,
      fst run = Ok (response1, response2)
      /\ response_participantId response1 = uuid1
      /\ response_participantId response2 = uuid2
      /\ response_name response1 = name
      /\ response_name response2 = name)
  /\ participants (db (snd run))
     = participants (db s)
       ++ [participant uuid1 team1 now1; participant uuid2 team2 now2]
  /\ ~ namesUnique (db (snd run)).
Proof.
  intros Hquiz Hstatus Hname participant run.
  assert (Hnot : QuizStatus_eqb (quiz_status quiz) FINISHED = false).
  { destruct (QuizStatus_eqb (quiz_status quiz) FINISHED) eqn:H; [|reflexivity].
    apply bool_decide_eq_true in H. contradiction. }
  assert (Hrun : run
                 = (Ok ({| response_participantId := uuid1;
                           response_quizId := quiz_id quiz;
                           response_name := name;
                           response_team := team1;
                           response_pin := pin;
                           response_joinedAt := now1 |},
                        {| response_participantId := uuid2;
                           response_quizId := quiz_id quiz;
                           response_name := name;
                           response_team := team2;
                           response_pin := pin;
                           response_joinedAt := now2 |}),
                    onDb (insertParticipant (participant uuid2 team2 now2))
                      (onDb (insertParticipant (participant uuid1 team1 now1))
                            s))).
  { assert (Hcheck : forall team : Team,
               joinQuiz_check pin {| joinDto_name := name; joinDto_team := team |} s
               = (Ok quiz, s)).
    { intros team. unfold joinQuiz_check.
      cbv [bind gets throwIf throw ret]. cbn [joinDto_name].
      rewrite Hquiz, Hnot, Hname. reflexivity. }
    subst run. unfold joinQuiz_interleaved.
    unfold bind at 1. rewrite Hcheck. unfold bind at 1. rewrite Hcheck.
    reflexivity. }
  rewrite Hrun. cbn [fst snd db onDb insertParticipant participants].
  split; [eexists _, _; repeat split; reflexivity|].
  split; [rewrite <- app_assoc; reflexivity|].
  unfold namesUnique.
  cbn [db onDb insertParticipant participants].
  rewrite <- app_assoc, List.map_app.
  cbn [app List.map participant participant_pin participant_name].
  intros Hnodup. apply NoDup_app in Hnodup. destruct Hnodup as (_ & _ & Hpair).
  apply NoDup_cons in Hpair. destruct Hpair as [Hin _].
  apply Hin. apply list_elem_of_here.
Qed.







Lemma insertAsc_perm {A} (key : A -> Z) (x : A) (l : list A) :
  Permutation (insertAsc key x l) (x :: l).
Proof.
  induction l as [|y l IH]; [reflexivity|].
  simpl. destruct (key x <=? key y)%Z; [reflexivity|].
  rewrite IH. apply perm_swap.
Qed.

Lemma orderAsc_perm {A} (key : A -> Z) (l : list A) :
  Permutation (orderAsc key l) l.
Proof.
  unfold orderAsc. induction l as [|x l IH]; [reflexivity|].
  simpl. rewrite insertAsc_perm, IH. reflexivity.
Qed.

Lemma insertAsc_sorted {A} (key : A -> Z) (x : A) (l : list A) :
  Sorted (fun a b => (key a <= key b)%Z) l ->
  Sorted (fun a b => (key a <= key b)%Z) (insertAsc key x l).
Proof.
  induction l as [|y l IH]; intros Hsorted.
  - repeat constructor.
  - simpl. destruct (key x <=? key y)%Z eqn:Hle.
    + constructor; [exact Hsorted|]. constructor. lia.
    + apply Sorted_inv in Hsorted. destruct Hsorted as [Hl Hhd].
      constructor; [apply IH, Hl|].
      destruct l as [|z l]; simpl.
      * constructor. lia.
      * destruct (key x <=? key z)%Z; constructor; [lia|].
        inversion Hhd. assumption.
Qed.

Lemma orderAsc_sorted {A} (key : A -> Z) (l : list A) :
  Sorted (fun a b => (key a <= key b)%Z) (orderAsc key l).
Proof.
  unfold orderAsc. induction l as [|x l IH]; [constructor|].
  simpl. apply insertAsc_sorted, IH.
Qed.

(** X14. The questions [getQuizByPin] loads with a quiz, which every
    gateway handler indexes into, are the stored questions of that quiz,
    each exactly as often as stored, in ascending [order]; the call writes
    nothing, and an unknown PIN is a [NotFoundException]. *)
Theorem getQuizByPin_questions_in_order (s : Service) (pin : string) :
  (findQuizByPin (db s) pin = None ->
   getQuizByPin pin s
   = (Throw (NotFoundException "Тест с таким PIN не найден"), s))
  /\ (forall (lq : LoadedQuiz) (s' : Service),
        getQuizByPin pin s = (Ok lq, s') ->
        s' = s
        /\ findQuizByPin (db s) pin = Some (lq_quiz lq)
        /\ Sorted (fun a b => (question_order a <= question_order b)%Z)
                  (lq_questions lq)
        /\ Permutation (lq_questions lq)
             (List.filter
                (fun q => String.eqb (question_quizId q) (quiz_id (lq_quiz lq)))
                (questions (db s)))).
Proof.
  unfold getQuizByPin. run_service. split.
  - intros ->. reflexivity.
  - intros lq s'. destruct (findQuizByPin (db s) pin) as [quiz|]; [|discriminate].
    intros H. injection H as <- <-. simpl.
    split; [reflexivity|]. split; [reflexivity|].
    split; [apply orderAsc_sorted|apply orderAsc_perm].
Qed.

End ServiceFurther.

(** X7 on the sample store: Mallory may not start Alice's quiz, and the
    store is as before. *)
Lemma failed_calls_write_nothing_witness :
  startQuiz "quiz-A" (Some "mallory") sample_service
  = (Throw (ForbiddenException "Вы не являетесь создателем этого теста"),
     sample_service)
  /\ snd (startQuiz "quiz-A" (Some "mallory") sample_service) = sample_service.
Proof.
  assert (H : startQuiz "quiz-A" (Some "mallory") sample_service
              = (Throw (ForbiddenException
                          "Вы не являетесь создателем этого теста"),
                 sample_service))
    by (vm_compute; reflexivity).
  split; [exact H|].
  apply (failed_calls_write_nothing Math_pow_sample sample_service
           (snd (startQuiz "quiz-A" (Some "mallory") sample_service))
           (ForbiddenException "Вы не являетесь создателем этого теста"))
    with (quizId := "quiz-A") (userId := Some "mallory").
  rewrite H. reflexivity.
Defined.

(** X8 on the sample store: Bob starts his quiz B, once. *)
Lemma startQuiz_only_from_created_witness :
  findQuizById (db sample_service) "quiz-B" = Some sample_quizB
  /\ fst (startQuiz "quiz-B" (Some "bob") sample_service)
     = Ok {| lq_quiz := withStatus sample_quizB STARTED;
             lq_questions := questionsOf sample_db "quiz-B" |}
  /\ fst (startQuiz "quiz-B" (Some "bob")
                    (snd (startQuiz "quiz-B" (Some "bob") sample_service)))
     = Throw (BadRequestException "Игра уже запущена или завершена").
Proof.
  assert (H : findQuizById (db sample_service) "quiz-B" = Some sample_quizB)
    by (vm_compute; reflexivity).
  split; [exact H|].
  destruct (proj2 (startQuiz_only_from_created sample_service "quiz-B"
                     (Some "bob"))
                  sample_quizB H eq_refl eq_refl) as [Hfirst Hsecond].
  rewrite Hfirst. cbn [fst snd]. rewrite Hsecond. split; reflexivity.
Defined.

(** X9 on the sample store: Ann's answer to question qA1 passes the
    checks, is accepted and is marked correct; sent with a response time
    of 3000000000 ms it passes the checks and is refused by the
    database. *)
Lemma submitAnswer_accepts_exactly_valid_witness :
  let late := {| dto_participantId := "p1"; dto_selectedOptionId := "qA1-4";
                 dto_responseTimeMs := 3000000000 |} in
  submissionValid sample_service "123456" "qA1" "p1" sample_dto
                  sample_quizA (sample_question "qA1" "quiz-A" "qA1-4" 0)
  /\ (exists res : SubmitAnswerResult,
        fst (submitAnswer Math_pow_sample "a1" 40000 "123456" "qA1" "p1"
                          sample_dto sample_service) = Ok res
        /\ answer_isCorrect (savedAnswer res) = true)
  /\ submissionValid sample_service "123456" "qA1" "p1" late
                     sample_quizA (sample_question "qA1" "quiz-A" "qA1-4" 0)
  /\ submitAnswer Math_pow_sample "a1" 40000 "123456" "qA1" "p1" late
                  sample_service
     = (Throw (QueryFailedError (msg_out_of_range 3000000000)), sample_service).
Proof.
  cbv zeta.
  assert (Hvalid : forall responseTimeMs : Z,
             submissionValid sample_service "123456" "qA1" "p1"
               {| dto_participantId := "p1"; dto_selectedOptionId := "qA1-4";
                  dto_responseTimeMs := responseTimeMs |}
               sample_quizA (sample_question "qA1" "quiz-A" "qA1-4" 0)).
  { intros responseTimeMs.
    split; [vm_compute; reflexivity|]. split; [reflexivity|].
    split; [vm_compute; reflexivity|].
    split.
    { eexists. split; [vm_compute; reflexivity|reflexivity]. }
    split; [vm_compute; reflexivity|].
    split; [|reflexivity].
    exists (sample_option "qA1" "qA1-4" 4).
    split; [vm_compute; tauto|reflexivity]. }
  split; [exact (Hvalid 5000%Z)|].
  split.
  - pose proof (submitAnswer_accepts_exactly_valid Math_pow_sample sample_service
                  "a1" 40000 "123456" "qA1" "p1" sample_dto)
      as (Hiff & _ & Hsaved).
    destruct (proj2 Hiff) as (res & Hres).
    { split; [exists sample_quizA, (sample_question "qA1" "quiz-A" "qA1-4" 0);
              exact (Hvalid 5000%Z)|reflexivity]. }
    exists res. split; [exact Hres|].
    destruct (Hsaved _ _ res (Hvalid 5000%Z) Hres) as (_ & Hcorrect & _).
    apply Hcorrect. reflexivity.
  - split; [exact (Hvalid 3000000000%Z)|].
    pose proof (submitAnswer_accepts_exactly_valid Math_pow_sample sample_service
                  "a1" 40000 "123456" "qA1" "p1"
                  {| dto_participantId := "p1"; dto_selectedOptionId := "qA1-4";
                     dto_responseTimeMs := 3000000000 |})
      as (_ & Hrefused & _).
    apply (Hrefused _ _ (Hvalid 3000000000%Z)). reflexivity.
Defined.

(** X10 on the sample store: after Alice has finished quiz A, Ann's answer
    is refused. *)
Lemma no_answers_after_finish_witness :
  findQuizByPin (db sample_service) "123456" = Some sample_quizA
  /\ fst (submitAnswer Math_pow_sample "a1" 40000 "123456" "qA1" "p1" sample_dto
            (snd (finishQuiz "quiz-A" (Some "alice") sample_service)))
     = Throw (BadRequestException "Игра не запущена").
Proof.
  assert (H1 : findQuizByPin (db sample_service) (quiz_pin sample_quizA)
               = Some sample_quizA) by (vm_compute; reflexivity).
  assert (H2 : findQuizById (db sample_service) (quiz_id sample_quizA)
               = Some sample_quizA) by (vm_compute; reflexivity).
  split; [exact H1|].
  pose proof (no_answers_after_finish Math_pow_sample sample_service sample_quizA
                "a1" 40000 "qA1" "p1" sample_dto H1 H2) as H.
  cbv zeta in H. change (quiz_id sample_quizA) with "quiz-A" in H.
  change (quiz_pin sample_quizA) with "123456" in H.
  change (quiz_creatorId sample_quizA) with "alice" in H.
  rewrite H. reflexivity.
Defined.

(** X11 on the sample store: Cid joins the running quiz A; a second Cid is
    refused. *)
Lemma joinQuiz_registers_once_witness :
  let cid := {| joinDto_name := "Cid"; joinDto_team := TEAM_2 |} in
  findQuizByPin (db sample_service) "123456" = Some sample_quizA
  /\ fst (joinQuiz "p3" 2000 "123456" cid sample_service)
     = Ok {| response_participantId := "p3";
             response_quizId := "quiz-A";
             response_name := "Cid";
             response_team := TEAM_2;
             response_pin := "123456";
             response_joinedAt := 2000 |}
  /\ fst (joinQuiz "p4" 2001 "123456"
                   {| joinDto_name := "Cid"; joinDto_team := TEAM_1 |}
                   (snd (joinQuiz "p3" 2000 "123456" cid sample_service)))
     = Throw (BadRequestException "Участник с таким именем уже присоединился").
Proof.
  cbv zeta.
  assert (H : findQuizByPin (db sample_service) "123456" = Some sample_quizA)
    by (vm_compute; reflexivity).
  split; [exact H|].
  destruct (proj2 (joinQuiz_registers_once sample_service "p3" 2000 "123456"
                     {| joinDto_name := "Cid"; joinDto_team := TEAM_2 |})
                  sample_quizA H) as [Hfirst Hsecond].
  - discriminate.
  - vm_compute; reflexivity.
  - rewrite Hfirst. cbn [fst snd]. split; [reflexivity|].
    exact (f_equal fst (Hsecond "p4" 2001%Z TEAM_1)).
Defined.

(** X12 on the sample store: two joins as Cid under PIN 123456, their
    reads interleaved, both succeed. *)
Lemma interleaved_joins_share_a_name_witness :
  exists response1 response2 : ParticipantResponse,
    fst (joinQuiz_interleaved "p3" "p4" 2000 2001 "123456"
           {| joinDto_name := "Cid"; joinDto_team := TEAM_2 |}
           {| joinDto_name := "Cid"; joinDto_team := TEAM_1 |} sample_service)
    = Ok (response1, response2)
    /\ response_name response1 = "Cid"
    /\ response_name response2 = "Cid".
Proof.
  destruct (interleaved_joins_share_a_name sample_service "p3" "p4" 2000 2001
              "123456" "Cid" TEAM_2 TEAM_1 sample_quizA)
    as ((response1 & response2 & Hrun & _ & _ & Hname1 & Hname2) & _).
  - vm_compute; reflexivity.
  - discriminate.
  - vm_compute; reflexivity.
  - exists response1, response2. repeat split; assumption.
Defined.


(** X14 on the sample store: the questions of quiz A come in order. *)
Lemma getQuizByPin_questions_in_order_witness :
  exists lq : LoadedQuiz,
    getQuizByPin "123456" sample_service = (Ok lq, sample_service)
    /\ Sorted (fun a b => (question_order a <= question_order b)%Z)
              (lq_questions lq).
Proof.
  eexists. split; [vm_compute; reflexivity|].
  eapply (proj2 (getQuizByPin_questions_in_order sample_service "123456")).
  vm_compute; reflexivity.
Defined.

(** ** Queries and quiz creation *)

Section ServiceQueries.

Variable Math_pow : Q -> Q -> Q.

(** X15. The read operations write nothing.  [getQuizById] and
    [getParticipantsByPin] leave the service as it was, whether they return
    or throw; [getTugPosition] and [getResults] leave the store as it was:
    all they may touch is the cache of the score engine. *)
Theorem queries_leave_the_store_unchanged (s : Service) :
  (forall (quizId : string) (userId : option string),
      snd (getQuizById quizId userId s) = s)
  /\ (forall (pin : string) (userId : option string),
         snd (getParticipantsByPin pin userId s) = s)
  /\ (forall quizId : string,
         db (snd (getTugPosition Math_pow quizId s)) = db s)
  /\ (forall (quizId : string) (userId : option string),
         db (snd (getResults Math_pow quizId userId s)) = db s).
Proof.
  split; [|split; [|split]].
  - intros quizId userId. unfold getQuizById, bind, gets.
    destruct (findQuizById (db s) quizId) as [quiz|]; [|reflexivity].
    destruct (notCreator quiz userId); reflexivity.
  - intros pin userId. unfold getParticipantsByPin, bind, gets.
    destruct (findQuizByPin (db s) pin) as [quiz|]; [|reflexivity].
    destruct (notCreator quiz userId); reflexivity.
  - intros quizId. unfold getTugPosition, bind, gets.
    destruct (findQuizById (db s) quizId) as [quiz|]; [|reflexivity].
    unfold tugOfWar_calculateTugPosition.
    destruct (calculateTugPosition Math_pow (questionTimeCache s) (db s) quizId). reflexivity.
  - intros quizId userId. unfold getResults, bind, gets.
    destruct (findQuizById (db s) quizId) as [quiz|]; [|reflexivity].
    destruct (notCreator quiz userId); [reflexivity|]. cbn [throwIf ret].
    unfold tugOfWar_calculateTugPosition.
    destruct (calculateTugPosition Math_pow (questionTimeCache s) (db s) quizId). reflexivity.
Qed.

Lemma filter_split_perm {A} (f : A -> bool) (l : list A) :
  Permutation (List.filter f l ++ List.filter (fun x => negb (f x)) l) l.
Proof.
  induction l as [|x l IH]; [reflexivity|].
  cbn. destruct (f x); cbn.
  - constructor. exact IH.
  - rewrite <- Permutation_middle. constructor. exact IH.
Qed.

Lemma Team_eqb_other (t : Team) :
  Team_eqb t TEAM_2 = negb (Team_eqb t TEAM_1).
Proof. destruct t; reflexivity. Qed.

(** X16. What [getParticipantsByPin] returns, it returns to the creator
    of the quiz under the PIN: the participants registered under the PIN,
    each exactly as often as stored, split into the members of team 1 and
    those of team 2, with a total that is the sum of the two counts.  For
    anyone else a stored quiz gives a [ForbiddenException] and the service
    is left as it was. *)
Theorem participants_split_into_two_teams
    (s : Service) (pin : string) (userId : option string) :
  (forall (r : ParticipantsByPin) (s' : Service),
      getParticipantsByPin pin userId s = (Ok r, s') ->
      findQuizByPin (db s) pin = Some (pbp_quiz r)
      /\ userId = Some (quiz_creatorId (pbp_quiz r))
      /\ Permutation (pbp_team1 r ++ pbp_team2 r)
           (List.filter (fun p => String.eqb (participant_pin p) pin)
                        (participants (db s)))
      /\ Forall (fun p => participant_team p = TEAM_1) (pbp_team1 r)
      /\ Forall (fun p => participant_team p = TEAM_2) (pbp_team2 r)
      /\ pbp_total r = (length (pbp_team1 r) + length (pbp_team2 r))%nat)
  /\ (forall quiz : Quiz,
         findQuizByPin (db s) pin = Some quiz ->
         userId <> Some (quiz_creatorId quiz) ->
         getParticipantsByPin pin userId s
         = (Throw (ForbiddenException "Вы не являетесь создателем этого теста"),
            s)).
Proof.
  unfold getParticipantsByPin, bind, gets. split.
  - intros r s'.
    destruct (findQuizByPin (db s) pin) as [quiz|]; [|discriminate].
    destruct (notCreator quiz userId) eqn:Hnc; [discriminate|].
    cbn [throwIf ret]. intros H. injection H as <- <-.
    cbn [pbp_quiz pbp_team1 pbp_team2 pbp_total].
    set (ps := orderAsc participant_joinedAt _).
    assert (Hsplit : Permutation
                       (List.filter (fun p => Team_eqb (participant_team p) TEAM_1) ps
                        ++ List.filter (fun p => Team_eqb (participant_team p) TEAM_2) ps)
                       ps).
    { rewrite (List.filter_ext (fun p => Team_eqb (participant_team p) TEAM_2)
                 (fun p => negb (Team_eqb (participant_team p) TEAM_1)))
        by (intros p; apply Team_eqb_other).
      apply filter_split_perm. }
    split; [reflexivity|].
    split.
    { destruct userId as [u|]; [|discriminate]. cbn in Hnc.
      apply negb_false_iff, String.eqb_eq in Hnc. congruence. }
    split; [rewrite Hsplit; apply orderAsc_perm|].
    split.
    { apply List.Forall_forall. intros p Hp. apply filter_In in Hp.
      destruct Hp as [_ Hp]. apply bool_decide_eq_true_1 in Hp. exact Hp. }
    split.
    { apply List.Forall_forall. intros p Hp. apply filter_In in Hp.
      destruct Hp as [_ Hp]. apply bool_decide_eq_true_1 in Hp. exact Hp. }
    rewrite <- length_app. apply Permutation_length. symmetry. exact Hsplit.
  - intros quiz -> Hother.
    assert (Hnc : notCreator quiz userId = true).
    { destruct userId as [u|]; [|reflexivity]. cbn.
      apply negb_true_iff, String.eqb_neq. congruence. }
    rewrite Hnc. reflexivity.
Qed.

End ServiceQueries.

(** X16 on the sample store: Alice gets Ann and Ben, one in each team. *)
Lemma participants_split_into_two_teams_witness :
  exists r : ParticipantsByPin,
    getParticipantsByPin "123456" (Some "alice") sample_service
    = (Ok r, sample_service)
    /\ pbp_total r = (length (pbp_team1 r) + length (pbp_team2 r))%nat.
Proof.
  assert (H : exists r : ParticipantsByPin,
             getParticipantsByPin "123456" (Some "alice") sample_service
             = (Ok r, sample_service))
    by (eexists; vm_compute; reflexivity).
  destruct H as [r H]. exists r. split; [exact H|].
  destruct (proj1 (participants_split_into_two_teams sample_service "123456"
                     (Some "alice")) r sample_service H)
    as (_ & _ & _ & _ & _ & Htotal).
  exact Htotal.
Defined.

Section CreateQuizProperties.

Variable uuid : nat -> string.

Lemma createOptions_questionId (next : nat) (questionId : string)
    (optionDtos : list CreateAnswerOptionDto) (opt : AnswerOption) :
  In opt (createOptions uuid next questionId optionDtos) ->
  option_questionId opt = questionId.
Proof.
  revert next. induction optionDtos as [|o rest IH]; intros next; cbn.
  - intros [].
  - intros [<-|H]; [reflexivity|exact (IH _ H)].
Qed.

Lemma find_createOptions (next : nat) (questionId : string) (order : Z)
    (optionDtos : list CreateAnswerOptionDto) :
  List.find (fun opt => (option_order opt =? order)%Z)
            (createOptions uuid next questionId optionDtos) = None
  <-> existsb (fun o => (optionDto_order o =? order)%Z) optionDtos = false.
Proof.
  revert next. induction optionDtos as [|o rest IH]; intros next; cbn.
  - tauto.
  - destruct (optionDto_order o =? order)%Z; cbn; [split; discriminate|apply IH].
Qed.

Lemma saveQuestionRows_inserted (question : Question) (rows : list Question)
    (correctAnswerId : string) (q : Question) :
  In q (saveQuestionRows (withCorrectAnswerId question correctAnswerId)
                         (rows ++ [question])) ->
  In q rows \/ q = withCorrectAnswerId question correctAnswerId.
Proof.
  unfold saveQuestionRows. cbn [question_id withCorrectAnswerId].
  rewrite existsb_app. cbn [existsb]. rewrite String.eqb_refl, orb_true_r.
  cbn [orb]. intros H. apply in_map_iff in H. destruct H as (x & Hx & Hin).
  destruct (String.eqb (question_id x) (question_id question)) eqn:Hsame.
  - right. symmetry. exact Hx.
  - left. subst q. apply in_app_or in Hin. destruct Hin as [Hin|[<-|[]]].
    + exact Hin.
    + rewrite String.eqb_refl in Hsame. discriminate.
Qed.

Lemma saveQuestionRows_length (question : Question) (rows : list Question)
    (correctAnswerId : string) :
  length (saveQuestionRows (withCorrectAnswerId question correctAnswerId)
                           (rows ++ [question]))
  = S (length rows).
Proof.
  unfold saveQuestionRows. cbn [question_id withCorrectAnswerId].
  rewrite existsb_app. cbn [existsb]. rewrite String.eqb_refl, orb_true_r.
  cbn [orb]. rewrite length_map, length_app. cbn. lia.
Qed.

Lemma intColumn_ok {S} (z : Z) (s : S) :
  fitsInt z = true -> intColumn z s = (Ok tt, s).
Proof. intros H. unfold intColumn. rewrite H. reflexivity. Qed.

Lemma intColumn_state {S} (z : Z) (s : S) : snd (intColumn z s) = s.
Proof. unfold intColumn. destruct (fitsInt z); reflexivity. Qed.

Lemma intColumns_ok {S} (optionDtos : list CreateAnswerOptionDto) (s : S) :
  forallb (fun optionDto => fitsInt (optionDto_order optionDto)) optionDtos = true ->
  intColumns (List.map optionDto_order optionDtos) s = (Ok tt, s).
Proof.
  induction optionDtos as [|optionDto rest IH]; [reflexivity|].
  cbn [forallb List.map intColumns]. intros H.
  apply andb_true_iff in H. destruct H as [Hfits Hrest].
  unfold bind. rewrite (intColumn_ok _ _ Hfits). exact (IH Hrest).
Qed.

Lemma intColumns_state {S} (zs : list Z) (s : S) : snd (intColumns zs s) = s.
Proof.
  induction zs as [|z rest IH]; [reflexivity|].
  cbn [intColumns]. unfold bind.
  pose proof (intColumn_state z s) as Hstate.
  destruct (intColumn z s) as [[[]|e] s1]; cbn [snd] in Hstate; subst s1;
    [exact IH|reflexivity].
Qed.

(** The two [int] columns of a question and those of its options, for a
    question whose numbers fit. *)
Lemma fitsIntColumns_inv (questionDto : CreateQuestionDto) :
  fitsIntColumns questionDto = true ->
  fitsInt (questionDto_timeSeconds questionDto) = true
  /\ fitsInt (questionDto_order questionDto) = true
  /\ forallb (fun optionDto => fitsInt (optionDto_order optionDto))
             (questionDto_options questionDto) = true.
Proof.
  unfold fitsIntColumns. intros H.
  apply andb_true_iff in H. destruct H as [H Hoptions].
  apply andb_true_iff in H. destruct H as [Htime Horder]. auto.
Qed.

(** When every question names one of its options and its numbers fit their
    columns, the loop ends without an exception, and what it has added are
    configured questions. *)
Lemma createQuestions_ok (quizId : string) (questionDtos : list CreateQuestionDto) :
  Forall (fun questionDto =>
            hasCorrectOption questionDto = true
            /\ fitsIntColumns questionDto = true) questionDtos ->
  forall (next : nat) (s : Service),
  exists s' : Service,
    createQuestions uuid next quizId questionDtos s = (Ok tt, s')
    /\ quizzes (db s') = quizzes (db s)
    /\ participants (db s') = participants (db s)
    /\ answers (db s') = answers (db s)
    /\ questionTimeCache s' = questionTimeCache s
    /\ length (questions (db s'))
       = (length (questions (db s)) + length questionDtos)%nat
    /\ (forall o : AnswerOption,
           In o (answerOptions (db s)) -> In o (answerOptions (db s')))
    /\ (forall q : Question,
           In q (questions (db s')) ->
           In q (questions (db s))
           \/ (question_quizId q = quizId /\ configured (db s') q)).
Proof.
  induction 1 as [|questionDto rest [Hhas Hfits] Hrest IH]; intros next s.
  - exists s. cbn. repeat split; auto. 
  - cbn [createQuestions]. cbv zeta.
    destruct (fitsIntColumns_inv _ Hfits) as (Htime & Horder & Hoptions).
    unfold bind at 1. rewrite (intColumn_ok _ _ Htime).
    unfold bind at 1. rewrite (intColumn_ok _ _ Horder).
    unfold bind at 1. cbn [modify].
    unfold bind at 1. rewrite (intColumns_ok _ _ Hoptions).
    unfold bind at 1. cbn [modify].
    destruct (List.find _ (createOptions uuid (S next) _ _))
      as [correctOption|] eqn:Hfind.
    2:{ apply find_createOptions in Hfind. unfold hasCorrectOption in Hhas.
        congruence. }
    unfold bind at 1. cbn [modify].
    match goal with
    | |- context [createQuestions uuid ?n quizId rest ?s1] =>
        destruct (IH n s1)
          as (s' & Hrun & Hq & Hp & Ha & Hc & Hlen & Hopts & Hquestions)
    end.
    exists s'. split; [exact Hrun|].
    cbn [db onDb quizzes participants answers questions answerOptions
         questionTimeCache saveQuestion insertOptions insertQuestion] in *.
    split; [exact Hq|]. split; [exact Hp|]. split; [exact Ha|].
    split; [exact Hc|].
    split; [rewrite Hlen, saveQuestionRows_length; cbn; lia|].
    split; [intros o Ho; apply Hopts, in_or_app; left; exact Ho|].
    intros q Hin. destruct (Hquestions q Hin) as [Hold|Hnew]; [|right; exact Hnew].
    apply saveQuestionRows_inserted in Hold. destruct Hold as [Hold| ->].
    + left. exact Hold.
    + right. split; [reflexivity|].
      apply List.find_some in Hfind. destruct Hfind as [Hmember _].
      exists correctOption. split; [|split].
      * apply Hopts, in_or_app. right. exact Hmember.
      * apply (createOptions_questionId _ _ _ _ Hmember).
      * reflexivity.
Qed.

(** At the first question that names none of its options the loop throws;
    the question has been inserted and stays as it was inserted. *)
Lemma createQuestions_fails (quizId : string) (good rest : list CreateQuestionDto)
    (bad : CreateQuestionDto) :
  Forall (fun questionDto =>
            hasCorrectOption questionDto = true
            /\ fitsIntColumns questionDto = true) good ->
  hasCorrectOption bad = false ->
  fitsIntColumns bad = true ->
  forall (next : nat) (s : Service),
  exists s' : Service,
    createQuestions uuid next quizId (good ++ bad :: rest) s
    = (Throw (BadRequestException
                (msg_no_correct_option (questionDto_correctAnswerOrder bad))),
       s')
    /\ quizzes (db s') = quizzes (db s)
    /\ exists (earlier : list Question) (unconfigured : Question),
         questions (db s') = earlier ++ [unconfigured]
         /\ question_quizId unconfigured = quizId
         /\ question_text unconfigured = questionDto_text bad
         /\ question_correctAnswerId unconfigured = None.
Proof.
  intros Hgood Hbad Hbadfits.
  induction Hgood as [|questionDto good [Hhas Hfits] Hgood IH]; intros next s.
  - cbn [app createQuestions]. cbv zeta.
    destruct (fitsIntColumns_inv _ Hbadfits) as (Htime & Hord & Hoptions).
    unfold bind at 1. rewrite (intColumn_ok _ _ Htime).
    unfold bind at 1. rewrite (intColumn_ok _ _ Hord).
    unfold bind at 1. cbn [modify].
    unfold bind at 1. rewrite (intColumns_ok _ _ Hoptions).
    unfold bind at 1. cbn [modify].
    destruct (List.find _ (createOptions uuid (S next) _ _))
      as [correctOption|] eqn:Hfind.
    { apply List.find_some in Hfind. destruct Hfind as [Hmember Horder].
      assert (Hnone : List.find
                        (fun opt => (option_order opt
                                     =? questionDto_correctAnswerOrder bad)%Z)
                        (createOptions uuid (S next) (uuid next)
                                       (questionDto_options bad)) = None)
        by (apply find_createOptions; exact Hbad).
      eapply List.find_none in Hnone; [|exact Hmember].
      cbn in *. congruence. }
    eexists. split; [reflexivity|]. split; [reflexivity|].
    eexists _, _. cbn [db onDb questions insertOptions insertQuestion].
    split; [reflexivity|]. repeat split.
  - cbn [app createQuestions]. cbv zeta.
    destruct (fitsIntColumns_inv _ Hfits) as (Htime & Horder & Hoptions).
    unfold bind at 1. rewrite (intColumn_ok _ _ Htime).
    unfold bind at 1. rewrite (intColumn_ok _ _ Horder).
    unfold bind at 1. cbn [modify].
    unfold bind at 1. rewrite (intColumns_ok _ _ Hoptions).
    unfold bind at 1. cbn [modify].
    destruct (List.find _ (createOptions uuid (S next) _ _))
      as [correctOption|] eqn:Hfind.
    2:{ apply find_createOptions in Hfind. unfold hasCorrectOption in Hhas.
        congruence. }
    unfold bind at 1. cbn [modify].
    match goal with
    | |- context [createQuestions uuid ?n quizId _ ?s1] =>
        destruct (IH n s1) as (s' & Hrun & Hq & Hlast)
    end.
    exists s'. split; [exact Hrun|]. split; [exact Hq|exact Hlast].
Qed.


Lemma generateUniquePin_some (draws : list Z) (d : Db) (pin : string) :
  generateUniquePin draws d = Some pin ->
  findQuizByPin d pin = None /\ exists draw : Z, In draw draws /\ pin = pretty draw.
Proof.
  induction draws as [|draw rest IH]; cbn; [discriminate|].
  destruct (findQuizByPin d (pretty draw)) eqn:Hfind.
  - intros H. destruct (IH H) as (Hfree & n & Hin & Hn). eauto.
  - intros [= <-]. eauto.
Qed.

Lemma generateUniquePin_ends (draws : list Z) (d : Db) (draw : Z) :
  In draw draws -> findQuizByPin d (pretty draw) = None ->
  generateUniquePin draws d <> None.
Proof.
  induction draws as [|x rest IH]; cbn; [intros []|].
  intros [->|Hin] Hfree.
  - rewrite Hfree. discriminate.
  - destruct (findQuizByPin d (pretty x)); [exact (IH Hin Hfree)|discriminate].
Qed.

Lemma findQuizByPin_none (d : Db) (pin : string) :
  findQuizByPin d pin = None -> ~ In pin (List.map quiz_pin (quizzes d)).
Proof.
  intros Hnone Hin. apply in_map_iff in Hin. destruct Hin as (q & Hpin & Hq).
  eapply List.find_none in Hnone; [|exact Hq].
  cbn in Hnone. rewrite Hpin, String.eqb_refl in Hnone. discriminate.
Qed.

(** Whether it ends well or not, [createQuizWithPin] adds one row to the
    quiz table. *)
Lemma createQuizWithPin_quizzes (pin : string) (createQuizDto : CreateQuizDto)
    (creatorId : string) (s : Service) :
  quizzes (db (snd (createQuizWithPin uuid pin createQuizDto creatorId s)))
  = quizzes (db s)
    ++ [ {| quiz_id := uuid 0;
            quiz_title := quizDto_title createQuizDto;
            quiz_pin := pin;
            quiz_status := CREATED;
            quiz_creatorId := creatorId |} ].
Proof.
  unfold createQuizWithPin. cbv zeta. unfold bind at 1. cbn [modify].
  assert (Hloop : forall questionDtos next s0,
             quizzes (db (snd (createQuestions uuid next (uuid 0) questionDtos s0)))
             = quizzes (db s0)).
  { induction questionDtos as [|questionDto rest IH]; intros next s0;
      [reflexivity|].
    cbn [createQuestions]. cbv zeta.
    unfold bind at 1.
    pose proof (intColumn_state (questionDto_timeSeconds questionDto) s0) as H1.
    destruct (intColumn _ s0) as [[[]|e] s1]; cbn [snd] in H1; subst s1;
      [|reflexivity].
    unfold bind at 1.
    pose proof (intColumn_state (questionDto_order questionDto) s0) as H2.
    destruct (intColumn _ s0) as [[[]|e] s1]; cbn [snd] in H2; subst s1;
      [|reflexivity].
    unfold bind at 1. cbn [modify]. unfold bind at 1.
    match goal with
    | |- context [intColumns ?zs ?s1] =>
        pose proof (intColumns_state zs s1) as H3;
        destruct (intColumns zs s1) as [[[]|e] s2]; cbn [snd] in H3; subst s2;
        [|reflexivity]
    end.
    unfold bind at 1. cbn [modify].
    destruct (List.find _ _); [|reflexivity].
    unfold bind at 1. cbn [modify]. rewrite IH. reflexivity. }
  unfold bind at 1. cbn [quiz_id].
  specialize (Hloop (quizDto_questions createQuizDto) 1%nat
                    (onDb (insertQuiz
                             {| quiz_id := uuid 0;
                                quiz_title := quizDto_title createQuizDto;
                                quiz_pin := pin;
                                quiz_status := CREATED;
                                quiz_creatorId := creatorId |}) s)).
  destruct (createQuestions uuid 1 (uuid 0) _ _) as [[[]|e] s1];
    cbn [snd] in Hloop; [|exact Hloop].
  unfold bind, gets. destruct (findQuizById (db s1) (uuid 0)); exact Hloop.
Qed.

(** X17. [createQuiz] gets past its PIN loop as soon as one draw is a
    PIN that no stored quiz has.  Whatever happens afterwards, it has then
    inserted exactly one quiz row, in status created, under such a PIN: if
    the PINs of the stored quizzes were pairwise different, they still
    are. *)
Theorem createQuiz_draws_an_unused_pin
    (draws : list Z) (createQuizDto : CreateQuizDto) (creatorId : string)
    (s : Service) :
  ((exists draw : Z,
       In draw draws /\ findQuizByPin (db s) (pretty draw) = None) ->
   createQuiz uuid draws createQuizDto creatorId s <> None)
  /\ forall (result : Result Quiz) (s' : Service),
       createQuiz uuid draws createQuizDto creatorId s = Some (result, s') ->
       exists draw : Z,
         In draw draws
         /\ findQuizByPin (db s) (pretty draw) = None
         /\ quizzes (db s')
            = quizzes (db s)
              ++ [ {| quiz_id := uuid 0;
                      quiz_title := quizDto_title createQuizDto;
                      quiz_pin := pretty draw;
                      quiz_status := CREATED;
                      quiz_creatorId := creatorId |} ]
         /\ (pinsUnique (db s) -> pinsUnique (db s')).
Proof.
  unfold createQuiz. split.
  - intros (draw & Hin & Hfree).
    pose proof (generateUniquePin_ends draws (db s) draw Hin Hfree) as Hends.
    destruct (generateUniquePin draws (db s)); [discriminate|contradiction].
  - intros result s' Hrun.
    destruct (generateUniquePin draws (db s)) as [pin|] eqn:Hpin; [|discriminate].
    destruct (generateUniquePin_some _ _ _ Hpin) as (Hfree & draw & Hin & ->).
    injection Hrun as Hrun.
    pose proof (createQuizWithPin_quizzes (pretty draw) createQuizDto creatorId s)
      as Hrows.
    rewrite Hrun in Hrows. cbn [snd] in Hrows.
    exists draw. split; [exact Hin|]. split; [exact Hfree|].
    split; [exact Hrows|].
    unfold pinsUnique. rewrite Hrows, map_app. cbn [List.map quiz_pin].
    intros Hunique. apply NoDup_app. split; [exact Hunique|].
    split.
    + intros pin Hpin' Hnew. apply list_elem_of_singleton in Hnew. subst pin.
      apply list_elem_of_In in Hpin'.
      exact (findQuizByPin_none _ _ Hfree Hpin').
    + apply NoDup_singleton.
Qed.

(** X18. Take a PIN as the PIN loop yields it, unused and of at most six
    characters, and a request in which every question names, by
    [correctAnswerOrder], one of its own options and has numbers that fit
    their 32-bit [int] columns ([timeSeconds] and [order] of the question,
    [order] of each option).  When the id drawn for the quiz is not yet in
    the quiz table, [createQuiz] returns the new quiz: status created,
    with the PIN, title and creator given.  The question table grows by
    one row per requested question, and every row that is not an old one
    belongs to the new quiz and has as [correctAnswerId] the id of a
    stored option of that very question.  Participants and answers are
    untouched. *)
Theorem createQuiz_stores_configured_questions
    (pin : string) (createQuizDto : CreateQuizDto) (creatorId : string)
    (s : Service) :
  let createdQuiz :=
    {| quiz_id := uuid 0;
       quiz_title := quizDto_title createQuizDto;
       quiz_pin := pin;
       quiz_status := CREATED;
       quiz_creatorId := creatorId |} in
  findQuizByPin (db s) pin = None ->
  (String.length pin <= 6)%nat ->
  Forall (fun questionDto => hasCorrectOption questionDto = true)
         (quizDto_questions createQuizDto) ->
  Forall (fun questionDto => fitsIntColumns questionDto = true)
         (quizDto_questions createQuizDto) ->
  findQuizById (db s) (uuid 0) = None ->
  exists s' : Service,
    createQuizWithPin uuid pin createQuizDto creatorId s = (Ok createdQuiz, s')
    /\ quizzes (db s') = quizzes (db s) ++ [createdQuiz]
    /\ length (questions (db s'))
       = (length (questions (db s))
          + length (quizDto_questions createQuizDto))%nat
    /\ (forall q : Question,
           In q (questions (db s')) ->
           In q (questions (db s))
           \/ (question_quizId q = uuid 0 /\ configured (db s') q))
    /\ participants (db s') = participants (db s)
    /\ answers (db s') = answers (db s).
Proof.
  intros createdQuiz _ _ Hhas Hfits Hfresh.
  pose proof (List.Forall_and Hhas Hfits) as Hall.
  unfold createQuizWithPin. cbv zeta. fold createdQuiz.
  unfold bind at 1. cbn [modify].
  destruct (createQuestions_ok (uuid 0) _ Hall 1%nat
              (onDb (insertQuiz createdQuiz) s))
    as (s' & Hrun & Hq & Hp & Ha & _ & Hlen & _ & Hquestions).
  exists s'. cbn [quiz_id createdQuiz]. unfold bind at 1. rewrite Hrun.
  unfold bind, gets.
  cbn [db onDb quizzes questions participants answers insertQuiz] in *.
  assert (Hfound : findQuizById (db s') (uuid 0) = Some createdQuiz).
  { unfold findQuizById in *. rewrite Hq, (find_app_none _ _ _ Hfresh).
    cbn. rewrite String.eqb_refl. reflexivity. }
  rewrite Hfound. repeat split; assumption.
Qed.

(** X19. [createQuiz] is not atomic.  Take a PIN as the PIN loop yields
    it, unused and of at most six characters, and a request whose numbers
    fit their 32-bit [int] columns up to and including the first question
    whose [correctAnswerOrder] is the order of none of its options.  At
    that question [createQuiz] throws a [BadRequestException] naming that
    order; the quiz row inserted before stays in the store, and so does
    that question, as the last row of the question table and without a
    [correctAnswerId]. *)
Theorem createQuiz_failure_is_not_rolled_back
    (pin : string) (createQuizDto : CreateQuizDto) (creatorId : string)
    (s : Service) (good rest : list CreateQuestionDto) (bad : CreateQuestionDto) :
  findQuizByPin (db s) pin = None ->
  (String.length pin <= 6)%nat ->
  quizDto_questions createQuizDto = good ++ bad :: rest ->
  Forall (fun questionDto => hasCorrectOption questionDto = true) good ->
  Forall (fun questionDto => fitsIntColumns questionDto = true) good ->
  hasCorrectOption bad = false ->
  fitsIntColumns bad = true ->
  exists s' : Service,
    createQuizWithPin uuid pin createQuizDto creatorId s
    = (Throw (BadRequestException
                (msg_no_correct_option (questionDto_correctAnswerOrder bad))),
       s')
    /\ quizzes (db s')
       = quizzes (db s)
         ++ [ {| quiz_id := uuid 0;
                 quiz_title := quizDto_title createQuizDto;
                 quiz_pin := pin;
                 quiz_status := CREATED;
                 quiz_creatorId := creatorId |} ]
    /\ exists (earlier : list Question) (unconfigured : Question),
         questions (db s') = earlier ++ [unconfigured]
         /\ question_quizId unconfigured = uuid 0
         /\ question_text unconfigured = questionDto_text bad
         /\ question_correctAnswerId unconfigured = None.
Proof.
  intros _ _ Hquestions Hhas Hfits Hbad Hbadfits.
  pose proof (List.Forall_and Hhas Hfits) as Hgood.
  unfold createQuizWithPin. cbv zeta. rewrite Hquestions.
  unfold bind at 1. cbn [modify quiz_id].
  match goal with
  | |- context [bind (createQuestions uuid 1 (uuid 0) _) _ ?s1] =>
      destruct (createQuestions_fails (uuid 0) good rest bad Hgood Hbad
                                      Hbadfits 1%nat s1)
        as (s' & Hrun & Hq & Hlast)
  end.
  exists s'. unfold bind at 1. rewrite Hrun.
  split; [reflexivity|]. split; [exact Hq|exact Hlast].
Qed.

End CreateQuizProperties.

(** X17 on the sample store: the first draw is the PIN of quiz A, the
    second is free. *)
Lemma createQuiz_draws_an_unused_pin_witness :
  findQuizByPin (db sample_service) (pretty 111111%Z) = None
  /\ createQuiz sample_uuid [123456%Z; 111111%Z] sample_createQuizDto "alice"
                sample_service
     <> None.
Proof.
  assert (H : findQuizByPin (db sample_service) (pretty 111111%Z) = None)
    by (vm_compute; reflexivity).
  split; [exact H|].
  apply (proj1 (createQuiz_draws_an_unused_pin sample_uuid
                  [123456%Z; 111111%Z] sample_createQuizDto "alice"
                  sample_service)).
  exists 111111%Z. split; [right; left; reflexivity|exact H].
Defined.

(** X18 on the sample store: the request with one well-formed question. *)
Lemma createQuiz_stores_configured_questions_witness :
  exists s' : Service,
    createQuizWithPin sample_uuid "111111" sample_createQuizDto "alice"
                      sample_service
    = (Ok {| quiz_id := "id-0"; quiz_title := "Maths"; quiz_pin := "111111";
             quiz_status := CREATED; quiz_creatorId := "alice" |}, s')
    /\ length (questions (db s')) = 4%nat.
Proof.
  destruct (createQuiz_stores_configured_questions sample_uuid "111111"
              sample_createQuizDto "alice" sample_service)
    as (s' & Hrun & _ & Hlen & _).
  - vm_compute; reflexivity.
  - cbn; lia.
  - repeat constructor.
  - repeat constructor.
  - vm_compute; reflexivity.
  - exists s'. split; [exact Hrun|exact Hlen].
Defined.

(** X19 on the sample store: the request whose question names order 5. *)
Lemma createQuiz_failure_is_not_rolled_back_witness :
  exists s' : Service,
    createQuizWithPin sample_uuid "111111" sample_createQuizDto_unanswerable
                      "alice" sample_service
    = (Throw (BadRequestException (msg_no_correct_option 5)), s')
    /\ length (quizzes (db s')) = 3%nat.
Proof.
  destruct (createQuiz_failure_is_not_rolled_back sample_uuid "111111"
              sample_createQuizDto_unanswerable "alice" sample_service
              [] [] (sample_questionDto 5))
    as (s' & Hrun & Hquizzes & _).
  - vm_compute; reflexivity.
  - cbn; lia.
  - reflexivity.
  - constructor.
  - constructor.
  - reflexivity.
  - reflexivity.
  - exists s'. split; [exact Hrun|]. rewrite Hquizzes. reflexivity.
Defined.

(** ** Gateway *)

Section GatewayFurther.

Variable Math_pow : Q -> Q -> Q.

Lemma bind_ok {S A B} (c : M S A) (k : A -> M S B) (s s1 : S) (a : A) :
  c s = (Ok a, s1) -> bind c k s = k a s1.
Proof. intros H. unfold bind. rewrite H. reflexivity. Qed.

Lemma bind_assoc {S A B C} (c : M S A) (k1 : A -> M S B) (k2 : B -> M S C)
    (s : S) :
  bind (bind c k1) k2 s = bind c (fun a => bind (k1 a) k2) s.
Proof. unfold bind. destruct (c s) as [[a|e] s1]; reflexivity. Qed.

Lemma bind_throw {S A B} (c : M S A) (k : A -> M S B) (s s1 : S)
    (e : HttpException) :
  c s = (Throw e, s1) -> bind c k s = (Throw e, s1).
Proof. intros H. unfold bind. rewrite H. reflexivity. Qed.

Lemma tryCatch_ok {S A} (c : M S A) (h : HttpException -> M S A) (s s1 : S)
    (a : A) :
  c s = (Ok a, s1) -> tryCatch c h s = (Ok a, s1).
Proof. intros H. unfold tryCatch. rewrite H. reflexivity. Qed.

Lemma tryCatch_throw {S A} (c : M S A) (h : HttpException -> M S A) (s s1 : S)
    (e : HttpException) :
  c s = (Throw e, s1) -> tryCatch c h s = h e s1.
Proof. intros H. unfold tryCatch. rewrite H. reflexivity. Qed.

Lemma run_reject (g : Gateway) (client message : string) (error : option string) :
  run (reject client message error) g
  = (Ack_failure error,
     onEmitted (fun log => log ++ [mkEmitted (ToClient client) (Ev_error message)])
               g).
Proof. reflexivity. Qed.

Lemma onService_same (g : Gateway) : onService (fun _ => service g) g = g.
Proof. destruct g; reflexivity. Qed.

Lemma call_getQuizByPin_known (g : Gateway) (pin : string) (quiz : Quiz) :
  findQuizByPin (db (service g)) pin = Some quiz ->
  call (getQuizByPin pin) g
  = (Ok {| lq_quiz := quiz;
           lq_questions := questionsOf (db (service g)) (quiz_id quiz) |}, g).
Proof.
  intros H. unfold call, getQuizByPin, bind, gets. rewrite H.
  cbn [ret]. rewrite onService_same. reflexivity.
Qed.

Lemma call_getQuizByPin_unknown (g : Gateway) (pin : string) :
  findQuizByPin (db (service g)) pin = None ->
  call (getQuizByPin pin) g
  = (Throw (NotFoundException "Тест с таким PIN не найден"), g).
Proof.
  intros H. unfold call, getQuizByPin, bind, gets. rewrite H.
  cbn [throw]. rewrite onService_same. reflexivity.
Qed.

(** The tug position of a stored quiz: a result, and only the cache of the
    score engine may change. *)
Lemma call_getTugPosition (g : Gateway) (quizId : string) (quiz : Quiz) :
  findQuizById (db (service g)) quizId = Some quiz ->
  exists (t : TugStatus) (cache' : gmap string Q),
    call (getTugPosition Math_pow quizId) g
    = (Ok t, onService (onCache (fun _ => cache')) g).
Proof.
  intros H. unfold call, getTugPosition, bind, gets. rewrite H.
  unfold tugOfWar_calculateTugPosition.
  destruct (calculateTugPosition Math_pow (questionTimeCache (service g))
              (db (service g)) quizId) as [t cache'].
  exists t, cache'. reflexivity.
Qed.

Lemma call_getParticipantsByPin (g : Gateway) (pin : string)
    (userId : option string) (quiz : Quiz) :
  findQuizByPin (db (service g)) pin = Some quiz ->
  notCreator quiz userId = false ->
  exists participantsData : ParticipantsByPin,
    call (getParticipantsByPin pin userId) g = (Ok participantsData, g).
Proof.
  intros H Hnc. unfold call, getParticipantsByPin, bind, gets. rewrite H, Hnc.
  cbn [throwIf ret]. rewrite onService_same. eauto.
Qed.

Lemma findQuizById_of_pin (d : Db) (pin : string) (quiz : Quiz) :
  findQuizByPin d pin = Some quiz ->
  exists quiz', findQuizById d (quiz_id quiz) = Some quiz'.
Proof.
  intros H. apply List.find_some in H. destruct H as [Hin _].
  unfold findQuizById.
  destruct (List.find _ (quizzes d)) as [q|] eqn:Hfind; [eauto|].
  eapply List.find_none in Hfind; [|exact Hin].
  cbn in Hfind. rewrite String.eqb_refl in Hfind. discriminate.
Qed.

Ltac told_client :=
  unfold onlyToldClient;
  cbn [service sockets rooms pinRooms clientLastActivity questionStartTimes
       questionTimers timeouts emitted db onService onEmitted onCache];
  repeat match goal with |- _ /\ _ => split; [reflexivity|] end;
  rewrite <- ?app_assoc;
  first [ eexists; split; [reflexivity|repeat constructor]
        | exists []; split; [symmetry; apply app_nil_r|constructor] ].

Lemma onlyToldClient_trans (client : string) (g1 g2 g3 : Gateway) :
  onlyToldClient client g1 g2 -> onlyToldClient client g2 g3 ->
  onlyToldClient client g1 g3.
Proof.
  intros (H1 & H2 & H3 & H4 & H5 & H6 & H7 & H8 & ev1 & H9 & Hev1)
         (K1 & K2 & K3 & K4 & K5 & K6 & K7 & K8 & ev2 & K9 & Hev2).
  unfold onlyToldClient.
  rewrite K1, K2, K3, K4, K5, K6, K7, K8, K9, H9.
  repeat (split; [assumption|]).
  exists (ev1 ++ ev2). split; [symmetry; apply app_assoc|].
  apply Forall_app; split; assumption.
Qed.

(** X21. A join-quiz whose PIN no stored quiz has: the
    acknowledgement is a failure carrying the not-found message, the same
    message goes to the client as an [error] event, and nothing else
    changes: the connection is not tagged and joins no room. *)
Theorem join_unknown_pin_changes_nothing
    (g : Gateway) (client : string) (data : JoinQuizData) (now : Z) :
  findQuizByPin (db (service g)) (join_pin data) = None ->
  handleJoinQuiz Math_pow client data now g
  = (Ack_failure (Some "Тест с таким PIN не найден"),
     onEmitted (fun log =>
                  log ++ [mkEmitted (ToClient client)
                                    (Ev_error "Тест с таким PIN не найден")])
               g).
Proof.
  intros H. unfold handleJoinQuiz. cbv zeta.
  unfold run. rewrite (tryCatch_throw _ _ _ _ _
                         (bind_throw _ _ _ _ _ (call_getQuizByPin_unknown g _ H))).
  reflexivity.
Qed.

(** X22. A join-quiz with the PIN of a stored quiz first tags the
    connection with the role, user id, PIN and participant id of the
    message, puts it into the room of the PIN and refreshes its activity
    ([joined]); only then is the creator checked.  From there on it only
    emits events to the joining connection itself and may fill the cache
    of the score engine: the store, the rooms, the start times and the
    timers stay as they are.  The acknowledgement is a failure exactly for
    a teacher join with a non-empty user id that is not the creator's. *)
Theorem join_tags_connection_and_writes_nothing
    (g : Gateway) (client : string) (data : JoinQuizData) (now : Z)
    (quiz : Quiz) :
  findQuizByPin (db (service g)) (join_pin data) = Some quiz ->
  let ack := fst (handleJoinQuiz Math_pow client data now g) in
  let g' := snd (handleJoinQuiz Math_pow client data now g) in
  ack = (if bool_decide (join_role data = teacher)
            && JS.truthy_opt (join_userId data)
            && notCreator quiz (join_userId data)
         then Ack_failure (Some "Неверные права доступа")
         else Ack_joined (join_pin data))
  /\ onlyToldClient client (joined client data now g) g'.
Proof.
  intros Hquiz ack g'. subst ack g'.
  destruct (findQuizById_of_pin _ _ _ Hquiz) as [quiz' Hid].
  unfold handleJoinQuiz. cbv zeta. unfold run, tryCatch.
  rewrite (bind_ok _ _ _ _ _ (call_getQuizByPin_known g _ quiz Hquiz)).
  cbn [lq_quiz].
  do 5 (erewrite bind_ok by reflexivity).
  match goal with
  | |- context [(if _ then _ else _) ?G] =>
      change G with (joined client data now g)
  end.
  set (g1 := joined client data now g).
  assert (Hstatus :
            forall g2 : Gateway,
              db (service g2) = db (service g) ->
              exists g3 : Gateway,
                (if QuizStatus_eqb (quiz_status quiz) STARTED
                    || QuizStatus_eqb (quiz_status quiz) FINISHED
                 then
                   bind (call (getTugPosition Math_pow (quiz_id quiz)))
                        (fun tugStatus =>
                           emit (ToClient client)
                                (Ev_tug_position_update (join_pin data) tugStatus))
                 else ret tt) g2 = (Ok tt, g3)
                /\ onlyToldClient client g2 g3).
  { intros g2 Hdb.
    destruct (QuizStatus_eqb (quiz_status quiz) STARTED
              || QuizStatus_eqb (quiz_status quiz) FINISHED).
    - destruct (call_getTugPosition g2 (quiz_id quiz) quiz') as (t & cache' & Ht).
      { rewrite Hdb. exact Hid. }
      eexists. rewrite (bind_ok _ _ _ _ _ Ht). split; [reflexivity|].
      told_client.
    - eexists. split; [reflexivity|]. told_client. }
  destruct (bool_decide (join_role data = teacher)
            && JS.truthy_opt (join_userId data)) eqn:Hcond; cbn [andb].
  - destruct (notCreator quiz (join_userId data)) eqn:Hnc.
    + cbn [reject emit bind modify ret fst snd].
      split; [reflexivity|]. told_client.
    + destruct (call_getParticipantsByPin g1 _ _ quiz Hquiz Hnc) as [pd Hpd].
      rewrite (bind_ok _ _ _ _ _ Hpd).
      do 2 (erewrite bind_ok by reflexivity).
      match goal with
      | |- context [bind (if _ then _ else _) _ ?G] =>
          destruct (Hstatus G eq_refl) as (g3 & Hg3 & Htold)
      end.
      rewrite (bind_ok _ _ _ _ _ Hg3). cbn [ret fst snd].
      split; [reflexivity|].
      eapply onlyToldClient_trans; [|exact Htold]. told_client.
  - erewrite bind_ok by reflexivity.
    match goal with
    | |- context [bind (if _ then _ else _) _ ?G] =>
        destruct (Hstatus G eq_refl) as (g3 & Hg3 & Htold)
    end.
    rewrite (bind_ok _ _ _ _ _ Hg3). cbn [ret fst snd].
    split; [reflexivity|].
    eapply onlyToldClient_trans; [|exact Htold]. told_client.
Qed.

Lemma clearQuestionTimeout_run (g : Gateway) (quizId : string) :
  clearQuestionTimeout quizId g
  = (Ok tt,
     onTimeouts (fun pending =>
                   match questionTimers g !! quizId with
                   | Some timer => delete (timer_timerId timer) pending
                   | None => pending
                   end) g).
Proof.
  unfold clearQuestionTimeout.
  destruct (questionTimers g !! quizId); [reflexivity|].
  destruct g; reflexivity.
Qed.

Lemma finishQuiz_run (s : Service) (quizId : string) (userId : option string) :
  finishQuiz quizId userId s
  = match findQuizById (db s) quizId with
    | None => (Throw (NotFoundException "Тест не найден"), s)
    | Some quiz =>
        if notCreator quiz userId
        then (Throw (ForbiddenException "Вы не являетесь создателем этого теста"),
              s)
        else (Ok (withStatus quiz FINISHED),
              onCache (fun cache => clearCache cache quizId)
                (onDb (saveQuiz (withStatus quiz FINISHED)) s))
    end.
Proof.
  unfold finishQuiz, bind, gets.
  destruct (findQuizById (db s) quizId) as [quiz|]; [|reflexivity].
  destruct (notCreator quiz userId); reflexivity.
Qed.

Lemma call_run {A} (c : M Service A) (g : Gateway) (r : Result A) (s' : Service) :
  c (service g) = (r, s') -> call c g = (r, onService (fun _ => s') g).
Proof. intros H. unfold call. rewrite H. reflexivity. Qed.

Lemma call_getResults (g : Gateway) (quizId : string) (userId : option string)
    (quiz : Quiz) :
  findQuizById (db (service g)) quizId = Some quiz ->
  notCreator quiz userId = false ->
  exists (results : QuizResults) (cache' : gmap string Q),
    call (getResults Math_pow quizId userId) g
    = (Ok results, onService (onCache (fun _ => cache')) g).
Proof.
  intros H Hnc. unfold call, getResults, bind, gets. rewrite H, Hnc.
  cbn [throwIf ret]. unfold tugOfWar_calculateTugPosition.
  destruct (calculateTugPosition Math_pow (questionTimeCache (service g))
              (db (service g)) quizId) as [t cache'].
  eexists _, cache'. reflexivity.
Qed.

Lemma sendResults_run (g : Gateway) (pin quizId : string)
    (userId : option string) (quiz : Quiz) :
  findQuizById (db (service g)) quizId = Some quiz ->
  notCreator quiz userId = false ->
  exists (results : QuizResults) (cache' : gmap string Q),
    sendResults Math_pow pin quizId userId g
    = (Ok tt,
       onEmitted (fun log => log ++ [mkEmitted (ToRoom (roomName pin))
                                               (Ev_quiz_results results)])
         (onService (onCache (fun _ => cache')) g)).
Proof.
  intros H Hnc.
  destruct (call_getResults g quizId userId quiz H Hnc) as (r & cache' & Hr).
  exists r, cache'. unfold sendResults.
  apply tryCatch_ok. rewrite (bind_ok _ _ _ _ _ Hr). reflexivity.
Qed.

Lemma message_or_empty (e : HttpException) :
  message_or e "" = exception_message e.
Proof.
  unfold message_or, JS.truthy.
  destruct (String.eqb (exception_message e) "") eqn:H; [|reflexivity].
  apply String.eqb_eq in H. rewrite H. reflexivity.
Qed.

(** X28. A finish-quiz from a teacher connection does what
    [finishQuiz] does for the quiz id and user id of the message.  If that
    throws, the acknowledgement and an [error] event to the client carry
    the exception's message and nothing else changes.  If it returns, the
    acknowledgement is a success, the store is the one [finishQuiz] left,
    the timer entry of the quiz is dropped together with the timeout it
    names, the start times of the quiz are dropped, and the room of the
    PIN in the message receives [game-update] (with the index of the
    timer entry, 0 without one) and the results. *)
Theorem finishQuiz_event_cancels_the_timer
    (g : Gateway) (client : string) (data : QuizActionData) :
  data_role (clientData g client) = Some teacher ->
  let out := handleFinishQuiz Math_pow client data g in
  match finishQuiz (action_quizId data) (action_userId data) (service g) with
  | (Throw e, _) =>
      out = (Ack_failure (Some (exception_message e)),
             onEmitted (fun log =>
                          log ++ [mkEmitted (ToClient client)
                                            (Ev_error (exception_message e))]) g)
  | (Ok quiz, finished) =>
      fst out = Ack_success
      /\ db (service (snd out)) = db finished
      /\ questionTimers (snd out) = delete (quiz_id quiz) (questionTimers g)
      /\ timeouts (snd out)
         = match questionTimers g !! quiz_id quiz with
           | Some timer => delete (timer_timerId timer) (timeouts g)
           | None => timeouts g
           end
      /\ questionStartTimes (snd out)
         = delete (quiz_id quiz) (questionStartTimes g)
      /\ exists results : QuizResults,
           emitted (snd out)
           = emitted g
             ++ [ mkEmitted (ToRoom (roomName (action_pin data)))
                    (Ev_game_update (quiz_id quiz) (action_pin data) FINISHED
                       (Some (match questionTimers g !! quiz_id quiz with
                              | Some timer => timer_questionIndex timer
                              | None => 0%Z
                              end)));
                  mkEmitted (ToRoom (roomName (action_pin data)))
                    (Ev_quiz_results results) ]
  end.
Proof.
  intros Hrole out.
  assert (Hout : out = handleFinishQuiz Math_pow client data g) by reflexivity.
  clearbody out. unfold handleFinishQuiz in Hout.
  rewrite Hrole, (bool_decide_eq_true_2 _ eq_refl) in Hout. cbn [negb] in Hout.
  rewrite finishQuiz_run.
  destruct (findQuizById (db (service g)) (action_quizId data)) as [quiz|] eqn:Hquiz.
  2:{ unfold run in Hout.
      erewrite tryCatch_throw in Hout
        by (apply bind_throw, call_run; rewrite finishQuiz_run, Hquiz; reflexivity).
      rewrite onService_same in Hout. unfold rejectWith in Hout.
      rewrite message_or_empty in Hout. exact Hout. }
  destruct (notCreator quiz (action_userId data)) eqn:Hnc.
  { unfold run in Hout.
    erewrite tryCatch_throw in Hout
      by (apply bind_throw, call_run; rewrite finishQuiz_run, Hquiz, Hnc;
          reflexivity).
    rewrite onService_same in Hout. unfold rejectWith in Hout.
    rewrite message_or_empty in Hout. exact Hout. }
  pose proof (findQuizById_id _ _ _ Hquiz) as Hid.
  pose proof (findQuizById_stored _ _ _ Hquiz) as Hin.
  assert (Hsaved : findQuizById (saveQuiz (withStatus quiz FINISHED) (db (service g)))
                                (action_quizId data)
                   = Some (withStatus quiz FINISHED)).
  { rewrite <- Hid.
    apply (findQuizById_saveQuiz_same (withStatus quiz FINISHED)), Hin. }
  unfold run, tryCatch in Hout.
  erewrite bind_ok in Hout
    by (apply call_run; rewrite finishQuiz_run, Hquiz, Hnc; reflexivity).
  erewrite bind_ok in Hout by reflexivity.
  erewrite bind_ok in Hout by apply clearQuestionTimeout_run.
  do 2 (erewrite bind_ok in Hout by reflexivity).
  match type of Hout with
  | context [bind (call (getTugPosition _ _)) _ ?G] =>
      destruct (call_getTugPosition G (action_quizId data)
                  (withStatus quiz FINISHED) Hsaved) as (t & cache1 & Ht)
  end.
  rewrite (bind_ok _ _ _ _ _ Ht) in Hout.
  erewrite bind_ok in Hout by reflexivity.
  match type of Hout with
  | context [bind (sendResults _ _ _ _) _ ?G] =>
      destruct (sendResults_run G (action_pin data)
                  (quiz_id (withStatus quiz FINISHED)) (action_userId data)
                  (withStatus quiz FINISHED))
        as (results & cache2 & Hresults);
      [cbn [quiz_id withStatus]; rewrite Hid; exact Hsaved|exact Hnc|]
  end.
  rewrite (bind_ok _ _ _ _ _ Hresults) in Hout.
  cbn [ret] in Hout. subst out. cbn.
  repeat split.
  exists results. rewrite <- app_assoc. reflexivity.
Qed.

Lemma truthy_creator (quiz : Quiz) (userId : option string) :
  notCreator quiz userId = false -> quiz_creatorId quiz <> "" ->
  JS.truthy_opt userId = true.
Proof.
  destruct userId as [u|]; [|discriminate]. cbn. intros H Hne.
  apply negb_false_iff, String.eqb_eq in H. subst u.
  unfold JS.truthy. apply negb_true_iff, String.eqb_neq, Hne.
Qed.

(** X23. Who may start a question of a stored quiz.  A connection
    that is not a teacher and carries no user id is told to join first; one
    that is not a teacher and carries another user's id, and a teacher
    connection whose user id is not the creator's (or is missing), are
    refused with their own messages.  Each refusal is a failure
    acknowledgement without error text and one [error] event to the
    client, nothing else.  A connection that carries the creator's id
    passes, and leaves the handler with the teacher role whatever the
    later checks say.  In all these cases the service is left as it
    was. *)
Theorem startQuestion_only_for_the_creator
    (g : Gateway) (client pin : string) (currentQuestionIndex now : Z)
    (quiz : Quiz) :
  findQuizByPin (db (service g)) pin = Some quiz ->
  let role := data_role (clientData g client) in
  let userId := data_userId (clientData g client) in
  let out := handleStartQuestion client pin currentQuestionIndex now g in
  let refused (message : string) :=
    out = (Ack_failure None,
           onEmitted (fun log => log ++ [mkEmitted (ToClient client)
                                                   (Ev_error message)]) g) in
  (role <> Some teacher -> JS.truthy_opt userId = false ->
   refused msg_join_first)
  /\ (role <> Some teacher -> JS.truthy_opt userId = true ->
      notCreator quiz userId = true ->
      refused msg_only_creator_may_start)
  /\ (role = Some teacher -> notCreator quiz userId = true ->
      refused "Только создатель игры может запускать вопросы. Проверьте правильность userId в join-quiz")
  /\ (notCreator quiz userId = false ->
      role = Some teacher \/ JS.truthy_opt userId = true ->
      service (snd out) = service g
      /\ data_role (clientData (snd out) client) = Some teacher
      /\ data_userId (clientData (snd out) client) = userId).
Proof.
  intros Hquiz role userId out refused.
  assert (Hout : out = handleStartQuestion client pin currentQuestionIndex now g)
    by reflexivity.
  clearbody out. unfold handleStartQuestion in Hout. cbv zeta in Hout.
  unfold run, tryCatch in Hout.
  rewrite (bind_ok _ _ _ _ _ (call_getQuizByPin_known g _ quiz Hquiz)) in Hout.
  cbn [lq_quiz lq_questions] in Hout.
  fold role userId in Hout. subst refused. cbv beta.
  split; [|split; [|split]].
  - intros Hrole Htruthy.
    rewrite (bool_decide_eq_false_2 _ Hrole), Htruthy in Hout. exact Hout.
  - intros Hrole Htruthy Hnc.
    rewrite (bool_decide_eq_false_2 _ Hrole), Htruthy, Hnc in Hout. exact Hout.
  - intros Hrole Hnc.
    rewrite (bool_decide_eq_true_2 _ Hrole), Hnc in Hout. exact Hout.
  - intros Hnc Hallowed.
    rewrite Hnc, !andb_false_r in Hout.
    assert (Hfirst : negb (bool_decide (role = Some teacher))
                     && negb (JS.truthy_opt userId) = false).
    { destruct Hallowed as [Hrole|Htruthy].
      - rewrite (bool_decide_eq_true_2 _ Hrole). reflexivity.
      - rewrite Htruthy. apply andb_false_r. }
    rewrite Hfirst in Hout.
    match type of Hout with
    | context [bind ?first ?K g] =>
        assert (HK : forall g2 : Gateway,
                   exists (ack : Ack) (g3 : Gateway),
                     K tt g2 = (Ok ack, g3)
                     /\ service g3 = service g2
                     /\ sockets g3 = sockets g2);
        [|assert (Hpromote :
                    exists g2 : Gateway,
                      first g = (Ok tt, g2)
                      /\ service g2 = service g
                      /\ data_role (clientData g2 client) = Some teacher
                      /\ data_userId (clientData g2 client) = userId)]
    end.
    { intros g2. cbv beta.
      match goal with
      | |- context [if ?b then _ else _] =>
          destruct b; [eexists _, _; repeat split|]
      end.
      match goal with
      | |- context [if negb ?b then _ else _] =>
          destruct b; cbn [negb];
          [|destruct (QuizStatus_eqb (quiz_status quiz) FINISHED);
            eexists _, _; repeat split]
      end.
      match goal with
      | |- context [if ?b then _ else _] =>
          destruct b; [eexists _, _; repeat split|]
      end.
      erewrite bind_ok by reflexivity.
      destruct (previousQuestionRemaining _ _ _ _);
        [eexists _, _; repeat split|].
      destruct (JS.index _ _); [|eexists _, _; repeat split].
      erewrite bind_ok by reflexivity.
      erewrite bind_ok by apply clearQuestionTimeout_run.
      do 4 (erewrite bind_ok by reflexivity).
      eexists _, _. repeat split. }
    { destruct (bool_decide (role = Some teacher)) eqn:Hrole; cbn [negb].
      - apply bool_decide_eq_true_1 in Hrole.
        exists g. repeat split; assumption || reflexivity.
      - eexists. split; [reflexivity|]. split; [reflexivity|].
        erewrite clientData_stored
          by (cbn [sockets onSockets]; apply lookup_insert_eq).
        split; reflexivity. }
    destruct Hpromote as (g2 & Hfirstrun & Hs2 & Hr2 & Hu2).
    rewrite (bind_ok _ _ _ _ _ Hfirstrun) in Hout.
    destruct (HK g2) as (ack & g3 & Hrest & Hs3 & Hsock3).
    rewrite Hrest in Hout. subst out. cbn [fst snd].
    unfold clientData in *. rewrite Hs3, Hsock3. auto.
Qed.

Lemma index_some_range {A} (xs : list A) (i : Z) (x : A) :
  JS.index xs i = Some x -> (0 <= i < Z.of_nat (length xs))%Z.
Proof.
  unfold JS.index. destruct (i <? 0)%Z eqn:Hneg; [discriminate|].
  intros H. assert (Hlt : (Z.to_nat i < length xs)%nat).
  { apply nth_error_Some. rewrite H. discriminate. }
  lia.
Qed.

Lemma notCreator_creator (quiz : Quiz) :
  notCreator quiz (Some (quiz_creatorId quiz)) = false.
Proof. cbn. rewrite String.eqb_refl. reflexivity. Qed.

(** X24. A start-question of the creator's teacher connection for
    an existing question of a started quiz, not too early after the
    previous question: it succeeds; the pending timeout registered for the
    quiz, if any, is cancelled and one new timeout is set, due 3 seconds
    after the question's time, carrying the quiz, the PIN, the index and
    the creator's id; the timer entry and the start time of the index are
    recorded; and the room receives [start-question], [game-update] and
    [question-started], in this order.  The service and the connections
    are left alone. *)
Theorem startQuestion_replaces_the_timer
    (g : Gateway) (client pin : string) (currentQuestionIndex now : Z)
    (quiz : Quiz) (question : Question) :
  let qs := questionsOf (db (service g)) (quiz_id quiz) in
  findQuizByPin (db (service g)) pin = Some quiz ->
  quiz_status quiz = STARTED ->
  data_role (clientData g client) = Some teacher ->
  data_userId (clientData g client) = Some (quiz_creatorId quiz) ->
  JS.index qs currentQuestionIndex = Some question ->
  previousQuestionRemaining (questionStartTimes g)
    {| lq_quiz := quiz; lq_questions := qs |} currentQuestionIndex now = None ->
  let out := handleStartQuestion client pin currentQuestionIndex now g in
  let timerId := nextTimerId g in
  fst out = Ack_success
  /\ service (snd out) = service g
  /\ sockets (snd out) = sockets g
  /\ timeouts (snd out)
     = <[timerId :=
           {| timeout_delayMs := (question_timeSeconds question * 1000 + 3000)%Z;
              timeout_quizId := quiz_id quiz;
              timeout_pin := pin;
              timeout_questionIndex := currentQuestionIndex;
              timeout_userId := Some (quiz_creatorId quiz) |}]>
         (match questionTimers g !! quiz_id quiz with
          | Some timer => delete (timer_timerId timer) (timeouts g)
          | None => timeouts g
          end)
  /\ nextTimerId (snd out) = S timerId
  /\ questionTimers (snd out)
     = <[quiz_id quiz :=
           {| timer_questionIndex := currentQuestionIndex;
              timer_startTime := now;
              timer_timeSeconds := question_timeSeconds question;
              timer_timerId := timerId;
              timer_pin := pin |}]> (questionTimers g)
  /\ questionStartTimes (snd out)
     = <[quiz_id quiz :=
           <[currentQuestionIndex := now]>
             (default ∅ (questionStartTimes g !! quiz_id quiz))]>
         (questionStartTimes g)
  /\ emitted (snd out)
     = emitted g
       ++ [ mkEmitted (ToRoom (roomName pin))
              (Ev_start_question pin currentQuestionIndex (question_id question)
                 (question_timeSeconds question) now);
            mkEmitted (ToRoom (roomName pin))
              (Ev_game_update (quiz_id quiz) pin STARTED
                 (Some currentQuestionIndex));
            mkEmitted (ToRoom (roomName pin))
              (Ev_question_started (question_id question)
                 currentQuestionIndex now) ].
Proof.
  intros qs Hquiz Hstarted Hrole Huser Hindex Hprevious out timerId.
  assert (Hout : out = handleStartQuestion client pin currentQuestionIndex now g)
    by reflexivity.
  clearbody out. unfold handleStartQuestion in Hout. cbv zeta in Hout.
  unfold run, tryCatch in Hout.
  rewrite (bind_ok _ _ _ _ _ (call_getQuizByPin_known g _ quiz Hquiz)) in Hout.
  cbn [lq_quiz lq_questions] in Hout. fold qs in Hout.
  pose proof (index_some_range _ _ _ Hindex) as Hrange.
  rewrite Hrole, Huser, notCreator_creator,
    (bool_decide_eq_true_2 _ eq_refl) in Hout.
  cbn [negb andb] in Hout.
  erewrite bind_ok in Hout by reflexivity.
  replace (Z.of_nat (length qs) =? 0)%Z with false in Hout by lia.
  rewrite Hstarted in Hout.
  change (QuizStatus_eqb STARTED STARTED) with true in Hout.
  replace (currentQuestionIndex <? 0)%Z with false in Hout by lia.
  replace (currentQuestionIndex >=? Z.of_nat (length qs))%Z with false in Hout
    by lia.
  cbn [negb orb] in Hout.
  erewrite bind_ok in Hout by reflexivity.
  rewrite Hprevious, Hindex in Hout.
  erewrite bind_ok in Hout by reflexivity.
  erewrite bind_ok in Hout by apply clearQuestionTimeout_run.
  do 4 (erewrite bind_ok in Hout by reflexivity).
  cbn [ret] in Hout. subst out. cbn.
  repeat split. rewrite <- !app_assoc. reflexivity.
Qed.

Lemma findQuizById_finished (d : Db) (quizId : string) (quiz : Quiz) :
  findQuizById d quizId = Some quiz ->
  findQuizById (saveQuiz (withStatus quiz FINISHED) d) quizId
  = Some (withStatus quiz FINISHED).
Proof.
  intros H. rewrite <- (findQuizById_id _ _ _ H).
  apply (findQuizById_saveQuiz_same (withStatus quiz FINISHED)).
  apply (findQuizById_stored _ _ _ H).
Qed.

(** X26. When the timeout of the last question fires while the quiz
    is started, and the timeout carries the creator's id, the quiz is
    stored with status finished, the timer entry of the quiz is dropped together with the
    timeout it names, the start times are kept, and the room receives a
    [game-update] with status finished and the index of the last question,
    followed by the results. *)
Theorem last_question_timer_finishes_the_quiz
    (g : Gateway) (timerId : nat) (now : Z) (t : Timeout) (quiz : Quiz) :
  let quizId := timeout_quizId t in
  let pin := timeout_pin t in
  timeouts g !! timerId = Some t ->
  findQuizByPin (db (service g)) pin = Some quiz ->
  findQuizById (db (service g)) quizId = Some quiz ->
  quiz_status quiz = STARTED ->
  timeout_userId t = Some (quiz_creatorId quiz) ->
  (Z.of_nat (length (questionsOf (db (service g)) (quiz_id quiz)))
   <= timeout_questionIndex t + 1)%Z ->
  let g' := fireTimeout Math_pow timerId now g in
  findQuizById (db (service g')) quizId
  = Some {| quiz_id := quiz_id quiz;
                 quiz_title := quiz_title quiz;
                 quiz_pin := quiz_pin quiz;
                 quiz_status := FINISHED;
                 quiz_creatorId := quiz_creatorId quiz |}
  /\ questionTimers g' = delete quizId (questionTimers g)
  /\ timeouts g'
     = match questionTimers g !! quizId with
       | Some timer => delete (timer_timerId timer) (delete timerId (timeouts g))
       | None => delete timerId (timeouts g)
       end
  /\ questionStartTimes g' = questionStartTimes g
  /\ exists results : QuizResults,
       emitted g'
       = emitted g
         ++ [ mkEmitted (ToRoom (roomName pin))
                (Ev_game_update (quiz_id quiz) pin FINISHED
                   (Some (timeout_questionIndex t)));
              mkEmitted (ToRoom (roomName pin)) (Ev_quiz_results results) ].
Proof.
  intros quizId pin Hpending Hquiz Hid Hstarted Huser Hlast g'.
  assert (Hg' : g' = fireTimeout Math_pow timerId now g) by reflexivity.
  clearbody g'. unfold fireTimeout in Hg'. rewrite Hpending in Hg'.
  fold quizId pin in Hg'. rewrite Huser in Hg'.
  unfold autoAdvanceQuestion in Hg'.
  set (g0 := onTimeouts (delete timerId) g) in Hg'.
  unfold tryCatch in Hg'.
  rewrite (bind_ok _ _ _ _ _ (call_getQuizByPin_known g0 pin quiz Hquiz)) in Hg'.
  cbn [lq_quiz lq_questions] in Hg'.
  rewrite Hstarted in Hg'. change (QuizStatus_eqb STARTED STARTED) with true in Hg'.
  cbn [negb] in Hg'.
  change (db (service g0)) with (db (service g)) in Hg'.
  replace (timeout_questionIndex t + 1 >=?
           Z.of_nat (length (questionsOf (db (service g)) (quiz_id quiz))))%Z
    with true in Hg' by lia.
  erewrite bind_ok in Hg' by apply clearQuestionTimeout_run.
  erewrite bind_ok in Hg' by reflexivity.
  erewrite bind_ok in Hg'
    by (apply call_run; rewrite finishQuiz_run; cbn [service onQuestionTimers onTimeouts g0];
        rewrite Hid, notCreator_creator; reflexivity).
  match type of Hg' with
  | context [bind (call (getTugPosition _ _)) _ ?G] =>
      destruct (call_getTugPosition G quizId (withStatus quiz FINISHED)
                  (findQuizById_finished _ _ _ Hid)) as (tug & cache1 & Htug)
  end.
  rewrite (bind_ok _ _ _ _ _ Htug) in Hg'.
  erewrite bind_ok in Hg' by reflexivity.
  pose proof (findQuizById_id _ _ _ Hid) as Hsame.
  match type of Hg' with
  | context [sendResults _ _ _ _ ?G] =>
      destruct (sendResults_run G pin (quiz_id quiz) (Some (quiz_creatorId quiz))
                  (withStatus quiz FINISHED))
        as (results & cache2 & Hresults);
      [rewrite Hsame; apply (findQuizById_finished _ _ _ Hid)
      |apply (notCreator_creator (withStatus quiz FINISHED))|]
  end.
  rewrite Hresults in Hg'. cbn [fst snd] in Hg'. subst g'.
  split; [apply (findQuizById_finished _ _ _ Hid)|].
  cbn. repeat split.
  exists results. rewrite <- app_assoc. reflexivity.
Qed.

(** X25. When the timeout of a question fires while the quiz under
    its PIN is started and a next question exists, the room receives
    [start-question] and [game-update] for the next index, the start time
    of that index is recorded, and a new timeout for it is set and
    registered, with the same quiz, PIN and user id; the fired timeout is
    gone, any other pending timeout stays, and the service is left
    alone. *)
Theorem question_timer_starts_the_next_question
    (g : Gateway) (timerId : nat) (now : Z) (t : Timeout) (quiz : Quiz)
    (nextQuestion : Question) :
  let quizId := timeout_quizId t in
  let pin := timeout_pin t in
  let nextIndex := (timeout_questionIndex t + 1)%Z in
  timeouts g !! timerId = Some t ->
  findQuizByPin (db (service g)) pin = Some quiz ->
  quiz_status quiz = STARTED ->
  JS.index (questionsOf (db (service g)) (quiz_id quiz)) nextIndex
  = Some nextQuestion ->
  let g' := fireTimeout Math_pow timerId now g in
  service g' = service g
  /\ timeouts g'
     = <[nextTimerId g :=
           {| timeout_delayMs :=
                (question_timeSeconds nextQuestion * 1000 + 3000)%Z;
              timeout_quizId := quizId;
              timeout_pin := pin;
              timeout_questionIndex := nextIndex;
              timeout_userId := timeout_userId t |}]>
         (delete timerId (timeouts g))
  /\ questionTimers g'
     = <[quizId :=
           {| timer_questionIndex := nextIndex;
              timer_startTime := now;
              timer_timeSeconds := question_timeSeconds nextQuestion;
              timer_timerId := nextTimerId g;
              timer_pin := pin |}]> (questionTimers g)
  /\ questionStartTimes g'
     = <[quizId := <[nextIndex := now]>
                     (default ∅ (questionStartTimes g !! quizId))]>
         (questionStartTimes g)
  /\ emitted g'
     = emitted g
       ++ [ mkEmitted (ToRoom (roomName pin))
              (Ev_start_question pin nextIndex (question_id nextQuestion)
                 (question_timeSeconds nextQuestion) now);
            mkEmitted (ToRoom (roomName pin))
              (Ev_game_update (quiz_id quiz) pin STARTED (Some nextIndex)) ].
Proof.
  intros quizId pin nextIndex Hpending Hquiz Hstarted Hnext g'.
  assert (Hg' : g' = fireTimeout Math_pow timerId now g) by reflexivity.
  clearbody g'. unfold fireTimeout in Hg'. rewrite Hpending in Hg'.
  fold quizId pin in Hg'.
  unfold autoAdvanceQuestion in Hg'.
  set (g0 := onTimeouts (delete timerId) g) in Hg'.
  unfold tryCatch in Hg'.
  rewrite (bind_ok _ _ _ _ _ (call_getQuizByPin_known g0 pin quiz Hquiz)) in Hg'.
  cbn [lq_quiz lq_questions] in Hg'.
  rewrite Hstarted in Hg'. change (QuizStatus_eqb STARTED STARTED) with true in Hg'.
  cbn [negb] in Hg'.
  change (db (service g0)) with (db (service g)) in Hg'.
  fold nextIndex in Hg'.
  pose proof (index_some_range _ _ _ Hnext) as Hrange.
  replace (nextIndex >=?
           Z.of_nat (length (questionsOf (db (service g)) (quiz_id quiz))))%Z
    with false in Hg' by lia.
  rewrite Hnext in Hg'.
  do 3 (erewrite bind_ok in Hg' by reflexivity).
  unfold scheduleQuestionTimer in Hg'.
  erewrite bind_ok in Hg' by reflexivity.
  cbn [modify fst snd] in Hg'. subst g'. cbn.
  repeat split. rewrite <- !app_assoc. reflexivity.
Qed.

(** X27. A finish-question from a teacher connection for a stored
    quiz.  Unless the timer entry of the quiz points at the last question
    and the quiz is started, all that happens is the [question-finished]
    broadcast to the room, and the acknowledgement tells whether the timer
    pointed at the last question.  If it does and the quiz is started, and
    the connection carries the creator's id, the quiz is stored with
    status finished, the timer entry and its timeout are dropped, and the
    room receives [question-finished], [game-update] with status finished
    and the
    results, in this order. *)
Theorem finishQuestion_finishes_only_on_the_last_question
    (g : Gateway) (client pin questionId : string) (now : Z) (quiz : Quiz) :
  let qs := questionsOf (db (service g)) (quiz_id quiz) in
  let timer := questionTimers g !! quiz_id quiz in
  let isLastQuestion :=
    match timer with
    | Some t => negb (Nat.eqb (length qs) 0)
                && (timer_questionIndex t =? Z.of_nat (length qs) - 1)%Z
    | None => false
    end in
  let finished := mkEmitted (ToRoom (roomName pin))
                            (Ev_question_finished questionId now) in
  data_role (clientData g client) = Some teacher ->
  findQuizByPin (db (service g)) pin = Some quiz ->
  let out := handleFinishQuestion Math_pow client pin questionId now g in
  (isLastQuestion && QuizStatus_eqb (quiz_status quiz) STARTED = false ->
   out = (Ack_finish_question isLastQuestion,
          onEmitted (fun log => log ++ [finished]) g))
  /\ (isLastQuestion && QuizStatus_eqb (quiz_status quiz) STARTED = true ->
      findQuizById (db (service g)) (quiz_id quiz) = Some quiz ->
      data_userId (clientData g client) = Some (quiz_creatorId quiz) ->
      fst out = Ack_finish_question true
      /\ findQuizById (db (service (snd out))) (quiz_id quiz)
         = Some {| quiz_id := quiz_id quiz;
                 quiz_title := quiz_title quiz;
                 quiz_pin := quiz_pin quiz;
                 quiz_status := FINISHED;
                 quiz_creatorId := quiz_creatorId quiz |}
      /\ questionTimers (snd out) = delete (quiz_id quiz) (questionTimers g)
      /\ timeouts (snd out)
         = match timer with
           | Some t => delete (timer_timerId t) (timeouts g)
           | None => timeouts g
           end
      /\ exists results : QuizResults,
           emitted (snd out)
           = emitted g
             ++ [ finished;
                  mkEmitted (ToRoom (roomName pin))
                    (Ev_game_update (quiz_id quiz) pin FINISHED
                       (option_map timer_questionIndex timer));
                  mkEmitted (ToRoom (roomName pin)) (Ev_quiz_results results) ]).
Proof.
  intros qs timer isLastQuestion finished Hrole Hquiz out.
  assert (Hout : out = handleFinishQuestion Math_pow client pin questionId now g)
    by reflexivity.
  clearbody out. unfold handleFinishQuestion in Hout.
  rewrite Hrole, (bool_decide_eq_true_2 _ eq_refl) in Hout. cbn [negb] in Hout.
  unfold run, tryCatch in Hout.
  rewrite (bind_ok _ _ _ _ _ (call_getQuizByPin_known g _ quiz Hquiz)) in Hout.
  cbn [lq_quiz lq_questions] in Hout.
  erewrite bind_ok in Hout by reflexivity.
  fold qs timer in Hout. cbv zeta in Hout. fold isLastQuestion in Hout.
  erewrite bind_ok in Hout by reflexivity.
  split.
  - intros Hnot. rewrite Hnot in Hout.
    erewrite bind_ok in Hout by reflexivity. exact Hout.
  - intros Hlast Hid Huser. rewrite Hlast, Huser in Hout.
    apply andb_prop in Hlast. destruct Hlast as [Hlast _].
    rewrite !bind_assoc in Hout.
    erewrite bind_ok in Hout by apply clearQuestionTimeout_run.
    rewrite !bind_assoc in Hout.
    erewrite bind_ok in Hout by reflexivity.
    rewrite !bind_assoc in Hout.
    erewrite bind_ok in Hout
      by (apply call_run; rewrite finishQuiz_run;
          cbn [service onQuestionTimers onTimeouts onEmitted];
          rewrite Hid, notCreator_creator; reflexivity).
    rewrite !bind_assoc in Hout.
    match type of Hout with
    | context [bind (call (getTugPosition _ _)) _ ?G] =>
        destruct (call_getTugPosition G (quiz_id quiz)
                    (withStatus quiz FINISHED)
                    (findQuizById_finished _ _ _ Hid))
          as (tug & cache1 & Htug)
    end.
    rewrite (bind_ok _ _ _ _ _ Htug) in Hout.
    rewrite !bind_assoc in Hout.
    erewrite bind_ok in Hout by reflexivity.
    match type of Hout with
    | context [bind (sendResults _ _ _ _) _ ?G] =>
        destruct (sendResults_run G pin (quiz_id quiz)
                    (Some (quiz_creatorId quiz)) (withStatus quiz FINISHED))
          as (results & cache2 & Hresults);
        [apply (findQuizById_finished _ _ _ Hid)
        |apply (notCreator_creator (withStatus quiz FINISHED))|]
    end.
    rewrite (bind_ok _ _ _ _ _ Hresults) in Hout.
    cbn [ret] in Hout. subst out. rewrite Hlast. cbn [fst snd].
    split; [reflexivity|].
    split; [apply (findQuizById_finished _ _ _ Hid)|].
    cbn. repeat split.
    exists results. rewrite <- !app_assoc. reflexivity.
Qed.

(** X20. The events start-quiz, finish-question, finish-quiz,
    get-results and get-participants, sent over a connection whose role is
    not teacher: the acknowledgement is a failure without error text, one
    [error] event goes to that connection, and nothing else changes, in
    the store or in the gateway. *)
Theorem teacher_only_handlers_refuse_others (g : Gateway) (client : string) :
  data_role (clientData g client) <> Some teacher ->
  let refused (message : string) (out : Ack * Gateway) :=
    out = (Ack_failure None,
           onEmitted (fun log => log ++ [mkEmitted (ToClient client)
                                                   (Ev_error message)]) g) in
  (forall data : QuizActionData,
      refused msg_only_teacher_may_start_quiz (handleStartQuiz client data g))
  /\ (forall (pin questionId : string) (now : Z),
         refused "Только учитель может завершить вопрос"
                 (handleFinishQuestion Math_pow client pin questionId now g))
  /\ (forall data : QuizActionData,
         refused "Только учитель может завершить игру"
                 (handleFinishQuiz Math_pow client data g))
  /\ (forall data : QuizActionData,
         refused "Только учитель может получить результаты"
                 (handleGetResults Math_pow client data g))
  /\ (forall (pin : string) (userId : option string),
         refused "Только учитель может получить список участников"
                 (handleGetParticipants client pin userId g)).
Proof.
  intros Hrole refused.
  assert (Hnot : negb (bool_decide (data_role (clientData g client) = Some teacher))
                 = true).
  { apply negb_true_iff, bool_decide_eq_false_2, Hrole. }
  unfold refused, handleStartQuiz, handleFinishQuestion, handleFinishQuiz,
    handleGetResults, handleGetParticipants.
  rewrite Hnot. repeat split; intros; apply run_reject.
Qed.

End GatewayFurther.

(** X29. [handleDisconnect] clears the four tags of the connection
    and keeps its connection time, drops its activity record, takes it out
    of every set of [pinRooms] (the sets stay, possibly empty) and out of
    the room of every PIN whose set held it.  Other connections keep their
    data and their rooms; the service, the start times, the timers and the
    event log are left alone. *)
Theorem handleDisconnect_forgets_the_connection (g : Gateway) (client : string) :
  let g' := handleDisconnect client g in
  clientData g' client = nullData (data_connectedAt (clientData g client))
  /\ clientLastActivity g' = delete client (clientLastActivity g)
  /\ (forall pin : string,
         pinRooms g' !! pin
         = (fun members : gset string => members ∖ {[client]})
             <$> (pinRooms g !! pin))
  /\ (forall (pin : string) (members : gset string),
         pinRooms g !! pin = Some members -> client ∈ members ->
         client ∉ default ∅ (rooms g' !! roomName pin))
  /\ (forall other : string,
         other <> client ->
         sockets g' !! other = sockets g !! other
         /\ forall room : string,
             other ∈ default ∅ (rooms g' !! room)
             <-> other ∈ default ∅ (rooms g !! room))
  /\ service g' = service g
  /\ questionStartTimes g' = questionStartTimes g
  /\ questionTimers g' = questionTimers g
  /\ timeouts g' = timeouts g
  /\ emitted g' = emitted g.
Proof.
  intros g'. subst g'. unfold handleDisconnect.
  split.
  { apply clientData_stored.
    cbn [sockets onClientLastActivity onSockets]. apply lookup_insert_eq. }
  split; [reflexivity|].
  split.
  { intros pin. cbn [pinRooms onClientLastActivity onSockets onRooms onPinRooms].
    apply lookup_fmap. }
  split.
  { intros pin members Hpin Hin.
    cbn [rooms onClientLastActivity onSockets onRooms onPinRooms].
    rewrite map_lookup_imap.
    destruct (rooms g !! roomName pin) as [inRoom|]; cbn;
      [|apply not_elem_of_empty].
    rewrite decide_True.
    { intros [_ Hnot]%elem_of_difference. apply Hnot, elem_of_singleton.
      reflexivity. }
    unfold roomsToLeave. apply elem_of_map. exists pin. split; [reflexivity|].
    apply elem_of_dom. exists members.
    apply map_lookup_filter_Some. split; [exact Hpin|exact Hin]. }
  split.
  { intros other Hother. split.
    - cbn [sockets onClientLastActivity onSockets onRooms onPinRooms].
      apply lookup_insert_ne. congruence.
    - intros room.
      cbn [rooms onClientLastActivity onSockets onRooms onPinRooms].
      rewrite map_lookup_imap.
      destruct (rooms g !! room) as [inRoom|]; cbn; [|reflexivity].
      destruct (decide (room ∈ roomsToLeave client g)); [|reflexivity].
      rewrite elem_of_difference, elem_of_singleton. tauto. }
  repeat split.
Qed.


(** X20 on the sample gateway: Mallory has only connected; her finish-quiz
    for Alice's quiz is refused. *)
Lemma teacher_only_handlers_refuse_others_witness :
  data_role (clientData sample_gateway_mallory "sock-mallory") <> Some teacher
  /\ fst (handleFinishQuiz Math_pow_sample "sock-mallory"
            {| action_pin := "123456"; action_quizId := "quiz-A";
               action_userId := Some "alice" |}
            sample_gateway_mallory)
     = Ack_failure None.
Proof.
  assert (H : data_role (clientData sample_gateway_mallory "sock-mallory")
              <> Some teacher)
    by (vm_compute; discriminate).
  split; [exact H|].
  pose proof (teacher_only_handlers_refuse_others Math_pow_sample
                sample_gateway_mallory "sock-mallory" H) as Hrefused.
  cbv zeta beta in Hrefused.
  destruct Hrefused as (_ & _ & Hfinish & _).
  rewrite Hfinish. reflexivity.
Defined.

(** X21 on the sample gateway: no quiz has the PIN 000000. *)
Lemma join_unknown_pin_changes_nothing_witness :
  findQuizByPin (db (service sample_gateway_mallory)) "000000" = None
  /\ fst (handleJoinQuiz Math_pow_sample "sock-mallory"
            {| join_pin := "000000"; join_role := student;
               join_userId := None; join_participantId := None |}
            12000 sample_gateway_mallory)
     = Ack_failure (Some "Тест с таким PIN не найден").
Proof.
  assert (H : findQuizByPin (db (service sample_gateway_mallory)) "000000" = None)
    by (vm_compute; reflexivity).
  split; [exact H|].
  rewrite (join_unknown_pin_changes_nothing Math_pow_sample
             sample_gateway_mallory "sock-mallory"
             {| join_pin := "000000"; join_role := student;
                join_userId := None; join_participantId := None |}
             12000 H).
  reflexivity.
Defined.

(** X22 on the sample gateway: Mallory joins quiz A as a student while
    question 0 runs; the timer is left alone. *)
Lemma join_tags_connection_and_writes_nothing_witness :
  let data := {| join_pin := "123456"; join_role := student;
                 join_userId := None; join_participantId := Some "p9" |} in
  findQuizByPin (db (service sample_gateway_mallory)) "123456"
  = Some sample_quizA
  /\ fst (handleJoinQuiz Math_pow_sample "sock-mallory" data 12000
                         sample_gateway_mallory)
     = Ack_joined "123456"
  /\ timeouts (snd (handleJoinQuiz Math_pow_sample "sock-mallory" data 12000
                                   sample_gateway_mallory))
     = timeouts sample_gateway_mallory.
Proof.
  cbv zeta.
  assert (H : findQuizByPin (db (service sample_gateway_mallory)) "123456"
              = Some sample_quizA)
    by (vm_compute; reflexivity).
  split; [exact H|].
  pose proof (join_tags_connection_and_writes_nothing Math_pow_sample
                sample_gateway_mallory "sock-mallory"
                {| join_pin := "123456"; join_role := student;
                   join_userId := None; join_participantId := Some "p9" |}
                12000 sample_quizA H) as Hjoin.
  cbv zeta in Hjoin.
  destruct Hjoin as (Hack & _ & _ & _ & _ & _ & _ & _ & Htimeouts & _).
  split; [rewrite Hack; reflexivity|exact Htimeouts].
Defined.

(** X23 on the sample gateway: Mallory, who has only connected, asks for
    question 1. *)
Lemma startQuestion_only_for_the_creator_witness :
  findQuizByPin (db (service sample_gateway_mallory)) "123456"
  = Some sample_quizA
  /\ handleStartQuestion "sock-mallory" "123456" 1 45000 sample_gateway_mallory
     = (Ack_failure None,
        onEmitted (fun log => log ++ [mkEmitted (ToClient "sock-mallory")
                                                (Ev_error msg_join_first)])
                  sample_gateway_mallory).
Proof.
  assert (H : findQuizByPin (db (service sample_gateway_mallory)) "123456"
              = Some sample_quizA)
    by (vm_compute; reflexivity).
  split; [exact H|].
  pose proof (startQuestion_only_for_the_creator sample_gateway_mallory
                "sock-mallory" "123456" 1 45000 sample_quizA H) as Hstart.
  cbv zeta beta in Hstart.
  destruct Hstart as (Hfirst & _).
  apply Hfirst; [vm_compute; discriminate|vm_compute; reflexivity].
Defined.

(** X24 on the sample gateway: Alice starts question 0 at 10000. *)
Lemma startQuestion_replaces_the_timer_witness :
  let out := handleStartQuestion "sock-alice" "123456" 0 10000
                                 sample_gateway_joined in
  fst out = Ack_success
  /\ nextTimerId (snd out) = S (nextTimerId sample_gateway_joined).
Proof.
  cbv zeta.
  pose proof (startQuestion_replaces_the_timer sample_gateway_joined
                "sock-alice" "123456" 0 10000 sample_quizA
                (sample_question "qA1" "quiz-A" "qA1-4" 0)) as Hstart.
  cbv zeta in Hstart.
  destruct Hstart as (Hack & _ & _ & _ & Hnext & _).
  - vm_compute; reflexivity.
  - reflexivity.
  - vm_compute; reflexivity.
  - vm_compute; reflexivity.
  - vm_compute; reflexivity.
  - vm_compute; reflexivity.
  - split; [exact Hack|exact Hnext].
Defined.

(** X25 on the sample gateway: the timer of question 0 fires at 43000. *)
Lemma question_timer_starts_the_next_question_witness :
  service (fireTimeout Math_pow_sample 0 43000 sample_gateway_question0)
  = service sample_gateway_question0
  /\ nextTimerId sample_gateway_question0 = 1%nat.
Proof.
  pose proof (question_timer_starts_the_next_question Math_pow_sample
                sample_gateway_question0 0 43000
                {| timeout_delayMs := 33000; timeout_quizId := "quiz-A";
                   timeout_pin := "123456"; timeout_questionIndex := 0;
                   timeout_userId := Some "alice" |}
                sample_quizA (sample_question "qA2" "quiz-A" "qA2-1" 1))
    as Hfire.
  cbv zeta in Hfire.
  destruct Hfire as (Hservice & _).
  - vm_compute; reflexivity.
  - vm_compute; reflexivity.
  - reflexivity.
  - vm_compute; reflexivity.
  - split; [exact Hservice|vm_compute; reflexivity].
Defined.

(** X26 on the sample gateway: the timer of question 1, the last one,
    fires at 76000. *)
Lemma last_question_timer_finishes_the_quiz_witness :
  findQuizById
    (db (service (fireTimeout Math_pow_sample 1 76000 sample_gateway_question1)))
    "quiz-A"
  = Some sample_quizA_finished.
Proof.
  pose proof (last_question_timer_finishes_the_quiz Math_pow_sample
                sample_gateway_question1 1 76000
                {| timeout_delayMs := 33000; timeout_quizId := "quiz-A";
                   timeout_pin := "123456"; timeout_questionIndex := 1;
                   timeout_userId := Some "alice" |}
                sample_quizA) as Hfire.
  cbv zeta in Hfire.
  destruct Hfire as (Hfinished & _).
  - vm_compute; reflexivity.
  - vm_compute; reflexivity.
  - vm_compute; reflexivity.
  - reflexivity.
  - reflexivity.
  - vm_compute. discriminate.
  - exact Hfinished.
Defined.

(** X27 on the sample gateway: Alice finishes question 0 of 2 by hand,
    which only tells the room; when she finishes question 1, the last one,
    the quiz is finished with it. *)
Lemma finishQuestion_finishes_only_on_the_last_question_witness :
  fst (handleFinishQuestion Math_pow_sample "sock-alice" "123456" "qA1" 20000
                            sample_gateway_question0)
  = Ack_finish_question false
  /\ quiz_status
       <$> findQuizById
             (db (service
                    (snd (handleFinishQuestion Math_pow_sample "sock-alice"
                            "123456" "qA1" 20000 sample_gateway_question0))))
             "quiz-A"
     = Some STARTED
  /\ quiz_status
       <$> findQuizById
             (db (service
                    (snd (handleFinishQuestion Math_pow_sample "sock-alice"
                            "123456" "qA2" 50000 sample_gateway_question1))))
             "quiz-A"
     = Some FINISHED.
Proof.
  split; [|split].
  - pose proof (finishQuestion_finishes_only_on_the_last_question
                  Math_pow_sample sample_gateway_question0 "sock-alice"
                  "123456" "qA1" 20000 sample_quizA) as Hfinish.
    cbv zeta in Hfinish.
    destruct Hfinish as (Hnot & _).
    + vm_compute; reflexivity.
    + vm_compute; reflexivity.
    + rewrite Hnot; vm_compute; reflexivity.
  - vm_compute; reflexivity.
  - pose proof (finishQuestion_finishes_only_on_the_last_question
                  Math_pow_sample sample_gateway_question1 "sock-alice"
                  "123456" "qA2" 50000 sample_quizA) as Hfinish.
    cbv zeta in Hfinish.
    destruct Hfinish as (_ & Hlast).
    + vm_compute; reflexivity.
    + vm_compute; reflexivity.
    + destruct Hlast as (_ & Hstored & _).
      * vm_compute; reflexivity.
      * vm_compute; reflexivity.
      * vm_compute; reflexivity.
      * change (quiz_id sample_quizA) with "quiz-A" in Hstored.
        rewrite Hstored. reflexivity.
Defined.

(** X28 on the sample gateway: Alice finishes her quiz while the timer of
    question 0 is pending. *)
Lemma finishQuiz_event_cancels_the_timer_witness :
  let out := handleFinishQuiz Math_pow_sample "sock-alice"
               {| action_pin := "123456"; action_quizId := "quiz-A";
                  action_userId := Some "alice" |}
               sample_gateway_question0 in
  fst out = Ack_success
  /\ questionTimers (snd out) = delete "quiz-A" (questionTimers sample_gateway_question0).
Proof.
  cbv zeta.
  pose proof (finishQuiz_event_cancels_the_timer Math_pow_sample
                sample_gateway_question0 "sock-alice"
                {| action_pin := "123456"; action_quizId := "quiz-A";
                   action_userId := Some "alice" |}) as Hfinish.
  cbv zeta in Hfinish. cbn [action_pin action_quizId action_userId] in Hfinish.
  assert (Hrun : finishQuiz "quiz-A" (Some "alice")
                            (service sample_gateway_question0)
                 = (Ok (withStatus sample_quizA FINISHED),
                    snd (finishQuiz "quiz-A" (Some "alice")
                                    (service sample_gateway_question0))))
    by (vm_compute; reflexivity).
  rewrite Hrun in Hfinish.
  destruct Hfinish as (Hack & _ & Htimers & _).
  - vm_compute; reflexivity.
  - split; [exact Hack|exact Htimers].
Defined.

(** X29 on the sample gateway: Alice's connection drops. *)
Lemma handleDisconnect_forgets_the_connection_witness :
  pinRooms sample_gateway_joined !! "123456" = Some {["sock-alice"]}
  /\ "sock-alice"
     ∉ default ∅ (rooms (handleDisconnect "sock-alice" sample_gateway_joined)
                  !! roomName "123456").
Proof.
  assert (H : pinRooms sample_gateway_joined !! "123456"
              = Some ({["sock-alice"]} : gset string))
    by (vm_compute; reflexivity).
  split; [exact H|].
  pose proof (handleDisconnect_forgets_the_connection sample_gateway_joined
                "sock-alice") as Hgone.
  cbv zeta in Hgone.
  destruct Hgone as (_ & _ & _ & Hrooms & _).
  apply (Hrooms "123456" {["sock-alice"]} H).
  apply elem_of_singleton. reflexivity.
Defined.

